(** * Verification of the Ecuador National Assembly scraper

    A shallow embedding of the pagination controller, the row
    de-duplication, the document link resolver, the PDF downloader and the
    run orchestrator of the repository, followed by the properties proved
    about them.

    Conventions of the embedding
    - a Python [dict] with string keys is a [gmap string pyval];
    - a Python [set] of strings is a [gset string];
    - a method of a class is a computation in the monad [M St], where [St]
      is the record of the instance attributes the method touches; a Python
      exception is the [Raise] outcome, and [try_except] is [except
      Exception], which lets [KeyboardInterrupt] through;
    - the libraries the program calls ([re], [urllib], [pathlib],
      [requests], [selenium]) are interfaces: classes whose methods the
      definitions call where the source calls the library. *)

From Stdlib Require Import ZArith Lia Ascii String.
From stdpp Require Import gmap strings list pretty.

Set Warnings "-register-all".

Open Scope Z_scope.

(** ** Python values and exceptions *)

(** The values a record loaded from JSON or built by the scraper holds. *)
Inductive pyval : Type :=
| VNone
| VInt (z : Z)
| VStr (s : string)
| VList (l : list pyval).

(** Python truthiness: [if v:]. *)
Definition truthy (v : pyval) : bool :=
  match v with
  | VNone => false
  | VInt z => negb (z =? 0)
  | VStr s => negb (String.eqb s "")
  | VList l => match l with [] => false | _ => true end
  end.

(** The exception classes the program tells apart.  The first two are
    subclasses of [Exception]; [KeyboardInterrupt] derives from
    [BaseException] only. *)
Inductive exn : Type :=
| RequestException
| OtherException
| KeyboardInterrupt.

Definition is_Exception (e : exn) : bool :=
  match e with
  | KeyboardInterrupt => false
  | _ => true
  end.

Definition is_RequestException (e : exn) : bool :=
  match e with
  | RequestException => true
  | _ => false
  end.

Inductive outcome (A : Type) : Type :=
| Ok (a : A)
| Raise (e : exn).
Arguments Ok {A} a.
Arguments Raise {A} e.

(** ** The state-and-exception monad of a method *)

Definition M (St A : Type) : Type := St → outcome A * St.

Definition ret {St A} (a : A) : M St A := λ s, (Ok a, s).

Definition bind {St A B} (m : M St A) (k : A → M St B) : M St B :=
  λ s, match m s with
       | (Ok a, s') => k a s'
       | (Raise e, s') => (Raise e, s')
       end.

Definition raise {St A} (e : exn) : M St A := λ s, (Raise e, s).

Definition get_state {St} : M St St := λ s, (Ok s, s).

Definition modify {St} (f : St → St) : M St unit := λ s, (Ok tt, f s).

(** [try: body except Exception as e: handler e].  The handler runs in the
    state the body left behind; a [KeyboardInterrupt] is not caught. *)
Definition try_except {St A} (body : M St A) (handler : exn → M St A) : M St A :=
  λ s, match body s with
       | (Ok a, s') => (Ok a, s')
       | (Raise e, s') => if is_Exception e then handler e s' else (Raise e, s')
       end.

(** Lifting a computation on a component of the state. *)
Definition lift_outcome {St A} (o : outcome A) : M St A := λ s, (o, s).

Declare Scope py_scope.
Delimit Scope py_scope with py.
Notation "'do' x <- m ; k" := (bind m (λ x, k))
  (at level 10, x name, m at level 100, k at level 200) : py_scope.
Notation "'do' ' p <- m ; k" := (bind m (λ x, match x with p => k end))
  (at level 10, p pattern, m at level 100, k at level 200) : py_scope.
Notation "m ;; k" := (bind m (λ _, k))
  (at level 100, k at level 200, right associativity) : py_scope.
Open Scope py_scope.

(** [for x in l: body x], the body returning nothing. *)
Fixpoint for_each {St A} (l : list A) (body : A → M St unit) : M St unit :=
  match l with
  | [] => ret tt
  | x :: rest => body x ;; for_each rest body
  end.

(** ** Strings *)

Definition lower_ascii (c : ascii) : ascii :=
  let n := Ascii.nat_of_ascii c in
  if ((65 <=? n)%nat && (n <=? 90)%nat)%bool then Ascii.ascii_of_nat (n + 32) else c.

(** [s.lower()]: strings are sequences of bytes, and only the ASCII letters
    have a case. *)
Fixpoint lower (s : string) : string :=
  match s with
  | EmptyString => EmptyString
  | String c rest => String (lower_ascii c) (lower rest)
  end.

(** [s.startswith(p)]. *)
Fixpoint startswith (p s : string) : bool :=
  match p, s with
  | EmptyString, _ => true
  | String a p', String b s' => (Ascii.eqb a b && startswith p' s')%bool
  | String _ _, EmptyString => false
  end.

(** [p in s] on strings. *)
Fixpoint contains (p s : string) : bool :=
  (startswith p s ||
   match s with
   | EmptyString => false
   | String _ s' => contains p s'
   end)%bool.

(** [s.endswith(p)]. *)
Definition endswith (p s : string) : bool :=
  startswith (String.rev p) (String.rev s).

(** [any(k in s for k in keywords)]. *)
Definition any_in (keywords : list string) (s : string) : bool :=
  existsb (λ k, contains k s) keywords.

(** Text is held as its UTF-8 bytes: a character is a first byte and the
    continuation bytes (binary 10xxxxxx, 128 to 191) that follow it. *)
Definition is_continuation (c : ascii) : bool :=
  let n := Ascii.nat_of_ascii c in
  ((128 <=? n)%nat && (n <? 192)%nat)%bool.

(** [s[:n]] on text: the first [n] characters of [s], each with all its
    bytes. *)
Fixpoint str_prefix (n : nat) (s : string) : string :=
  match s with
  | EmptyString => EmptyString
  | String c rest =>
      if is_continuation c then String c (str_prefix n rest)
      else
        match n with
        | O => EmptyString
        | S n' => String c (str_prefix n' rest)
        end
  end.


(** ** The library interface *)

(** What the program takes from the Python runtime and its standard
    library.  Patterns are passed as the source writes them. *)
Class PyRuntime : Type := {
  (** [str(l)] for a list [l] *)
  repr_list : list pyval → string;
  (** [re.sub(pattern, repl, s)] *)
  re_sub : string → string → string → string;
  (** [re.findall(pattern, s, re.IGNORECASE)]: the groups of every match *)
  re_findall : string → string → list (list string);
  (** [re.search(pattern, s)], as [m.group(1)] of the match *)
  re_search : string → string → option string;
  (** [s.strip()] *)
  str_strip : string → string;
  (** [int(s)]; [None] is [ValueError] *)
  py_int : string → option Z;
  (** [urlparse(url).path] *)
  urlparse_path : string → string;
  (** [str(Path(dir) / name)] *)
  path_join : string → string → string;
}.

(** [f"{v}"], which is [str(v)]. *)
Definition py_format `{PyRuntime} (v : pyval) : string :=
  match v with
  | VNone => "None"
  | VInt z => pretty z
  | VStr s => s
  | VList l => repr_list l
  end.

(** [d.get(key, default)]. *)
Definition dict_get (d : gmap string pyval) (key : string) (dflt : pyval) : pyval :=
  default dflt (d !! key).

(** ** Logging *)

Inductive level : Type := DEBUG | INFO | WARNING | ERROR.

(** A log record: the level and the message, dynamic parts left out of the
    text when they are numbers. *)
Definition log_record : Type := level * string.


(** A double quote, for the selectors that contain one. *)
Definition dq : string := String (Ascii.ascii_of_nat 34) EmptyString.
Definition quoted (s : string) : string := dq +:+ s +:+ dq.

(** ** The browser *)

Inductive By : Type := XPATH | CSS_SELECTOR | TAG_NAME.

(** The WebDriver over a browser whose state is [W]; [E] are the element
    handles.  Reads are functions of the browser state, actions change it;
    both may raise.  [sleep] is [time.sleep] in milliseconds: the page goes
    on loading while the program waits. *)
Class Selenium (W E : Type) : Type := {
  chrome : bool → outcome W;
  set_window_size : Z → Z → M W unit;
  quit : M W unit;
  driver_get : string → M W unit;
  sleep : Z → M W unit;
  save_screenshot : string → M W unit;
  page_source : W → outcome string;
  current_url : W → outcome string;
  find_elements : By → string → W → outcome (list E);
  find_element : By → string → W → outcome E;
  elem_find_elements : E → By → string → W → outcome (list E);
  elem_find_element : E → By → string → W → outcome E;
  (** [WebDriverWait(driver, seconds).until(presence_of_element_located(...))] *)
  wait_until_present : Z → By → string → M W unit;
  is_displayed : E → W → outcome bool;
  is_enabled : E → W → outcome bool;
  elem_text : E → W → outcome string;
  get_attribute : E → string → W → outcome (option string);
  click : E → M W unit;
  clear : E → M W unit;
  send_keys : E → string → M W unit;
}.

(** The instance attributes of a scraper. [delay] is in milliseconds. *)
Record Scraper (W : Type) : Type := mkScraper {
  driver : option W;
  headless : bool;
  delay : Z;
  download_pdfs : bool;
  pdf_dir : string;
  all_projects : list (gmap string pyval);
  total_records : Z;
  current_page : Z;
  seen_project_ids : gset string;
  log : list log_record;
}.
Arguments mkScraper {W}.
Arguments driver {W}.
Arguments headless {W}.
Arguments delay {W}.
Arguments download_pdfs {W}.
Arguments pdf_dir {W}.
Arguments all_projects {W}.
Arguments total_records {W}.
Arguments current_page {W}.
Arguments seen_project_ids {W}.
Arguments log {W}.

Definition set_driver {W} (d : option W) (s : Scraper W) : Scraper W :=
  mkScraper d (headless s) (delay s) (download_pdfs s) (pdf_dir s) (all_projects s)
            (total_records s) (current_page s) (seen_project_ids s) (log s).

Definition set_all_projects {W} (l : list (gmap string pyval)) (s : Scraper W) : Scraper W :=
  mkScraper (driver s) (headless s) (delay s) (download_pdfs s) (pdf_dir s) l
            (total_records s) (current_page s) (seen_project_ids s) (log s).

Definition set_total_records {W} (n : Z) (s : Scraper W) : Scraper W :=
  mkScraper (driver s) (headless s) (delay s) (download_pdfs s) (pdf_dir s) (all_projects s)
            n (current_page s) (seen_project_ids s) (log s).

Definition set_current_page {W} (n : Z) (s : Scraper W) : Scraper W :=
  mkScraper (driver s) (headless s) (delay s) (download_pdfs s) (pdf_dir s) (all_projects s)
            (total_records s) n (seen_project_ids s) (log s).

Definition set_seen_project_ids {W} (ids : gset string) (s : Scraper W) : Scraper W :=
  mkScraper (driver s) (headless s) (delay s) (download_pdfs s) (pdf_dir s) (all_projects s)
            (total_records s) (current_page s) ids (log s).

Definition set_log {W} (l : list log_record) (s : Scraper W) : Scraper W :=
  mkScraper (driver s) (headless s) (delay s) (download_pdfs s) (pdf_dir s) (all_projects s)
            (total_records s) (current_page s) (seen_project_ids s) l.

(** [logger.<level>(msg)]. *)
Definition logger {W} (lv : level) (msg : string) : M (Scraper W) unit :=
  modify (λ s, set_log (log s ++ [(lv, msg)]) s).

(** An action of [self.driver]; on [None] the attribute access raises. *)
Definition on_driver {W A} (m : M W A) : M (Scraper W) A :=
  λ s, match driver s with
       | Some w => let '(o, w') := m w in (o, set_driver (Some w') s)
       | None => (Raise OtherException, s)
       end.

(** A read of [self.driver]. *)
Definition read_driver {W A} (f : W → outcome A) : M (Scraper W) A :=
  λ s, match driver s with
       | Some w => (f w, s)
       | None => (Raise OtherException, s)
       end.

(** A variable local to a method, next to the attributes of the object:
    what happened to it before an exception is still there in the
    handler. *)
Definition in_object {St L A} (m : M St A) : M (St * L) A :=
  λ '(s, l), let '(o, s') := m s in (o, (s', l)).

Definition get_local {St L} : M (St * L) L := λ '(s, l), (Ok l, (s, l)).

Definition modify_local {St L} (f : L → L) : M (St * L) unit :=
  λ '(s, l), (Ok tt, (s, f l)).

(** The method body [m] run with its local variable set to [init]; the
    result comes with the last value of the variable. *)
Definition with_local {St L A} (init : L) (m : M (St * L) A) : M St (A * L) :=
  λ s, let '(o, (s', l)) := m (s, init) in
       (match o with Ok a => Ok (a, l) | Raise e => Raise e end, s').

(** [time.sleep(ms)]: time passes in the browser, if there is one. *)
Definition time_sleep {W E} `{Selenium W E} (ms : Z) : M (Scraper W) unit :=
  λ s, match driver s with
       | Some w => let '(o, w') := sleep ms w in (o, set_driver (Some w') s)
       | None => (Ok tt, s)
       end.

(** [element.is_displayed() and element.is_enabled()]. *)
Definition displayed_and_enabled {W E} `{!Selenium W E} (element : E) (w : W) : outcome bool :=
  match is_displayed element w with
  | Ok true => is_enabled element w
  | Ok false => Ok false
  | Raise x => Raise x
  end.

(** The blocks [blocks] ran one after the other from state [s] to state
    [s'] and each fell through to the next statement. *)
Inductive fell_through {St A} : list (M St (option A)) → St → St → Prop :=
| fell_through_nil s : fell_through [] s s
| fell_through_cons block blocks s s1 s' :
    block s = (Ok None, s1) →
    fell_through blocks s1 s' →
    fell_through (block :: blocks) s s'.

(** No [Exception] leaves the computation: it ends normally or is
    interrupted. *)
Definition catches_exceptions {St A} (m : M St A) : Prop :=
  ∀ s e s', m s = (Raise e, s') → is_Exception e = false.

(** However the computation ends, the state it leaves is related by [R]
    to the state it started in. *)
Definition preserves {St A} (R : St → St → Prop) (m : M St A) : Prop :=
  ∀ s o s', m s = (o, s') → R s s'.

(** The text of a body sent in chunks. *)
Definition concat_chunks (body : list string) : string :=
  foldr String.append EmptyString body.

(** A block of a method that may [return]: [Some v] is [return v], [None]
    is falling through to the statement after the block. *)
Definition or_continue {St A} (block : M St (option A)) (rest : M St A) : M St A :=
  do r <- block;
  match r with
  | Some v => ret v
  | None => rest
  end.

(** * improved_pagination_scraper.py *)

Module Improved.
Section WithBrowser.
Context {W E : Type} `{!Selenium W E} `{!PyRuntime}.

Definition iframe_url : string := "https://leyes.asambleanacional.gob.ec?vhf=1".

(** The four regional page-count patterns, in the order they are tried. *)
Definition page_patterns : list string :=
  [ "(\d+)\s*of\s*(\d+)";
    "Página\s*(\d+)\s*de\s*(\d+)";
    "(\d+)\s*/\s*(\d+)";
    "(\d+)\s*de\s*(\d+)" ].

Definition total_patterns : list string :=
  [ "total de registros:\s*(\d+)";
    "total records:\s*(\d+)";
    "registros:\s*(\d+)";
    "records:\s*(\d+)" ].

(** [for pattern in patterns: matches = re.findall(...); if matches:] the
    first match of the first pattern that has one. *)
Fixpoint first_match (patterns : list string) (page_content : string) : option (list string) :=
  match patterns with
  | [] => None
  | pattern :: rest =>
      match re_findall pattern page_content with
      | groups :: _ => Some groups
      | [] => first_match rest page_content
      end
  end.

(** [current, total = map(int, matches[0])]. *)
Definition unpack_two_ints (groups : list string) : outcome (Z * Z) :=
  match groups with
  | [a; b] =>
      match py_int a, py_int b with
      | Some x, Some y => Ok (x, y)
      | _, _ => Raise OtherException
      end
  | _ => Raise OtherException
  end.

(** [int(matches[0])] for a pattern with one group. *)
Definition unpack_int (groups : list string) : outcome Z :=
  match groups with
  | [a] =>
      match py_int a with
      | Some x => Ok x
      | None => Raise OtherException
      end
  | _ => Raise OtherException
  end.

Definition pagination_info (total_records total_pages current_page : Z) : gmap string pyval :=
  {[ "total_records" := VInt total_records;
     "total_pages" := VInt total_pages;
     "items_per_page" := VInt 10;
     "current_page" := VInt current_page ]}.

Definition get_total_records_and_pages : M (Scraper W) (gmap string pyval) :=
  try_except
    (do s <- get_state;
     match driver s with
     | None =>
         ret {[ "total_records" := VInt 0; "total_pages" := VInt 0;
                "items_per_page" := VInt 10 ]}
     | Some _ =>
         do page_content <- read_driver page_source;
         match first_match page_patterns page_content with
         | Some groups =>
             do '(current, total) <- lift_outcome (unpack_two_ints groups);
             logger INFO "Found page info" ;;
             let total_records := total * 10 in
             ret (pagination_info total_records total current)
         | None =>
             match first_match total_patterns page_content with
             | Some groups =>
                 do total_records <- lift_outcome (unpack_int groups);
                 let total_pages := (total_records + 9) `div` 10 in
                 logger INFO "Found total records" ;;
                 ret (pagination_info total_records total_pages 1)
             | None =>
                 logger WARNING "Could not determine pagination info, using defaults" ;;
                 ret (pagination_info 2742 275 1)
             end
         end
     end)
    (λ e,
      logger ERROR "Error getting pagination info" ;;
      ret (pagination_info 2742 275 1)).

Definition get_current_page_number : M (Scraper W) Z :=
  try_except
    (do s <- get_state;
     match driver s with
     | None => ret 1
     | Some _ =>
         do page_content <- read_driver page_source;
         match first_match page_patterns page_content with
         | Some groups =>
             do '(current, total) <- lift_outcome (unpack_two_ints groups);
             ret current
         | None => ret (current_page s)
         end
     end)
    (λ e,
      logger ERROR "Error getting current page number" ;;
      do s <- get_state;
      ret (current_page s)).

(** The controls [find_pagination_controls] returns: a dict whose three
    keys may each be absent. *)
Record Controls : Type := mkControls {
  next_button : option E;
  page_input : option E;
  page_links : option (list E);
}.

Definition next_selectors : list string :=
  [ "//button[contains(text(), " +:+ quoted "Next" +:+ ")]";
    "//button[contains(text(), " +:+ quoted "Siguiente" +:+ ")]";
    "//button[contains(text(), " +:+ quoted ">" +:+ ")]";
    "//a[contains(text(), " +:+ quoted "Next" +:+ ")]";
    "//a[contains(text(), " +:+ quoted "Siguiente" +:+ ")]";
    "//a[contains(text(), " +:+ quoted ">" +:+ ")]";
    ".next";
    ".pagination-next";
    "[class*=" +:+ quoted "next" +:+ "]" ].

Definition page_input_selectors : list string :=
  [ "input[type=" +:+ quoted "number" +:+ "]";
    "input[placeholder*=" +:+ quoted "page" +:+ "]";
    "input[name*=" +:+ quoted "page" +:+ "]";
    "input[id*=" +:+ quoted "page" +:+ "]";
    ".page-input";
    "[class*=" +:+ quoted "page-input" +:+ "]" ].

Definition page_link_selectors : list string :=
  [ ".pagination a";
    "[class*=" +:+ quoted "pagination" +:+ "] a";
    ".page-link";
    "[class*=" +:+ quoted "page" +:+ "] a" ].

(** [for element in elements: if test(element): ...; break]: the first
    element that passes, the reads done in order. *)
Fixpoint first_element (test : E → W → outcome bool) (elements : list E) (w : W)
  : outcome (option E) :=
  match elements with
  | [] => Ok None
  | element :: rest =>
      match test element w with
      | Ok true => Ok (Some element)
      | Ok false => first_element test rest w
      | Raise x => Raise x
      end
  end.

(** The loop over the selectors of one control: the first selector one of
    whose elements passes [test] gives the control; a selector that raises
    is skipped. *)
Fixpoint find_control (test : E → W → outcome bool) (found_msg error_msg : string)
    (selectors : list string) : M (Scraper W) (option E) :=
  match selectors with
  | [] => ret None
  | selector :: rest =>
      do found <-
        try_except
          (do elements <-
             read_driver (find_elements
               (if startswith "//" selector then XPATH else CSS_SELECTOR) selector);
           do found <- read_driver (first_element test elements);
           match found with
           | Some _ => logger INFO found_msg ;; ret found
           | None => ret None
           end)
          (λ e, logger DEBUG error_msg ;; ret None);
      match found with
      | Some element => ret (Some element)
      | None => find_control test found_msg error_msg rest
      end
  end.

(** The loop over the page-link selectors: the elements of the first
    selector that finds any. *)
Fixpoint find_page_links (selectors : list string) : M (Scraper W) (option (list E)) :=
  match selectors with
  | [] => ret None
  | selector :: rest =>
      do found <-
        try_except
          (do elements <- read_driver (find_elements CSS_SELECTOR selector);
           match elements with
           | [] => ret None
           | _ => logger INFO "Found page links with selector" ;; ret (Some elements)
           end)
          (λ e, logger DEBUG "Error with page link selector" ;; ret None);
      match found with
      | Some elements => ret (Some elements)
      | None => find_page_links rest
      end
  end.

Definition find_pagination_controls : M (Scraper W) Controls :=
  try_except
    (do s <- get_state;
     match driver s with
     | None => ret (mkControls None None None)
     | Some _ =>
         do nb <- find_control displayed_and_enabled
                    "Found next button with selector" "Error with next selector"
                    next_selectors;
         do pi <- find_control is_displayed
                    "Found page input with selector" "Error with page input selector"
                    page_input_selectors;
         do pl <- find_page_links page_link_selectors;
         ret (mkControls nb pi pl)
     end)
    (λ e,
      logger ERROR "Error finding pagination controls" ;;
      ret (mkControls None None None)).

(** The check every navigation method ends with: [get_current_page_number]
    is called again and its value compared with the one it gave before
    navigating.  That value is the indicator of the page when the page
    shows one, and the stored page otherwise.  [unchanged] is what the
    method logs when the page did not move. *)
Definition verify_moved (current_page_info : Z) (unchanged : M (Scraper W) unit)
  : M (Scraper W) (option bool) :=
  do new_page_info <- get_current_page_number;
  if decide (new_page_info ≠ current_page_info) then
    (modify (set_current_page new_page_info) ;;
     logger INFO "Successfully navigated to page" ;;
     ret (Some true))
  else
    (unchanged ;; ret None).

(** Method 1: the next button. *)
Definition method_next_button (current_page_info : Z) (controls : Controls)
  : M (Scraper W) (option bool) :=
  match next_button controls with
  | Some button =>
      try_except
        (do enabled <- read_driver (is_enabled button);
         if enabled : bool then
           (on_driver (click button) ;;
            do s <- get_state;
            time_sleep (delay s) ;;
            verify_moved current_page_info
              (logger WARNING "Next button clicked but page didn't change"))
         else
           (logger WARNING "Next button is disabled" ;; ret None))
        (λ e, logger ERROR "Error clicking next button" ;; ret None)
  | None => ret None
  end.

(** Method 2: the page-number input. *)
Definition method_page_input (current_page_info : Z) (controls : Controls)
  : M (Scraper W) (option bool) :=
  match page_input controls with
  | Some input =>
      try_except
        (do s <- get_state;
         let next_page := current_page s + 1 in
         on_driver (clear input) ;;
         on_driver (send_keys input (pretty next_page)) ;;
         on_driver (send_keys input (String (Ascii.ascii_of_nat 10) EmptyString)) ;;
         time_sleep (delay s) ;;
         verify_moved current_page_info
           (logger WARNING "Page input used but page didn't change"))
        (λ e, logger ERROR "Error using page input" ;; ret None)
  | None => ret None
  end.

(** [for link in controls['page_links']]: the first link whose text is the
    target page number is clicked, and the loop ends there either way. *)
Fixpoint click_page_link (current_page_info next_page : Z) (links : list E)
  : M (Scraper W) (option bool) :=
  match links with
  | [] => ret None
  | link :: rest =>
      do text <- read_driver (elem_text link);
      if String.eqb (str_strip text) (pretty next_page) then
        (on_driver (click link) ;;
         do s <- get_state;
         time_sleep (delay s) ;;
         verify_moved current_page_info (ret tt))
      else click_page_link current_page_info next_page rest
  end.

(** Method 3: the page-number links. *)
Definition method_page_links (current_page_info : Z) (controls : Controls)
  : M (Scraper W) (option bool) :=
  match page_links controls with
  | Some links =>
      try_except
        (do s <- get_state;
         let next_page := current_page s + 1 in
         click_page_link current_page_info next_page links)
        (λ e, logger ERROR "Error using page links" ;; ret None)
  | None => ret None
  end.

(** Method 4: the [page] parameter of the URL. *)
Definition method_url (current_page_info : Z) : M (Scraper W) (option bool) :=
  try_except
    (do url <- read_driver current_url;
     do s <- get_state;
     let next_page := current_page s + 1 in
     let new_url :=
       if contains "?" url then url +:+ "&page=" +:+ pretty next_page
       else url +:+ "?page=" +:+ pretty next_page in
     on_driver (driver_get new_url) ;;
     time_sleep (delay s) ;;
     verify_moved current_page_info
       (logger WARNING "URL navigation used but page didn't change"))
    (λ e, logger ERROR "Error with URL navigation" ;; ret None).

Definition navigate_to_next_page : M (Scraper W) bool :=
  try_except
    (do s <- get_state;
     match driver s with
     | None => logger ERROR "WebDriver not initialized" ;; ret false
     | Some _ =>
         logger INFO "Attempting to navigate from page" ;;
         do current_page_info <- get_current_page_number;
         do controls <- find_pagination_controls;
         or_continue (method_next_button current_page_info controls)
        (or_continue (method_page_input current_page_info controls)
        (or_continue (method_page_links current_page_info controls)
        (or_continue (method_url current_page_info)
        (logger ERROR "All navigation methods failed" ;; ret false))))
     end)
    (λ e, logger ERROR "Error navigating to next page" ;; ret false).

(** The four methods in the order [navigate_to_next_page] runs them. *)
Definition navigation_methods (current_page_info : Z) (controls : Controls)
  : list (M (Scraper W) (option bool)) :=
  [ method_next_button current_page_info controls;
    method_page_input current_page_info controls;
    method_page_links current_page_info controls;
    method_url current_page_info ].

(** What a successful return of [navigate_to_next_page] rests on, [s]
    being the state at the call and [s'] the state at the return:
    [get_current_page_number] was called again in a state [t] that has
    the browser of [s'] and still the stored page of [s], the value it
    gave differs from [current_page_info], the one it gave before
    navigating, and it is the new stored page.  The value is the
    indicator of the page only when the page shows one: otherwise it is
    the stored page of [s]. *)
Definition verified_advance (current_page_info : Z) (s s' : Scraper W) : Prop :=
  current_page s' ≠ current_page_info ∧
  ∃ t t', get_current_page_number t = (Ok (current_page s'), t') ∧
          driver t = driver s' ∧
          current_page t = current_page s.

(** A computation that leaves the stored page number as it is, however
    it ends. *)
Definition keeps_page {A} (m : M (Scraper W) A) : Prop :=
  ∀ s o s', m s = (o, s') → current_page s' = current_page s.

(** A navigation method returns only [True], and only on a verified
    advance; otherwise it leaves the stored page number as it is. *)
Definition verifies_advance (current_page_info : Z) (m : M (Scraper W) (option bool)) : Prop :=
  ∀ s o s', m s = (o, s') →
    match o with
    | Ok (Some b) => b = true ∧ verified_advance current_page_info s s'
    | _ => current_page s' = current_page s
    end.

(** *** The document link resolver and the row extractor *)

(** The pattern of a quoted text with [.pdf] in it, as the source writes
    it: an opening quote, the captured text, a closing quote. *)
Definition pdf_url_pattern : string :=
  "[" +:+ dq +:+ "\']([^" +:+ dq +:+ "\']*\.pdf[^" +:+ dq +:+ "\']*)[" +:+ dq +:+ "\']".

Definition button_selector : string := "button, input[type=" +:+ quoted "button" +:+ "]".

(** [if href:] on what [get_attribute] gave. *)
Definition truthy_text (text : option string) : option string :=
  match text with
  | Some t => if String.eqb t EmptyString then None else Some t
  | None => None
  end.

(** A read of the browser inside a method with a local variable. *)
Definition reading {L A} (f : W → outcome A) : M (Scraper W * L) A :=
  in_object (read_driver f).

(** The loop over the anchors of [find_pdf_links_in_table]: the two tests
    are two [if]s, and each appends. *)
Fixpoint scan_row_links (links : list E) : M (Scraper W * list string) unit :=
  match links with
  | [] => ret tt
  | link :: rest =>
      do href <- reading (get_attribute link "href");
      match truthy_text href with
      | Some href =>
          (if any_in [".pdf"; "pdf"; "download"] (lower href)
           then modify_local (λ pdf_links, pdf_links ++ [href])
           else ret tt) ;;
          do text <- reading (elem_text link);
          let link_text := lower text in
          (if any_in ["pdf"; "descargar"; "download"; "ver"] link_text
           then modify_local (λ pdf_links, pdf_links ++ [href])
           else ret tt) ;;
          scan_row_links rest
      | None => scan_row_links rest
      end
  end.

(** The loop over the buttons of [find_pdf_links_in_table]. *)
Fixpoint scan_row_buttons (buttons : list E) : M (Scraper W * list string) unit :=
  match buttons with
  | [] => ret tt
  | button :: rest =>
      do onclick <- reading (get_attribute button "onclick");
      let onclick := default EmptyString onclick in
      (if (contains "pdf" (lower onclick) || contains "download" (lower onclick))%bool then
         match re_search pdf_url_pattern onclick with
         | Some url => modify_local (λ pdf_links, pdf_links ++ [url])
         | None => ret tt
         end
       else ret tt) ;;
      scan_row_buttons rest
  end.

Definition find_pdf_links_in_table (row_element : E) : M (Scraper W) (list string) :=
  do '(_, pdf_links) <-
    with_local []
      (try_except
         (do links <- reading (elem_find_elements row_element CSS_SELECTOR "a");
          scan_row_links links ;;
          do buttons <- reading (elem_find_elements row_element CSS_SELECTOR button_selector);
          scan_row_buttons buttons)
         (λ e, in_object (logger DEBUG "Error finding PDF links in row")));
  ret pdf_links.

(** The loop over the anchors of [find_pdf_links_in_dialog]: the second
    test is an [elif]. *)
Fixpoint scan_dialog_links (links : list E) : M (Scraper W * list string) unit :=
  match links with
  | [] => ret tt
  | link :: rest =>
      do href <- reading (get_attribute link "href");
      do text <- reading (elem_text link);
      let link_text := lower (str_strip text) in
      match truthy_text href with
      | Some href =>
          if any_in [".pdf"; "pdf"; "download"] (lower href) then
            (modify_local (λ pdf_links, pdf_links ++ [href]) ;;
             in_object (logger INFO "Found PDF link in dialog"))
          else if any_in ["pdf"; "descargar"; "download"; "ver"; "documento"] link_text then
            (modify_local (λ pdf_links, pdf_links ++ [href]) ;;
             in_object (logger INFO "Found potential PDF link in dialog"))
          else ret tt
      | None => ret tt
      end ;;
      scan_dialog_links rest
  end.

(** [for link in links: href = ...; if href: ...; break]: the first
    [href] that is there. *)
Fixpoint first_href {L} (links : list E) : M (Scraper W * L) (option string) :=
  match links with
  | [] => ret None
  | link :: rest =>
      do href <- reading (get_attribute link "href");
      match truthy_text href with
      | Some href => ret (Some href)
      | None => first_href rest
      end
  end.

(** The loop over the buttons of [find_pdf_links_in_dialog]. *)
Fixpoint scan_dialog_buttons (buttons : list E) : M (Scraper W * list string) unit :=
  match buttons with
  | [] => ret tt
  | button :: rest =>
      do onclick <- reading (get_attribute button "onclick");
      let onclick := default EmptyString onclick in
      do text <- reading (elem_text button);
      let button_text := lower (str_strip text) in
      (if (contains "pdf" (lower onclick) || contains "download" (lower onclick))%bool then
         match re_search pdf_url_pattern onclick with
         | Some url =>
             modify_local (λ pdf_links, pdf_links ++ [url]) ;;
             in_object (logger INFO "Found PDF link in dialog button onclick")
         | None => ret tt
         end
       else if any_in ["pdf"; "descargar"; "download"; "ver"; "documento"] button_text then
         try_except
           (do parent <- reading (elem_find_element button XPATH "./..");
            do links <- reading (elem_find_elements parent CSS_SELECTOR "a");
            do href <- first_href links;
            match href with
            | Some href =>
                modify_local (λ pdf_links, pdf_links ++ [href]) ;;
                in_object (logger INFO "Found PDF link near dialog button")
            | None => ret tt
            end)
           (λ e, in_object (logger DEBUG "Error finding associated URL in dialog"))
       else ret tt) ;;
      scan_dialog_buttons rest
  end.

Definition clickable_selector : string :=
  "[onclick*=" +:+ quoted "pdf" +:+ "], [onclick*=" +:+ quoted "download" +:+
  "], [href*=" +:+ quoted "pdf" +:+ "], [href*=" +:+ quoted "download" +:+ "]".

(** The loop over the clickable elements of [find_pdf_links_in_dialog]. *)
Fixpoint scan_clickables (clickables : list E) : M (Scraper W * list string) unit :=
  match clickables with
  | [] => ret tt
  | clickable :: rest =>
      do href <- reading (get_attribute clickable "href");
      let href := default EmptyString href in
      do onclick <- reading (get_attribute clickable "onclick");
      let onclick := default EmptyString onclick in
      (if (negb (String.eqb href EmptyString) &&
           any_in [".pdf"; "pdf"; "download"] (lower href))%bool then
         (modify_local (λ pdf_links, pdf_links ++ [href]) ;;
          in_object (logger INFO "Found PDF link in dialog clickable"))
       else if (negb (String.eqb onclick EmptyString) &&
                (contains "pdf" (lower onclick) || contains "download" (lower onclick)))%bool then
         match re_search pdf_url_pattern onclick with
         | Some url =>
             modify_local (λ pdf_links, pdf_links ++ [url]) ;;
             in_object (logger INFO "Found PDF link in dialog clickable onclick")
         | None => ret tt
         end
       else ret tt) ;;
      scan_clickables rest
  end.

(** The links are returned as [list(set(pdf_links))]: without repeats, in
    the order of the set. *)
Definition find_pdf_links_in_dialog (dialog_element : E) : M (Scraper W) (list string) :=
  do '(_, pdf_links) <-
    with_local []
      (try_except
         (do links <- reading (elem_find_elements dialog_element CSS_SELECTOR "a");
          scan_dialog_links links ;;
          do buttons <- reading (elem_find_elements dialog_element CSS_SELECTOR button_selector);
          scan_dialog_buttons buttons ;;
          do clickables <-
            reading (elem_find_elements dialog_element CSS_SELECTOR clickable_selector);
          scan_clickables clickables)
         (λ e, in_object (logger ERROR "Error finding PDF links in dialog")));
  ret (elements (list_to_set pdf_links : gset string)).

(** The three statements that record a link in a record: the first link
    becomes the document, and the link is appended to [pdf_links], a list
    in every record the scraper builds. *)
Definition add_pdf_link (href : string) (project : gmap string pyval) : gmap string pyval :=
  let project :=
    if truthy (dict_get project "document_url" VNone) then project
    else <["document_url" := VStr href]> project in
  let project :=
    match project !! "pdf_links" with
    | None => <["pdf_links" := VList []]> project
    | Some _ => project
    end in
  match project !! "pdf_links" with
  | Some (VList pdf_links) => <["pdf_links" := VList (pdf_links ++ [VStr href])]> project
  | _ => project
  end.

(** [project['pdf_links'] = links; project['document_url'] = links[0]]. *)
Definition set_pdf_links (links : list string) (project : gmap string pyval)
  : gmap string pyval :=
  match links with
  | first :: _ =>
      <["document_url" := VStr first]> (<["pdf_links" := VList (VStr <$> links)]> project)
  | [] => project
  end.

(** The record of a row before its cells are read. *)
Definition new_project (page : Z) (i j : nat) : gmap string pyval :=
  {[ "id" := VStr ("page_" +:+ pretty page +:+ "_table_" +:+ pretty (i + 1)%nat +:+
                   "_row_" +:+ pretty j);
     "title" := VStr EmptyString;
     "description" := VStr EmptyString;
     "status" := VStr EmptyString;
     "date_created" := VStr EmptyString;
     "author" := VStr EmptyString;
     "committee" := VStr EmptyString;
     "document_url" := VStr EmptyString;
     "page_number" := VInt page;
     "source" := VStr "improved_pagination_table" ]}.

(** The field the [k]-th cell fills. *)
Definition field_of_cell (k : nat) : option string :=
  match k with
  | 0 => Some "title"
  | 1 => Some "description"
  | 2 => Some "status"
  | 3 => Some "date_created"
  | 4 => Some "author"
  | 5 => Some "committee"
  | _ => None
  end%nat.

(** [for k, cell in enumerate(cells)]: the text of the cells. *)
Fixpoint read_cells (k : nat) (cells : list E) : M (Scraper W * gmap string pyval) unit :=
  match cells with
  | [] => ret tt
  | cell :: rest =>
      do text <- reading (elem_text cell);
      let cell_text := str_strip text in
      modify_local (λ project,
        match field_of_cell k with
        | Some field => <[field := VStr cell_text]> project
        | None => project
        end) ;;
      read_cells (S k) rest
  end.

(** The loop over the anchors of one cell. *)
Fixpoint scan_cell_links (links : list E) : M (Scraper W * gmap string pyval) unit :=
  match links with
  | [] => ret tt
  | link :: rest =>
      do href <- reading (get_attribute link "href");
      do text <- reading (elem_text link);
      let link_text := lower (str_strip text) in
      match truthy_text href with
      | Some href =>
          if any_in [".pdf"; "pdf"; "download"] (lower href) then
            (modify_local (add_pdf_link href) ;;
             in_object (logger INFO "Found PDF link in cell"))
          else if any_in ["pdf"; "descargar"; "download"; "ver"; "documento"] link_text then
            (modify_local (add_pdf_link href) ;;
             in_object (logger INFO "Found potential PDF link in cell"))
          else ret tt
      | None => ret tt
      end ;;
      scan_cell_links rest
  end.

(** [for k, cell in enumerate(cells)]: the links of the cells; a cell
    that raises is left. *)
Fixpoint scan_cells (cells : list E) : M (Scraper W * gmap string pyval) unit :=
  match cells with
  | [] => ret tt
  | cell :: rest =>
      try_except
        (do links <- reading (elem_find_elements cell CSS_SELECTOR "a");
         scan_cell_links links)
        (λ e, in_object (logger DEBUG "Error checking links in cell")) ;;
      scan_cells rest
  end.

Definition dialog_selectors : list string :=
  [ ".ui-dialog"; ".modal"; "[id*=" +:+ quoted "dialog" +:+ "]";
    "[id*=" +:+ quoted "modal" +:+ "]"; ".projectDialog"; "#projectDialog" ].

(** The dialog that opened: the first displayed element of the first
    selector that has one. *)
Fixpoint find_dialog (selectors : list string) : M (Scraper W) (option E) :=
  match selectors with
  | [] => ret None
  | selector :: rest =>
      do found <-
        try_except
          (do dialogs <- read_driver (find_elements CSS_SELECTOR selector);
           read_driver (first_element is_displayed dialogs))
          (λ e, ret None);
      match found with
      | Some dialog => ret (Some dialog)
      | None => find_dialog rest
      end
  end.

Definition close_selector : string :=
  ".ui-dialog-titlebar-close, .close, [aria-label=" +:+ quoted "Close" +:+
  "], button[onclick*=" +:+ quoted "hide" +:+ "]".

(** [Keys.ESCAPE], the character U+E001. *)
Definition Keys_ESCAPE : string :=
  String (Ascii.ascii_of_nat 238)
    (String (Ascii.ascii_of_nat 128) (String (Ascii.ascii_of_nat 129) EmptyString)).

(** [for close_btn in close_buttons: if close_btn.is_displayed(): ...; break]. *)
Fixpoint click_first_displayed (buttons : list E) : M (Scraper W) unit :=
  match buttons with
  | [] => ret tt
  | button :: rest =>
      do shown <- read_driver (is_displayed button);
      if shown : bool then (on_driver (click button) ;; time_sleep 1000)
      else click_first_displayed rest
  end.

(** [# Close the dialog]: the escape key is pressed only when looking for
    the close control or clicking it raised. *)
Definition close_dialog (dialog : E) : M (Scraper W) unit :=
  try_except
    (do close_buttons <- read_driver (elem_find_elements dialog CSS_SELECTOR close_selector);
     click_first_displayed close_buttons)
    (λ e,
      logger DEBUG "Error closing dialog" ;;
      do body <- read_driver (find_element TAG_NAME "body");
      on_driver (send_keys body Keys_ESCAPE) ;;
      time_sleep 1000).

(** The branch of the button loop for a "Ver Documentos" button. *)
Definition open_documents_dialog (button : E) : M (Scraper W * gmap string pyval) unit :=
  in_object (logger INFO "Found 'Ver Documentos' button, attempting to extract PDF links") ;;
  try_except
    (in_object (on_driver (click button)) ;;
     in_object (time_sleep 2000) ;;
     do dialog <- in_object (find_dialog dialog_selectors);
     match dialog with
     | Some dialog =>
         in_object (logger INFO "Dialog found, looking for PDF links") ;;
         do pdf_links_in_dialog <- in_object (find_pdf_links_in_dialog dialog);
         match pdf_links_in_dialog with
         | _ :: _ =>
             modify_local (set_pdf_links pdf_links_in_dialog) ;;
             in_object (logger INFO "Found PDF links in dialog")
         | [] => ret tt
         end ;;
         in_object (close_dialog dialog)
     | None => in_object (logger WARNING "Dialog not found after clicking button")
     end)
    (λ e, in_object (logger ERROR "Error clicking 'Ver Documentos' button")).

(** The loop over the buttons of a row. *)
Fixpoint scan_buttons (buttons : list E) : M (Scraper W * gmap string pyval) unit :=
  match buttons with
  | [] => ret tt
  | button :: rest =>
      do onclick <- reading (get_attribute button "onclick");
      let onclick := default EmptyString onclick in
      do text <- reading (elem_text button);
      let button_text := lower (str_strip text) in
      (if (contains "ver documentos" button_text ||
           contains "projectdialog" (lower onclick))%bool then
         open_documents_dialog button
       else if (contains "pdf" (lower onclick) || contains "download" (lower onclick))%bool then
         match re_search pdf_url_pattern onclick with
         | Some href =>
             modify_local (add_pdf_link href) ;;
             in_object (logger INFO "Found PDF link in button onclick")
         | None => ret tt
         end
       else if any_in ["pdf"; "descargar"; "download"; "ver"; "documento"] button_text then
         try_except
           (do parent <- reading (elem_find_element button XPATH "./..");
            do links <- reading (elem_find_elements parent CSS_SELECTOR "a");
            do href <- first_href links;
            match href with
            | Some href =>
                modify_local (add_pdf_link href) ;;
                in_object (logger INFO "Found PDF link near button")
            | None => ret tt
            end)
           (λ e, in_object (logger DEBUG "Error finding associated URL"))
       else ret tt) ;;
      scan_buttons rest
  end.

(** The body of the loop over the rows of table [i], for row [j]: the
    record of the row, if the row has two cells and a title or a
    description. *)
Definition extract_row (i j : nat) (row : E) : M (Scraper W) (option (gmap string pyval)) :=
  do cells <- read_driver (elem_find_elements row CSS_SELECTOR "td, th, mat-cell");
  if (2 <=? length cells)%nat then
    do s <- get_state;
    do '(_, project) <-
      with_local (new_project (current_page s) i j)
        (read_cells 0 cells ;;
         do pdf_links <- in_object (find_pdf_links_in_table row);
         match pdf_links with
         | _ :: _ =>
             modify_local (set_pdf_links pdf_links) ;;
             in_object (logger INFO "Found PDF links for project")
         | [] => ret tt
         end ;;
         scan_cells cells ;;
         try_except
           (do buttons <- reading (elem_find_elements row CSS_SELECTOR button_selector);
            scan_buttons buttons)
           (λ e, in_object (logger DEBUG "Error checking buttons")));
    if (truthy (dict_get project "title" VNone) ||
        truthy (dict_get project "description" VNone))%bool
    then ret (Some project)
    else ret None
  else ret None.

(** [for j, row in enumerate(rows[1:], 1)]: a row that raises is left. *)
Fixpoint extract_rows (i j : nat) (rows : list E) : M (Scraper W) (list (gmap string pyval)) :=
  match rows with
  | [] => ret []
  | row :: rest =>
      do project <-
        try_except (extract_row i j row)
                   (λ e, logger DEBUG "Error processing row" ;; ret None);
      do projects <- extract_rows i (S j) rest;
      ret (match project with
           | Some project => project :: projects
           | None => projects
           end)
  end.

(** [for i, table in enumerate(tables)]: a table that raises is left. *)
Fixpoint extract_tables (i : nat) (tables : list E) : M (Scraper W) (list (gmap string pyval)) :=
  match tables with
  | [] => ret []
  | table :: rest =>
      do projects <-
        try_except
          (do rows <- read_driver (elem_find_elements table CSS_SELECTOR "tr, mat-row");
           if (1 <? length rows)%nat then
             (logger INFO "Found table" ;; extract_rows i 1 (tail rows))
           else ret [])
          (λ e, logger DEBUG "Error processing table" ;; ret []);
      do more <- extract_tables (S i) rest;
      ret (projects ++ more)
  end.

Definition extract_table_data : M (Scraper W) (list (gmap string pyval)) :=
  try_except
    (do s <- get_state;
     match driver s with
     | None => ret []
     | Some _ =>
         do tables <- read_driver (find_elements CSS_SELECTOR "table, mat-table");
         extract_tables 0 tables
     end)
    (λ e, logger ERROR "Error extracting table data" ;; ret []).

(** The key of the run-wide duplicate detection:
    [f"{project.get('title', '')}_{project.get('description', '')}"]. *)
Definition project_id_of (project : gmap string pyval) : string :=
  py_format (dict_get project "title" (VStr "")) +:+ "_" +:+
  py_format (dict_get project "description" (VStr "")).

(** The de-duplication loop of [extract_current_page_data]. *)
Fixpoint remove_duplicates (projects unique_projects : list (gmap string pyval))
  : M (Scraper W) (list (gmap string pyval)) :=
  match projects with
  | [] => ret unique_projects
  | project :: rest =>
      let project_id := project_id_of project in
      do s <- get_state;
      if decide (project_id ∈ seen_project_ids s) then
        (logger DEBUG "Duplicate project found and skipped" ;;
         remove_duplicates rest unique_projects)
      else
        (modify (λ s, set_seen_project_ids ({[project_id]} ∪ seen_project_ids s) s) ;;
         remove_duplicates rest (unique_projects ++ [project]))
  end.

Definition extract_current_page_data : M (Scraper W) (list (gmap string pyval)) :=
  try_except
    (do s <- get_state;
     match driver s with
     | None => ret []
     | Some _ =>
         (if current_page s <=? 3 then
            (on_driver (save_screenshot
               ("data/improved_page_" +:+ pretty (current_page s) +:+ "_screenshot.png")) ;;
             logger INFO "Screenshot saved")
          else ret tt) ;;
         do table_data <- extract_table_data;
         match table_data with
         | [] => ret tt
         | _ => logger INFO "Extracted projects from table"
         end ;;
         do unique_projects <- remove_duplicates table_data [];
         logger INFO "unique projects after deduplication" ;;
         ret unique_projects
     end)
    (λ e, logger ERROR "Error extracting data from page" ;; ret []).

(** [d[key]] for an entry that is a number. *)
Definition int_item (d : gmap string pyval) (key : string) : outcome Z :=
  match d !! key with
  | Some (VInt n) => Ok n
  | _ => Raise OtherException
  end.

(** [self.all_projects.extend(page_projects)]. *)
Definition extend_all_projects (page_projects : list (gmap string pyval))
  : M (Scraper W) unit :=
  modify (λ s, set_all_projects (all_projects s ++ page_projects) s).

(** [for page_num in range(2, total_pages + 1)], [remaining] pages being
    left; [True] is a [break]. *)
Fixpoint scrape_remaining_pages (remaining : nat) (page_num : Z) : M (Scraper W) unit :=
  match remaining with
  | O => ret tt
  | S remaining =>
      do moved <- navigate_to_next_page;
      if moved : bool then
        do s <- get_state;
        time_sleep (delay s) ;;
        do page_projects <- extract_current_page_data;
        match page_projects with
        | _ :: _ => extend_all_projects page_projects ;; logger INFO "Added projects"
        | [] => logger WARNING "No projects found"
        end ;;
        (if page_num `mod` 10 =? 0 then logger INFO "Progress" else ret tt) ;;
        if ((10 <? page_num) && (length page_projects =? 0)%nat)%bool then
          logger WARNING "No new projects found, stopping"
        else scrape_remaining_pages remaining (page_num + 1)
      else logger ERROR "Failed to navigate to page"
  end.

Definition scrape_all_pages (max_pages : option Z) : M (Scraper W) (list (gmap string pyval)) :=
  try_except
    (logger INFO "Starting to scrape all pages..." ;;
     do pagination_info <- get_total_records_and_pages;
     do records <- lift_outcome (int_item pagination_info "total_records");
     modify (set_total_records records) ;;
     do total_pages <- lift_outcome (int_item pagination_info "total_pages");
     do current <- lift_outcome (int_item pagination_info "current_page");
     modify (set_current_page current) ;;
     do total_pages <-
       match max_pages with
       | Some n => if n =? 0 then ret total_pages
                   else (logger INFO "Limited pages" ;; ret (Z.min total_pages n))
       | None => ret total_pages
       end;
     logger INFO "Total records to extract" ;;
     logger INFO "Will scrape pages" ;;
     do page_projects <- extract_current_page_data;
     match page_projects with
     | _ :: _ => extend_all_projects page_projects ;; logger INFO "Added projects"
     | [] => ret tt
     end ;;
     scrape_remaining_pages (Z.to_nat (total_pages - 1)) 2 ;;
     logger INFO "Scraping completed" ;;
     do s <- get_state;
     ret (all_projects s))
    (λ e,
      logger ERROR "Error during pagination scraping" ;;
      do s <- get_state;
      ret (all_projects s)).

Definition setup_driver : M (Scraper W) bool :=
  try_except
    (do s <- get_state;
     do w <- lift_outcome (chrome (headless s));
     modify (set_driver (Some w)) ;;
     on_driver (set_window_size 1920 1080) ;;
     logger INFO "Chrome WebDriver setup completed" ;;
     ret true)
    (λ e, logger ERROR "WebDriver setup failed" ;; ret false).

Definition close_driver : M (Scraper W) unit :=
  try_except
    (do s <- get_state;
     match driver s with
     | Some _ =>
         on_driver quit ;;
         modify (set_driver None) ;;
         logger INFO "WebDriver closed"
     | None => ret tt
     end)
    (λ e, logger ERROR "Error closing WebDriver").

Definition navigate_to_iframe : M (Scraper W) bool :=
  try_except
    (do s <- get_state;
     match driver s with
     | None => logger ERROR "WebDriver not initialized" ;; ret false
     | Some _ =>
         logger INFO "Navigating directly to iframe URL" ;;
         on_driver (driver_get iframe_url) ;;
         time_sleep (delay s) ;;
         on_driver (wait_until_present 30 TAG_NAME "body") ;;
         time_sleep 2000 ;;
         ret true
     end)
    (λ e, logger ERROR "Navigation failed" ;; ret false).

(** *** The run *)

Section Run.

(** The methods of the scraper that fill the search form and download
    through the browser, and the data processor of [utils], which is not
    among the sources: whatever they do, they are computations on the
    scraper. *)
Variable find_and_fill_date_inputs : string → string → M (Scraper W) bool.
Variable find_and_click_submit_button : M (Scraper W) bool.
Variable download_pdfs_for_projects : list (gmap string pyval) → M (Scraper W) unit.
Variable process_and_export :
  list (gmap string pyval) → list string → M (Scraper W) (list (gmap string pyval)).

Definition start_scraping (start_date end_date : string) (max_pages : option Z)
    (output_formats : list string) : M (Scraper W) (option (list (gmap string pyval))) :=
  try_except
    (logger INFO "Starting improved pagination-based Ecuadorian National Assembly scraper" ;;
     do ready <- setup_driver;
     if negb ready then ret None
     else
       do arrived <- navigate_to_iframe;
       if negb arrived then (close_driver ;; ret None)
       else
         do date_filled <- find_and_fill_date_inputs start_date end_date;
         (if date_filled : bool then logger INFO "Date inputs filled successfully"
          else logger WARNING "Could not find or fill date inputs") ;;
         do submit_clicked <- find_and_click_submit_button;
         (if submit_clicked : bool then logger INFO "Submit button clicked successfully"
          else logger WARNING "Could not find or click submit button") ;;
         do projects <- scrape_all_pages max_pages;
         match projects with
         | [] => logger WARNING "No projects found" ;; close_driver ;; ret None
         | _ :: _ =>
             logger INFO "Found total projects" ;;
             do s <- get_state;
             (if download_pdfs s then
                (logger INFO "Starting PDF downloads..." ;;
                 download_pdfs_for_projects projects ;;
                 logger INFO "PDF download summary")
              else ret tt) ;;
             do processed_data <- process_and_export projects output_formats;
             logger INFO "Scraping completed" ;;
             close_driver ;;
             ret (Some processed_data)
         end)
    (λ e,
      logger ERROR "Error during scraping" ;;
      close_driver ;;
      ret None).

(** [main], from the scraper its first lines construct: the call of
    [start_scraping] in a [try] with a handler for [KeyboardInterrupt] and
    one for [Exception], both of which only log. *)
Definition main (start_date end_date : string) (max_pages : option Z)
    (output_formats : list string) : M (Scraper W) unit :=
  λ s,
    match (logger INFO "Improved Pagination-aware Ecuadorian National Assembly Scraper" ;;
           do results <- start_scraping start_date end_date max_pages output_formats;
           match results with
           | Some (_ :: _) => logger INFO "SCRAPING COMPLETED SUCCESSFULLY!"
           | _ => logger ERROR "Scraping failed or no data was found"
           end) s with
    | (Ok a, s') => (Ok a, s')
    | (Raise KeyboardInterrupt, s') => logger INFO "Scraping interrupted by user" s'
    | (Raise _, s') => logger ERROR "Unexpected error" s'
    end.

End Run.

(** *** The search form *)

Definition date_selectors : list string :=
  [ "input[type=" +:+ quoted "date" +:+ "]";
    "input[placeholder*=" +:+ quoted "fecha" +:+ "]";
    "input[placeholder*=" +:+ quoted "date" +:+ "]";
    "input[name*=" +:+ quoted "fecha" +:+ "]";
    "input[name*=" +:+ quoted "date" +:+ "]";
    "input[id*=" +:+ quoted "fecha" +:+ "]";
    "input[id*=" +:+ quoted "date" +:+ "]";
    ".date-picker input";
    ".date-input";
    "input[type=" +:+ quoted "text" +:+ "][placeholder*=" +:+ quoted "fecha" +:+ "]";
    "input[type=" +:+ quoted "text" +:+ "][placeholder*=" +:+ quoted "date" +:+ "]" ].

(** The two flags of [find_and_fill_date_inputs]. *)
Record DatesFilled : Type := mkDatesFilled {
  start_date_filled : bool;
  end_date_filled : bool;
}.

Definition set_start_date_filled (filled : DatesFilled) : DatesFilled :=
  mkDatesFilled true (end_date_filled filled).

Definition set_end_date_filled (filled : DatesFilled) : DatesFilled :=
  mkDatesFilled (start_date_filled filled) true.

(** The four statements every branch of the loop body is made of: clear
    the input, type the date, log it and set the flag; then one second
    of sleep. *)
Definition type_date (element : E) (date msg : string) (set_flag : DatesFilled → DatesFilled)
  : M (Scraper W * DatesFilled) unit :=
  in_object (on_driver (clear element)) ;;
  in_object (on_driver (send_keys element date)) ;;
  in_object (logger INFO msg) ;;
  modify_local set_flag ;;
  in_object (time_sleep 1000).

(** The body of the loop over the inputs of one selector; an input that
    raises is left. *)
Definition fill_date_input (start_date end_date : string) (element : E)
  : M (Scraper W * DatesFilled) unit :=
  try_except
    (do placeholder <- reading (get_attribute element "placeholder");
     let placeholder := default EmptyString placeholder in
     do name <- reading (get_attribute element "name");
     let name := default EmptyString name in
     do id_attr <- reading (get_attribute element "id");
     let id_attr := default EmptyString id_attr in
     in_object (logger INFO "Found date input") ;;
     let described := lower (placeholder +:+ name +:+ id_attr) in
     let is_start := any_in ["inicio"; "start"; "desde"; "from"; "begin"] described in
     let is_end := any_in ["fin"; "end"; "hasta"; "to"; "until"] described in
     do filled <- get_local;
     if (is_start && negb (start_date_filled filled))%bool then
       type_date element start_date "Filled start date" set_start_date_filled
     else if (is_end && negb (end_date_filled filled))%bool then
       type_date element end_date "Filled end date" set_end_date_filled
     else if (negb (start_date_filled filled) && negb (end_date_filled filled))%bool then
       type_date element start_date "Filled first date input as start date"
         set_start_date_filled
     else if negb (end_date_filled filled) then
       type_date element end_date "Filled second date input as end date"
         set_end_date_filled
     else ret tt)
    (λ e, in_object (logger DEBUG "Error filling date input")).

(** The body of the loop over the selectors; a selector that raises is
    left. *)
Definition fill_date_inputs (start_date end_date selector : string)
  : M (Scraper W * DatesFilled) unit :=
  try_except
    (do elements <- reading (find_elements CSS_SELECTOR selector);
     for_each elements (fill_date_input start_date end_date))
    (λ e, in_object (logger DEBUG "Error with selector")).

Definition find_and_fill_date_inputs (start_date end_date : string) : M (Scraper W) bool :=
  try_except
    (do s <- get_state;
     match driver s with
     | None => logger ERROR "WebDriver not initialized" ;; ret false
     | Some _ =>
         logger INFO "Looking for date input fields..." ;;
         do '(_, filled) <-
           with_local (mkDatesFilled false false)
             (for_each date_selectors (fill_date_inputs start_date end_date));
         ret (start_date_filled filled || end_date_filled filled)%bool
     end)
    (λ e, logger ERROR "Error finding and filling date inputs" ;; ret false).

Definition submit_selectors : list string :=
  [ "button[type=" +:+ quoted "submit" +:+ "]";
    "input[type=" +:+ quoted "submit" +:+ "]";
    ".btn-primary";
    ".btn-search";
    ".search-button";
    "[class*=" +:+ quoted "search" +:+ "]";
    "[class*=" +:+ quoted "submit" +:+ "]";
    "[class*=" +:+ quoted "buscar" +:+ "]";
    "[class*=" +:+ quoted "consultar" +:+ "]";
    "button[onclick*=" +:+ quoted "search" +:+ "]";
    "button[onclick*=" +:+ quoted "buscar" +:+ "]" ].

Definition button_texts : list string :=
  [ "Buscar"; "Search"; "Consultar"; "Submit"; "Generar"; "Reporte"; "Filtrar" ].

(** [//button[contains(text(), '{text}')]]. *)
Definition button_with_text (text : string) : string :=
  "//button[contains(text(), '" +:+ text +:+ "')]".

(** [for element in elements: if element.is_displayed() and
    element.is_enabled(): ...; return True]. *)
Fixpoint click_first_enabled (found_msg : string) (elements : list E)
  : M (Scraper W) (option bool) :=
  match elements with
  | [] => ret None
  | element :: rest =>
      do usable <- read_driver (displayed_and_enabled element);
      if usable : bool then
        (logger INFO found_msg ;;
         on_driver (click element) ;;
         do s <- get_state;
         time_sleep (delay s) ;;
         ret (Some true))
      else click_first_enabled found_msg rest
  end.

(** The two loops of [find_and_click_submit_button], over the selectors
    and over the texts: a turn that raises is left. *)
Fixpoint click_first_button (by_ : By) (selector_of : string → string)
    (found_msg error_msg : string) (keys : list string) : M (Scraper W) (option bool) :=
  match keys with
  | [] => ret None
  | key :: rest =>
      do clicked <-
        try_except
          (do elements <- read_driver (find_elements by_ (selector_of key));
           click_first_enabled found_msg elements)
          (λ e, logger DEBUG error_msg ;; ret None);
      match clicked with
      | Some result => ret (Some result)
      | None => click_first_button by_ selector_of found_msg error_msg rest
      end
  end.

Definition find_and_click_submit_button : M (Scraper W) bool :=
  try_except
    (do s <- get_state;
     match driver s with
     | None => logger ERROR "WebDriver not initialized" ;; ret false
     | Some _ =>
         logger INFO "Looking for submit/search button..." ;;
         or_continue
           (click_first_button CSS_SELECTOR id
              "Found and clicking button with selector" "Error with button selector"
              submit_selectors)
        (or_continue
           (click_first_button XPATH button_with_text
              "Found and clicking button with text" "Error with button text"
              button_texts)
        (ret false))
     end)
    (λ e, logger ERROR "Error finding and clicking submit button" ;; ret false).

(** A click that was made: the element was displayed and enabled in the
    browser [w0], the click went well, and [w2] is the browser after the
    sleep that follows. *)
Definition clicked_usable (pause : Z) (w2 : W) : Prop :=
  ∃ (element : E) (w0 w1 : W),
    displayed_and_enabled element w0 = Ok true ∧
    click element w0 = (Ok tt, w1) ∧
    sleep pause w1 = (Ok tt, w2).

(** *** What a computation leaves alone *)

(** The computation only browses: of the scraper it changes nothing but
    the browser and the log, and a browser that is there stays there. *)
Definition only_browses (s s' : Scraper W) : Prop :=
  headless s' = headless s ∧ delay s' = delay s ∧
  download_pdfs s' = download_pdfs s ∧ pdf_dir s' = pdf_dir s ∧
  all_projects s' = all_projects s ∧ total_records s' = total_records s ∧
  current_page s' = current_page s ∧ seen_project_ids s' = seen_project_ids s ∧
  (is_Some (driver s) → is_Some (driver s')).

Definition only_browses_local {L} (x y : Scraper W * L) : Prop :=
  only_browses x.1 y.1.

(** The same, but for the stored page and the total of records. *)
Definition same_records (s s' : Scraper W) : Prop :=
  headless s' = headless s ∧ delay s' = delay s ∧
  download_pdfs s' = download_pdfs s ∧ pdf_dir s' = pdf_dir s ∧
  all_projects s' = all_projects s ∧ seen_project_ids s' = seen_project_ids s ∧
  (is_Some (driver s) → is_Some (driver s')).

(** The keys of the duplicate detection of a list of records. *)
Definition keys_of (projects : list (gmap string pyval)) : list string :=
  project_id_of <$> projects.

(** No two collected records have the same key, and the keys of the
    collected records are seen. *)
Definition distinct_records (s : Scraper W) : Prop :=
  NoDup (keys_of (all_projects s)) ∧
  ∀ k, k ∈ keys_of (all_projects s) → k ∈ seen_project_ids s.

(** The collected records and the seen keys only grow, and the collected
    records stay distinct. *)
Definition records_grow (s s' : Scraper W) : Prop :=
  all_projects s `prefix_of` all_projects s' ∧
  seen_project_ids s ⊆ seen_project_ids s' ∧
  (distinct_records s → distinct_records s').

(** What [extract_current_page_data] returns and leaves. *)
Definition page_result (s : Scraper W) (o : outcome (list (gmap string pyval)))
    (s' : Scraper W) : Prop :=
  all_projects s' = all_projects s ∧
  seen_project_ids s ⊆ seen_project_ids s' ∧
  ∀ page_projects, o = Ok page_projects →
    NoDup (keys_of page_projects) ∧
    ∀ k, k ∈ keys_of page_projects → (k ∉ seen_project_ids s) ∧ (k ∈ seen_project_ids s').

(** The entries of a record that say where it was found. *)
Definition same_identity (project project' : gmap string pyval) : Prop :=
  project' !! "id" = project !! "id" ∧
  project' !! "page_number" = project !! "page_number" ∧
  project' !! "source" = project !! "source".

Definition keeps_identity (x y : Scraper W * gmap string pyval) : Prop :=
  only_browses x.1 y.1 ∧ same_identity x.2 y.2.

(** A record found on page [page] in row [j] of table [i]. *)
Definition found_at (page : Z) (i j : nat) (project : gmap string pyval) : Prop :=
  project !! "id" =
    Some (VStr ("page_" +:+ pretty page +:+ "_table_" +:+ pretty i +:+
                "_row_" +:+ pretty j)) ∧
  project !! "page_number" = Some (VInt page) ∧
  project !! "source" = Some (VStr "improved_pagination_table") ∧
  (truthy (dict_get project "title" VNone) ||
   truthy (dict_get project "description" VNone))%bool = true.

End WithBrowser.
End Improved.

(** * comprehensive_pdf_scraper.py *)

Module Comprehensive.
Section WithBrowser.
Context {W E : Type} `{!Selenium W E}.

Definition next_selectors : list string :=
  [ "button[aria-label=" +:+ quoted "Next" +:+ "]";
    "a[aria-label=" +:+ quoted "Next" +:+ "]";
    ".ui-paginator-next";
    ".pagination-next";
    "[class*=" +:+ quoted "next" +:+ "]";
    "button:contains(" +:+ quoted "Next" +:+ ")";
    "a:contains(" +:+ quoted "Next" +:+ ")";
    "button:contains(" +:+ quoted "Siguiente" +:+ ")";
    "a:contains(" +:+ quoted "Siguiente" +:+ ")" ].

(** [for element in elements]: the first element that is displayed,
    enabled and not marked disabled by its class is clicked, and the
    method returns [True] at once. *)
Fixpoint click_first_usable (elements : list E) : M (Scraper W) (option bool) :=
  match elements with
  | [] => ret None
  | element :: rest =>
      do usable <- read_driver (displayed_and_enabled element);
      if usable : bool then
        do class_attr <- read_driver (get_attribute element "class");
        if negb (contains "disabled" (default EmptyString class_attr)) then
          (logger INFO "Found and clicking next page button" ;;
           on_driver (click element) ;;
           do s <- get_state;
           time_sleep (delay s) ;;
           ret (Some true))
        else click_first_usable rest
      else click_first_usable rest
  end.

(** [for selector in next_selectors]: a selector that raises is skipped. *)
Fixpoint try_selectors (selectors : list string) : M (Scraper W) (option bool) :=
  match selectors with
  | [] => ret None
  | selector :: rest =>
      or_continue
        (try_except
           (do elements <- read_driver (find_elements CSS_SELECTOR selector);
            do r <- click_first_usable elements;
            ret (Some <$> r))
           (λ e, logger DEBUG "Error with next selector" ;; ret None))
        (try_selectors rest)
  end.

Definition navigate_to_next_page : M (Scraper W) bool :=
  try_except
    (do s <- get_state;
     match driver s with
     | None => logger ERROR "WebDriver not initialized" ;; ret false
     | Some _ =>
         or_continue (try_selectors next_selectors) (ret false)
     end)
    (λ e, logger ERROR "Error navigating to next page" ;; ret false).

End WithBrowser.
End Comprehensive.

(** * improved_pdf_downloader.py *)

Module Downloader.

(** A call of [self.session]: [head(url, timeout, allow_redirects=True)]
    or [get(url, timeout, stream)]. *)
Inductive Request : Type :=
| Head (url : string) (timeout : Z)
| Get (url : string) (timeout : Z) (stream : bool).

(** What the program reads of a response.  Bytes are strings.
    [raw_read] is [raw.read(1024)], the start of the body as the server
    sent it; [chunks] is [iter_content(8192)], the decoded body, and
    [stream_error] what the iteration raises after the chunks, if the
    connection breaks. *)
Record Response : Type := mkResponse {
  status_code : Z;
  content_type : option string;
  content_length : option string;
  raw_read : outcome string;
  chunks : list string;
  stream_error : option exn;
}.

(** [self.stats]. *)
Record Stats : Type := mkStats {
  downloaded : Z;
  failed : Z;
  skipped : Z;
  total : Z;
}.

(** The downloader and its world: the server answers a request in view
    of the requests made before, which [requests] lists in order; [files]
    is the content of the files by path. *)
Record ImprovedPDFDownloader : Type := mkDownloader {
  pdf_dir : string;
  server : list Request → Request → outcome Response;
  requests : list Request;
  files : gmap string string;
  stats : Stats;
  log : list log_record;
}.

Definition set_requests (r : list Request) (s : ImprovedPDFDownloader) : ImprovedPDFDownloader :=
  mkDownloader (pdf_dir s) (server s) r (files s) (stats s) (log s).

Definition set_files (f : gmap string string) (s : ImprovedPDFDownloader) : ImprovedPDFDownloader :=
  mkDownloader (pdf_dir s) (server s) (requests s) f (stats s) (log s).

Definition set_stats (st : Stats) (s : ImprovedPDFDownloader) : ImprovedPDFDownloader :=
  mkDownloader (pdf_dir s) (server s) (requests s) (files s) st (log s).

Definition set_log (l : list log_record) (s : ImprovedPDFDownloader) : ImprovedPDFDownloader :=
  mkDownloader (pdf_dir s) (server s) (requests s) (files s) (stats s) l.

Definition logger (lv : level) (msg : string) : M ImprovedPDFDownloader unit :=
  modify (λ s, set_log (log s ++ [(lv, msg)]) s).

(** A request through the session: it is recorded, and the server answers
    or the call raises. *)
Definition session_request (r : Request) : M ImprovedPDFDownloader Response :=
  λ s, (server s (requests s) r, set_requests (requests s ++ [r]) s).

(** [response.raise_for_status()]. *)
Definition raise_for_status (response : Response) : M ImprovedPDFDownloader unit :=
  if ((400 <=? status_code response) && (status_code response <? 600))%bool
  then raise RequestException
  else ret tt.

(** [str(e)]. *)
Definition exn_message (e : exn) : string :=
  match e with
  | RequestException => "RequestException"
  | OtherException => "Exception"
  | KeyboardInterrupt => "KeyboardInterrupt"
  end.

Definition base_url : string := "https://leyes.asambleanacional.gob.ec".
Definition iframe_url : string := "https://leyes.asambleanacional.gob.ec?vhf=1".

Definition setup_session : M ImprovedPDFDownloader bool :=
  try_except
    (logger INFO "Setting up session and establishing cookies..." ;;
     do response <- session_request (Get base_url 30 false);
     raise_for_status response ;;
     logger INFO "Main site visited" ;;
     do response <- session_request (Get iframe_url 30 false);
     raise_for_status response ;;
     logger INFO "Iframe URL visited" ;;
     logger INFO "Session cookies established" ;;
     ret true)
    (λ e, logger ERROR ("Error setting up session: " +:+ exn_message e) ;; ret false).

(** [content_type or url suffix says PDF]: the test both the probe and the
    download make. *)
Definition looks_like_pdf (content_type pdf_url : string) : bool :=
  (contains "pdf" content_type || endswith ".pdf" (lower pdf_url))%bool.

Definition test_pdf_access (pdf_url : string) : M ImprovedPDFDownloader (bool * string) :=
  try_except
    (logger INFO ("Testing PDF access: " +:+ pdf_url) ;;
     do head_response <- session_request (Head pdf_url 30);
     if status_code head_response =? 200 then
       let content_type := lower (default EmptyString (content_type head_response)) in
       logger INFO "HEAD response" ;;
       if looks_like_pdf content_type pdf_url then
         do get_response <- session_request (Get pdf_url 30 true);
         raise_for_status get_response ;;
         do content <- lift_outcome (raw_read get_response);
         if startswith "%PDF" content then
           (logger INFO "PDF content confirmed - starts with %PDF" ;;
            ret (true, "PDF content confirmed"))
         else
           (logger WARNING "URL doesn't contain PDF content" ;;
            ret (false, "Not PDF content"))
       else
         (logger WARNING ("Content-Type doesn't indicate PDF: " +:+ content_type) ;;
          ret (false, "Wrong content type: " +:+ content_type))
     else
       (logger WARNING "HEAD request failed" ;;
        ret (false, "HTTP " +:+ pretty (status_code head_response))))
    (λ e,
      logger ERROR (if is_RequestException e
                    then "Request error testing PDF: " +:+ exn_message e
                    else "Error testing PDF access: " +:+ exn_message e) ;;
      ret (false, exn_message e)).

(** [os.path.basename]: what follows the last slash. *)
Fixpoint basename (p : string) : string :=
  match p with
  | EmptyString => EmptyString
  | String _ rest => if contains "/" p then basename rest else p
  end.

Section WithRuntime.
Context `{!PyRuntime}.

(** The name of the file of a record and a URL: the first statements of
    [download_pdf]. A title that is not text makes [re.sub] raise. *)
Definition pdf_filename (pdf_url : string) (project_info : gmap string pyval) : outcome string :=
  let project_id := dict_get project_info "id" (VStr "unknown") in
  match dict_get project_info "title" (VStr "Unknown") with
  | VStr title =>
      let safe_title := str_strip (re_sub "[^\w\s-]" EmptyString title) in
      let safe_title := re_sub "[-\s]+" "-" safe_title in
      let safe_title := str_prefix 50 safe_title in
      let url_filename := basename (urlparse_path pdf_url) in
      Ok (if (negb (String.eqb url_filename EmptyString) && contains "." url_filename)%bool
          then py_format project_id +:+ "_" +:+ url_filename
          else py_format project_id +:+ "_" +:+ safe_title +:+ ".pdf")
  | _ => Raise OtherException
  end.

(** [str(self.pdf_dir / filename)]. *)
Definition pdf_filepath (dir pdf_url : string) (project_info : gmap string pyval)
  : outcome string :=
  match pdf_filename pdf_url project_info with
  | Ok filename => Ok (path_join dir filename)
  | Raise e => Raise e
  end.

(** [for chunk in response.iter_content(chunk_size=8192)], writing to the
    open file. *)
Fixpoint write_chunks (filepath : string) (total_size downloaded_size : Z)
    (body : list string) : M ImprovedPDFDownloader unit :=
  match body with
  | [] => ret tt
  | chunk :: rest =>
      if String.eqb chunk EmptyString then
        write_chunks filepath total_size downloaded_size rest
      else
        (modify (λ s, set_files
                        (<[filepath := default EmptyString (files s !! filepath) +:+ chunk]>
                           (files s)) s) ;;
         let downloaded_size := downloaded_size + Z.of_nat (String.length chunk) in
         (if ((0 <? total_size) && (downloaded_size `mod` (1024 * 1024) =? 0))%bool
          then logger INFO "Download progress"
          else ret tt) ;;
         write_chunks filepath total_size downloaded_size rest)
  end.

(** [# Verify the downloaded file]: the end of [download_pdf], once the
    body is written. *)
Definition verify_download (filename filepath : string)
  : M ImprovedPDFDownloader (option string) :=
  do s <- get_state;
  let file_size := String.length (default EmptyString (files s !! filepath)) in
  if (file_size =? 0)%nat then
    (logger ERROR "Downloaded file is empty" ;;
     modify (λ s, set_files (delete filepath (files s)) s) ;;
     ret None)
  else
    let header := String.substring 0 4 (default EmptyString (files s !! filepath)) in
    (if negb (startswith "%PDF" header)
     then logger WARNING "Downloaded file doesn't start with PDF header"
     else ret tt) ;;
    logger INFO ("PDF downloaded successfully: " +:+ filename) ;;
    ret (Some filepath).

(** [download_pdf] from the probe on: what runs when no file is there
    yet. *)
Definition fetch_pdf (pdf_url filename filepath : string) : M ImprovedPDFDownloader (option string) :=
  logger INFO ("Downloading PDF: " +:+ filename) ;;
  logger INFO ("URL: " +:+ pdf_url) ;;
  do '(is_accessible, reason) <- test_pdf_access pdf_url;
  if negb is_accessible then
    (logger WARNING ("PDF not accessible: " +:+ reason) ;; ret None)
  else
    do response <- session_request (Get pdf_url 60 true);
    raise_for_status response ;;
    let content_type := lower (default EmptyString (content_type response)) in
    if negb (looks_like_pdf content_type pdf_url) then
      (logger WARNING ("Content-Type doesn't indicate PDF: " +:+ content_type) ;; ret None)
    else
      do total_size <-
        match content_length response with
        | None => ret 0
        | Some text =>
            match py_int text with
            | Some n => ret n
            | None => raise OtherException
            end
        end;
      modify (λ s, set_files (<[filepath := EmptyString]> (files s)) s) ;;
      write_chunks filepath total_size 0 (chunks response) ;;
      match stream_error response with
      | Some e => raise e
      | None => ret tt
      end ;;
      verify_download filename filepath.

Definition download_pdf (pdf_url : string) (project_info : gmap string pyval)
  : M ImprovedPDFDownloader (option string) :=
  try_except
    (do filename <- lift_outcome (pdf_filename pdf_url project_info);
     do s <- get_state;
     let filepath := path_join (pdf_dir s) filename in
     match files s !! filepath with
     | Some content =>
         if (0 <? String.length content)%nat then
           (logger INFO ("PDF already exists: " +:+ filename) ;; ret (Some filepath))
         else fetch_pdf pdf_url filename filepath
     | None => fetch_pdf pdf_url filename filepath
     end)
    (λ e,
      logger ERROR (if is_RequestException e
                    then "Request error downloading PDF: " +:+ exn_message e
                    else "Error downloading PDF: " +:+ exn_message e) ;;
      ret None).

(** [self.stats[key] += 1]. *)
Definition count_downloaded : M ImprovedPDFDownloader unit :=
  modify (λ s, set_stats (mkStats (downloaded (stats s) + 1) (failed (stats s))
                                  (skipped (stats s)) (total (stats s))) s).

Definition count_failed : M ImprovedPDFDownloader unit :=
  modify (λ s, set_stats (mkStats (downloaded (stats s)) (failed (stats s) + 1)
                                  (skipped (stats s)) (total (stats s))) s).

Definition count_skipped : M ImprovedPDFDownloader unit :=
  modify (λ s, set_stats (mkStats (downloaded (stats s)) (failed (stats s))
                                  (skipped (stats s) + 1) (total (stats s))) s).

(** [pdf_links.insert(0, document_url)] on the value [project.get('pdf_links', [])]
    gave: a list of the record is changed in place, the default list is
    not part of the record, and a value that is not a list has no
    [insert]. The result is the new value of [pdf_links] and the record. *)
Definition insert_document_url (document_url pdf_links : pyval)
    (project : gmap string pyval) : outcome (pyval * gmap string pyval) :=
  match pdf_links with
  | VList links =>
      let links := document_url :: links in
      Ok (VList links,
          match project !! "pdf_links" with
          | Some _ => <["pdf_links" := VList links]> project
          | None => project
          end)
  | _ => Raise OtherException
  end.

(** The characters of a string, as [for c in s] gives them. *)
Fixpoint characters (s : string) : list pyval :=
  match s with
  | EmptyString => []
  | String c rest => VStr (String c EmptyString) :: characters rest
  end.

(** [for pdf_url in pdf_links]: the values the loop goes through. *)
Definition iterate (v : pyval) : outcome (list pyval) :=
  match v with
  | VList l => Ok l
  | VStr s => Ok (characters s)
  | _ => Raise OtherException
  end.

(** The loop over the links of one record: the path of the first link
    that downloads.  A link that is not text makes [urlparse] raise inside
    [download_pdf], which logs the error and returns [None]. *)
Fixpoint try_links (pdf_links : list pyval) (project : gmap string pyval)
  : M ImprovedPDFDownloader (option string) :=
  match pdf_links with
  | [] => ret None
  | pdf_url :: rest =>
      if truthy pdf_url then
        do pdf_path <-
          match pdf_url with
          | VStr url => download_pdf url project
          | _ => logger ERROR ("Error downloading PDF: " +:+ exn_message OtherException) ;;
                 ret None
          end;
        match pdf_path with
        | Some path =>
            if truthy (VStr path) then ret (Some path) else try_links rest project
        | None => try_links rest project
        end
      else try_links rest project
  end.

(** The body of the loop of [download_pdfs_from_data] for the [i]-th
    record; it returns the record as the loop leaves it. *)
Definition process_project (i : nat) (project : gmap string pyval)
  : M ImprovedPDFDownloader (gmap string pyval) :=
  try_except
    ((if (i mod 5 =? 0)%nat then logger INFO "PDF download progress" else ret tt) ;;
     let pdf_links := dict_get project "pdf_links" (VList []) in
     let document_url := dict_get project "document_url" (VStr EmptyString) in
     do '(pdf_links, project) <-
       (if truthy document_url
        then lift_outcome (insert_document_url document_url pdf_links project)
        else ret (pdf_links, project));
     if negb (truthy pdf_links) then
       (logger DEBUG "No PDF links for project" ;;
        count_skipped ;;
        ret project)
     else
       do links <- lift_outcome (iterate pdf_links);
       do pdf_path <- try_links links project;
       match pdf_path with
       | Some path =>
           count_downloaded ;;
           ret (<["pdf_file_path" := VStr path]> project)
       | None =>
           count_failed ;;
           ret project
       end)
    (λ e,
      logger ERROR "Error processing project" ;;
      count_failed ;;
      ret project).

(** [for i, project in enumerate(projects, 1)]. *)
Fixpoint process_projects (i : nat) (projects : list (gmap string pyval))
  : M ImprovedPDFDownloader (list (gmap string pyval)) :=
  match projects with
  | [] => ret []
  | project :: rest =>
      do project <- process_project i project;
      do rest <- process_projects (S i) rest;
      ret (project :: rest)
  end.

(** The method returns [self.stats]; the records are changed in place, so
    the model returns them as well. *)
Definition download_pdfs_from_data (projects : list (gmap string pyval))
  : M ImprovedPDFDownloader (Stats * list (gmap string pyval)) :=
  logger INFO "Starting improved PDF download" ;;
  do ready <- setup_session;
  if negb ready then
    (logger ERROR "Failed to setup session, aborting PDF downloads" ;;
     do s <- get_state;
     ret (stats s, projects))
  else
    (modify (λ s, set_stats (mkStats (downloaded (stats s)) (failed (stats s))
                                     (skipped (stats s)) (Z.of_nat (length projects))) s) ;;
     do projects <- process_projects 1 projects;
     logger INFO "PDF download completed" ;;
     do s <- get_state;
     ret (stats s, projects)).

(** The test of one URL: the session, the probe, then the download into
    a record made for the test.  The rules of [=] in the log are left
    out. *)
Definition test_specific_pdf (pdf_url : string) : M ImprovedPDFDownloader bool :=
  try_except
    (logger INFO "Testing Specific PDF Download" ;;
     do ready <- setup_session;
     if negb ready then ret false
     else
       do '(is_accessible, reason) <- test_pdf_access pdf_url;
       logger INFO "PDF Access Test" ;;
       if is_accessible : bool then
         let project_info : gmap string pyval :=
           {[ "id" := VStr "test"; "title" := VStr "Test PDF" ]} in
         do pdf_path <- download_pdf pdf_url project_info;
         match pdf_path with
         | Some path =>
             if truthy (VStr path) then
               (logger INFO "SPECIFIC PDF TEST SUCCESSFUL!" ;;
                logger INFO ("PDF saved to: " +:+ path) ;;
                ret true)
             else (logger ERROR "PDF download failed" ;; ret false)
         | None => logger ERROR "PDF download failed" ;; ret false
         end
       else
         (logger ERROR ("PDF not accessible: " +:+ reason) ;; ret false))
    (λ e, logger ERROR "Error during specific PDF test" ;; ret false).

(** The state in which the probe of [download_pdf] starts: [s] with the
    two lines the method logs before it. *)
Definition announced (filename pdf_url : string) (s : ImprovedPDFDownloader)
  : ImprovedPDFDownloader :=
  set_log (log s ++ [ (INFO, "Downloading PDF: " +:+ filename);
                      (INFO, "URL: " +:+ pdf_url) ]) s.

(** No file with content is at [filepath]. *)
Definition no_file_yet (filepath : string) (s : ImprovedPDFDownloader) : Prop :=
  ∀ content, files s !! filepath = Some content → content = EmptyString.

(** The directory, the server and the files are the same in both states. *)
Definition same_world (s s' : ImprovedPDFDownloader) : Prop :=
  pdf_dir s' = pdf_dir s ∧ server s' = server s ∧ files s' = files s ∧ stats s' = stats s.

(** The directory, the server and the counters are the same. *)
Definition same_counters (s s' : ImprovedPDFDownloader) : Prop :=
  pdf_dir s' = pdf_dir s ∧ server s' = server s ∧ stats s' = stats s.

(** One of the three counters went up by one, the others and [total]
    stayed. *)
Definition counted_once (before after : Stats) : Prop :=
  total after = total before ∧
  ((downloaded after = downloaded before + 1 ∧ failed after = failed before ∧
    skipped after = skipped before) ∨
   (downloaded after = downloaded before ∧ failed after = failed before + 1 ∧
    skipped after = skipped before) ∨
   (downloaded after = downloaded before ∧ failed after = failed before ∧
    skipped after = skipped before + 1)).

(** A computation that, when it ends normally, has counted once, and,
    when it raises, has not counted. *)
Definition counts_once {A} (m : M ImprovedPDFDownloader A) : Prop :=
  ∀ s o s', m s = (o, s') →
    match o with
    | Ok _ => counted_once (stats s) (stats s')
    | Raise _ => stats s' = stats s
    end.

(** The downloader as its constructor leaves it, in a world with the
    server [srv] and the files [fs]. *)
Definition new (dir : string) (srv : list Request → Request → outcome Response)
    (fs : gmap string string) : ImprovedPDFDownloader :=
  mkDownloader dir srv [] fs (mkStats 0 0 0 0) [].

End WithRuntime.
End Downloader.

(** * improved_pagination_scraper.py: the downloads of the scraper *)

Module ScraperDownloads.

(** [driver.execute_script(script, *args)], whose result is what the
    script returns; and [text.encode('latin-1')], which raises when a
    character of the text has no Latin-1 code. *)
Class Scripting (W : Type) : Type := {
  execute_script : string → list pyval → M W pyval;
  encode_latin1 : string → option string;
}.

(** The world the downloads act on: the server that answers
    [requests.get], the requests made, and the files by path. *)
Record Web : Type := mkWeb {
  server : list Downloader.Request → Downloader.Request → outcome Downloader.Response;
  requests : list Downloader.Request;
  files : gmap string string;
}.

(** [download_stats]. *)
Record DownloadStats : Type := mkDownloadStats {
  downloaded : Z;
  failed : Z;
  skipped : Z;
  total : Z;
  downloaded_files : list (gmap string pyval);
}.

(** [try: body except requests.RequestException as e: handler e]. *)
Definition try_except_request {St A} (body : M St A) (handler : exn → M St A) : M St A :=
  λ s, match body s with
       | (Ok a, s') => (Ok a, s')
       | (Raise e, s') => if is_RequestException e then handler e s' else (Raise e, s')
       end.

(** The script of the fallback, its indentation left out. *)
Definition xhr_script : string :=
  "var xhr = new XMLHttpRequest(); xhr.open('GET', arguments[0], false); " +:+
  "xhr.send(); return xhr.responseText;".

Definition download_link_selector : string :=
  "a[href*=" +:+ quoted ".pdf" +:+ "], a[href*=" +:+ quoted "download" +:+ "]".

Section WithBrowser.
Context {W E : Type} `{!Selenium W E} `{!Scripting W} `{!PyRuntime}.

(** [requests.get(url, timeout=30, stream=True)]. *)
Definition requests_get (url : string) : M (Scraper W * Web) Downloader.Response :=
  λ '(s, web),
    (server web (requests web) (Downloader.Get url 30 true),
     (s, mkWeb (server web) (requests web ++ [Downloader.Get url 30 true]) (files web))).

Definition raise_for_status (response : Downloader.Response) : M (Scraper W * Web) unit :=
  if ((400 <=? Downloader.status_code response) &&
      (Downloader.status_code response <? 600))%bool
  then raise RequestException
  else ret tt.

(** [open(filepath, 'wb')]: the file is there and empty. *)
Definition open_wb (filepath : string) : M (Scraper W * Web) unit :=
  λ '(s, web),
    (Ok tt, (s, mkWeb (server web) (requests web) (<[filepath := EmptyString]> (files web)))).

(** [f.write(data)]. *)
Definition write (filepath data : string) : M (Scraper W * Web) unit :=
  λ '(s, web),
    (Ok tt,
     (s, mkWeb (server web) (requests web)
           (<[filepath := default EmptyString (files web !! filepath) +:+ data]> (files web)))).

(** [with open(filepath, 'wb') as f: for chunk in
    response.iter_content(chunk_size=8192): if chunk: f.write(chunk)]. *)
Definition save_response (filepath : string) (response : Downloader.Response)
  : M (Scraper W * Web) unit :=
  open_wb filepath ;;
  for_each (Downloader.chunks response)
    (λ chunk, if String.eqb chunk EmptyString then ret tt else write filepath chunk) ;;
  match Downloader.stream_error response with
  | Some e => raise e
  | None => ret tt
  end.

(** Method 1 of the fallback: the content the script returns.  A result
    that is not text has no [startswith]. *)
Definition save_script_content (url : pyval) (filepath : string)
  : M (Scraper W * Web) (option string) :=
  try_except
    (do pdf_content <- in_object (on_driver (execute_script xhr_script [url]));
     if truthy pdf_content then
       match pdf_content with
       | VStr text =>
           if startswith "%PDF" text then
             (open_wb filepath ;;
              match encode_latin1 text with
              | Some data => write filepath data
              | None => raise OtherException
              end ;;
              in_object (logger INFO "PDF downloaded with Selenium") ;;
              ret (Some filepath))
           else ret None
       | _ => raise OtherException
       end
     else ret None)
    (λ e, in_object (logger DEBUG "Failed to get PDF content directly") ;; ret None).

(** Method 2 of the fallback, the loop over the download links.  The
    local variable says whether [href] was assigned: the handler of a
    link formats [href] into its message, which raises when no link has
    given one yet. *)
Fixpoint try_download_links (filepath : string) (links : list E)
  : M ((Scraper W * Web) * bool) (option string) :=
  match links with
  | [] => ret None
  | link :: rest =>
      do done <-
        try_except
          (do href <- in_object (in_object (read_driver (get_attribute link "href")));
           modify_local (λ _, true) ;;
           match Improved.truthy_text href with
           | Some href =>
               if (contains "pdf" (lower href) || contains "download" (lower href))%bool then
                 (do response <- in_object (requests_get href);
                  in_object (raise_for_status response) ;;
                  in_object (save_response filepath response) ;;
                  in_object (in_object (logger INFO "PDF downloaded via download link")) ;;
                  ret (Some filepath))
               else ret None
           | None => ret None
           end)
          (λ e,
            do href_assigned <- get_local;
            if href_assigned : bool then
              (in_object (in_object (logger DEBUG "Failed to download via link")) ;;
               ret None)
            else raise OtherException);
      match done with
      | Some path => ret (Some path)
      | None => try_download_links filepath rest
      end
  end.

(** [url] is the document URL of the record as it is; a URL that is not
    text is refused by [driver.get]. *)
Definition download_pdf_with_selenium (url : pyval) (filepath : string)
  : M (Scraper W * Web) (option string) :=
  try_except
    (do '(s, _) <- get_state;
     match driver s with
     | None =>
         in_object (logger ERROR "WebDriver not available for PDF download") ;; ret None
     | Some _ =>
         in_object (logger INFO "Attempting to download PDF with Selenium") ;;
         match url with
         | VStr address => in_object (on_driver (driver_get address))
         | _ => raise OtherException
         end ;;
         in_object (time_sleep 3000) ;;
         do current <- in_object (read_driver current_url);
         do on_pdf_page <-
           (if contains "pdf" (lower current) then ret true
            else
              do page_content <- in_object (read_driver page_source);
              ret (startswith "%PDF" page_content));
         do saved <-
           (if on_pdf_page : bool then save_script_content url filepath else ret None);
         match saved with
         | Some path => ret (Some path)
         | None =>
             do download_links <-
               in_object (read_driver (find_elements CSS_SELECTOR download_link_selector));
             do '(done, _) <- with_local false (try_download_links filepath download_links);
             match done with
             | Some path => ret (Some path)
             | None =>
                 in_object (logger WARNING "Could not download PDF with Selenium") ;;
                 ret None
             end
         end
     end)
    (λ e, in_object (logger ERROR "Error downloading PDF with Selenium") ;; ret None).

(** The file of a record: the id, an underscore, at most 100 characters
    made from the title, and [.pdf].  A title that is not text makes
    [re.sub] raise. *)
Definition pdf_filename (project : gmap string pyval) : outcome string :=
  match dict_get project "title" (VStr "Unknown") with
  | VStr title =>
      let safe_title := str_strip (re_sub "[^\w\s-]" EmptyString title) in
      let safe_title := re_sub "[-\s]+" "-" safe_title in
      let safe_title := str_prefix 100 safe_title in
      let project_id := dict_get project "id" (VStr "unknown") in
      Ok (py_format project_id +:+ "_" +:+ safe_title +:+ ".pdf")
  | _ => Raise OtherException
  end.

(** [requests.get] on the document URL of the record: a URL that is not
    text has no scheme [requests] knows, which is a [RequestException]. *)
Definition get_document (document_url : pyval) : M (Scraper W * Web) Downloader.Response :=
  match document_url with
  | VStr url => requests_get url
  | _ => raise RequestException
  end.

Definition download_pdf_for_project (project : gmap string pyval)
  : M (Scraper W * Web) (option string) :=
  try_except
    (do '(s, web) <- get_state;
     if negb (download_pdfs s) then ret None
     else
       let document_url := dict_get project "document_url" (VStr EmptyString) in
       if negb (truthy document_url) then
         (in_object (logger DEBUG "No document URL for project") ;; ret None)
       else
         do filename <- lift_outcome (pdf_filename project);
         let filepath := path_join (pdf_dir s) filename in
         match files web !! filepath with
         | Some _ => in_object (logger DEBUG "PDF already exists") ;; ret (Some filepath)
         | None =>
             in_object (logger INFO "Downloading PDF for project") ;;
             try_except_request
               (do response <- get_document document_url;
                raise_for_status response ;;
                let content_type :=
                  lower (default EmptyString (Downloader.content_type response)) in
                match document_url with
                | VStr url =>
                    if (negb (contains "pdf" content_type) &&
                        negb (endswith ".pdf" (lower url)))%bool then
                      (in_object (logger WARNING "URL doesn't appear to be a PDF") ;;
                       ret None)
                    else
                      (save_response filepath response ;;
                       in_object (logger INFO "PDF downloaded successfully") ;;
                       ret (Some filepath))
                | _ => raise OtherException
                end)
               (λ e,
                 in_object (logger WARNING "Failed to download PDF with requests") ;;
                 download_pdf_with_selenium document_url filepath)
         end)
    (λ e, in_object (logger ERROR "Error downloading PDF for project") ;; ret None).

Definition count_downloaded (project : gmap string pyval) (pdf_path : string)
    (stats : DownloadStats) : DownloadStats :=
  mkDownloadStats (downloaded stats + 1) (failed stats) (skipped stats) (total stats)
    (downloaded_files stats ++
     [ {[ "project_id" := dict_get project "id" (VStr EmptyString);
          "title" := dict_get project "title" (VStr EmptyString);
          "pdf_path" := VStr pdf_path ]} ]).

Definition count_failed (stats : DownloadStats) : DownloadStats :=
  mkDownloadStats (downloaded stats) (failed stats + 1) (skipped stats) (total stats)
    (downloaded_files stats).

Definition count_skipped (stats : DownloadStats) : DownloadStats :=
  mkDownloadStats (downloaded stats) (failed stats) (skipped stats + 1) (total stats)
    (downloaded_files stats).

(** The body of the loop of [download_pdfs_for_projects] for the [i]-th
    record.  The record is changed in place: it is the local variable of
    the body, and what the loop leaves of it is returned. *)
Definition process_project (i : nat) (project : gmap string pyval)
  : M ((Scraper W * Web) * DownloadStats) (gmap string pyval) :=
  do '(_, project) <-
    with_local project
      (try_except
         ((if (i mod 10 =? 0)%nat
           then in_object (in_object (in_object (logger INFO "PDF download progress")))
           else ret tt) ;;
          if negb (truthy (dict_get project "document_url" VNone)) then
            in_object (modify_local count_skipped)
          else
            do pdf_path <- in_object (in_object (download_pdf_for_project project));
            match pdf_path with
            | Some path =>
                if truthy (VStr path) then
                  (in_object (modify_local (count_downloaded project path)) ;;
                   modify_local (insert "pdf_file_path" (VStr path)))
                else in_object (modify_local count_failed)
            | None => in_object (modify_local count_failed)
            end ;;
            in_object (in_object (in_object (time_sleep 500))))
         (λ e,
           in_object (in_object (in_object (logger ERROR "Error processing project"))) ;;
           in_object (modify_local count_failed)));
  ret project.

(** [for i, project in enumerate(projects, 1)]. *)
Fixpoint process_projects (i : nat) (projects : list (gmap string pyval))
  : M ((Scraper W * Web) * DownloadStats) (list (gmap string pyval)) :=
  match projects with
  | [] => ret []
  | project :: rest =>
      do project <- process_project i project;
      do rest <- process_projects (S i) rest;
      ret (project :: rest)
  end.

(** The method returns [download_stats]; the records are changed in
    place, so the model returns them as well.  The dictionary returned
    when downloads are disabled has no [downloaded_files]: the list of
    the model is empty there and stands for nothing. *)
Definition download_pdfs_for_projects (projects : list (gmap string pyval))
  : M (Scraper W * Web) (DownloadStats * list (gmap string pyval)) :=
  do '(s, _) <- get_state;
  if negb (download_pdfs s) then
    (in_object (logger INFO "PDF download is disabled") ;;
     ret (mkDownloadStats 0 0 0 (Z.of_nat (length projects)) [], projects))
  else
    (in_object (logger INFO "Starting PDF download") ;;
     do '(projects, download_stats) <-
       with_local (mkDownloadStats 0 0 0 (Z.of_nat (length projects)) [])
         (process_projects 1 projects);
     in_object (logger INFO "PDF download completed") ;;
     ret (download_stats, projects)).

(** Each record was counted once. *)
Definition counted (stats : DownloadStats) (n : nat) : Prop :=
  downloaded stats + failed stats + skipped stats = Z.of_nat n ∧
  Z.of_nat (length (downloaded_files stats)) = downloaded stats.

(** No file is removed: a path that names a file before names one
    after. *)
Definition keeps_files (x x' : Scraper W * Web) : Prop :=
  ∀ path, is_Some (files x.2 !! path) → is_Some (files x'.2 !! path).

Definition keeps_files_local {L} (x x' : (Scraper W * Web) * L) : Prop :=
  keeps_files x.1 x'.1.

End WithBrowser.
End ScraperDownloads.

(** * A reference runtime and a small browser

    An instance of each interface, on which the definitions above run by
    computation: it gives the concrete inputs of the examples below. *)

Module Reference.

Definition is_digit (c : ascii) : bool :=
  let n := Ascii.nat_of_ascii c in ((48 <=? n) && (n <=? 57))%nat.

(** The ASCII white space of [\s] and of [str.strip]. *)
Definition is_space (c : ascii) : bool :=
  let n := Ascii.nat_of_ascii c in
  (((9 <=? n) && (n <=? 13)) || ((28 <=? n) && (n <=? 32)))%nat.

(** [\w]: letters, digits and the underscore; a byte above 127 is part of
    a letter. *)
Definition is_word (c : ascii) : bool :=
  let n := Ascii.nat_of_ascii c in
  (is_digit c || ((65 <=? n) && (n <=? 90)) || ((97 <=? n) && (n <=? 122))
   || (n =? 95) || (128 <=? n))%nat.

(** The regular expressions the program uses are sequences of single
    characters and character classes, some repeated, with capture groups
    around parts of the sequence. *)
Inductive atom : Type :=
| Chr (p : ascii → bool)
| Star (p : ascii → bool)
| Open
| Close.

(** The class an escaped character stands for. *)
Definition escape_class (c : ascii) : ascii → bool :=
  if Ascii.eqb c "d" then is_digit
  else if Ascii.eqb c "s" then is_space
  else if Ascii.eqb c "w" then is_word
  else Ascii.eqb c.

Definition literal (ignorecase : bool) (c : ascii) : ascii → bool :=
  if ignorecase then λ x, Ascii.eqb (lower_ascii x) (lower_ascii c) else Ascii.eqb c.

(** The members of a set, read up to the closing bracket. *)
Fixpoint parse_set (s : string) (acc : ascii → bool) : (ascii → bool) * string :=
  match s with
  | EmptyString => (acc, EmptyString)
  | String c rest =>
      if Ascii.eqb c "]" then (acc, rest)
      else if Ascii.eqb c "\" then
        match rest with
        | String d rest' => parse_set rest' (λ x, acc x || escape_class d x)
        | EmptyString => (acc, EmptyString)
        end
      else parse_set rest (λ x, acc x || Ascii.eqb c x)
  end.

(** The class [p] followed by its quantifier, if it has one. *)
Definition quantified (p : ascii → bool) (rest : string) : list atom * string :=
  match rest with
  | String c rest' =>
      if Ascii.eqb c "*" then ([Star p], rest')
      else if Ascii.eqb c "+" then ([Chr p; Star p], rest')
      else ([Chr p], rest)
  | EmptyString => ([Chr p], rest)
  end.

Fixpoint parse (fuel : nat) (ignorecase : bool) (s : string) : list atom :=
  match fuel with
  | O => []
  | S fuel =>
      match s with
      | EmptyString => []
      | String c rest =>
          if Ascii.eqb c "(" then Open :: parse fuel ignorecase rest
          else if Ascii.eqb c ")" then Close :: parse fuel ignorecase rest
          else
            let '(atoms, rest') :=
              if Ascii.eqb c "[" then
                match rest with
                | String d rest1 =>
                    if Ascii.eqb d "^" then
                      let '(p, rest2) := parse_set rest1 (λ _, false) in
                      quantified (λ x, negb (p x)) rest2
                    else
                      let '(p, rest2) := parse_set rest (λ _, false) in
                      quantified p rest2
                | EmptyString => ([], EmptyString)
                end
              else if Ascii.eqb c "\" then
                match rest with
                | String d rest1 => quantified (escape_class d) rest1
                | EmptyString => ([], EmptyString)
                end
              else quantified (literal ignorecase c) rest in
            atoms ++ parse fuel ignorecase rest'
      end
  end.

Definition compile (ignorecase : bool) (pattern : string) : list atom :=
  parse (S (String.length pattern)) ignorecase pattern.

(** The text of the open group, one character longer. *)
Definition push (c : ascii) (cur : option string) : option string :=
  (λ t, t +:+ String c EmptyString) <$> cur.

(** A match of [atoms] at the start of the text, greedy and backtracking:
    the groups in order and the rest of the text. *)
Fixpoint match_here (atoms : list atom)
  : string → list string → option string → option (list string * string) :=
  match atoms with
  | [] => λ s groups cur, Some (rev groups, s)
  | Open :: rest => λ s groups cur, match_here rest s groups (Some EmptyString)
  | Close :: rest => λ s groups cur, match_here rest s (default EmptyString cur :: groups) None
  | Chr p :: rest => λ s groups cur,
      match s with
      | String c s' => if p c then match_here rest s' groups (push c cur) else None
      | EmptyString => None
      end
  | Star p :: rest =>
      fix star (s : string) (groups : list string) (cur : option string) :=
        match s with
        | String c s' =>
            if p c then
              match star s' groups (push c cur) with
              | Some r => Some r
              | None => match_here rest s groups cur
              end
            else match_here rest s groups cur
        | EmptyString => match_here rest s groups cur
        end
  end.

(** The matches from left to right, each starting where the last ended. *)
Fixpoint findall_from (fuel : nat) (atoms : list atom) (s : string) : list (list string) :=
  match fuel with
  | O => []
  | S fuel =>
      let next := match s with
                  | String _ s' => findall_from fuel atoms s'
                  | EmptyString => []
                  end in
      match match_here atoms s [] None with
      | Some (groups, rest) =>
          if (String.length rest <? String.length s)%nat
          then groups :: findall_from fuel atoms rest
          else groups :: next
      | None => next
      end
  end.

Definition findall (pattern s : string) : list (list string) :=
  findall_from (S (String.length s)) (compile true pattern) s.

Fixpoint search_from (atoms : list atom) (s : string) : option (list string) :=
  match match_here atoms s [] None with
  | Some (groups, _) => Some groups
  | None =>
      match s with
      | String _ s' => search_from atoms s'
      | EmptyString => None
      end
  end.

Definition search (pattern s : string) : option string :=
  groups ← search_from (compile false pattern) s; head groups.

Fixpoint sub_from (fuel : nat) (atoms : list atom) (repl s : string) : string :=
  match fuel with
  | O => s
  | S fuel =>
      match s with
      | EmptyString => EmptyString
      | String c s' =>
          match match_here atoms s [] None with
          | Some (_, rest) =>
              if (String.length rest <? String.length s)%nat
              then repl +:+ sub_from fuel atoms repl rest
              else String c (sub_from fuel atoms repl s')
          | None => String c (sub_from fuel atoms repl s')
          end
      end
  end.

Definition sub (pattern repl s : string) : string :=
  sub_from (S (String.length s)) (compile false pattern) repl s.

Fixpoint lstrip (s : string) : string :=
  match s with
  | String c rest => if is_space c then lstrip rest else s
  | EmptyString => EmptyString
  end.

Definition strip (s : string) : string :=
  String.rev (lstrip (String.rev (lstrip s))).

Fixpoint digits_value (s : string) (acc : Z) : option Z :=
  match s with
  | EmptyString => Some acc
  | String c rest =>
      if is_digit c
      then digits_value rest (10 * acc + (Z.of_nat (Ascii.nat_of_ascii c) - 48))
      else None
  end.

(** [int(s)] for an optional sign and decimal digits. *)
Definition int (s : string) : option Z :=
  match strip s with
  | EmptyString => None
  | String c rest as t =>
      if Ascii.eqb c "-" then
        match rest with
        | EmptyString => None
        | _ => Z.opp <$> digits_value rest 0
        end
      else if Ascii.eqb c "+" then
        match rest with
        | EmptyString => None
        | _ => digits_value rest 0
        end
      else digits_value t 0
  end.

(** The text after the first [://], if there is one. *)
Fixpoint after_scheme (s : string) : option string :=
  match s with
  | EmptyString => None
  | String _ rest =>
      if startswith "://" s then Some (String.substring 3 (String.length s - 3) s)
      else after_scheme rest
  end.

(** The text from the first slash on. *)
Fixpoint from_slash (s : string) : string :=
  match s with
  | EmptyString => EmptyString
  | String c rest => if Ascii.eqb c "/" then s else from_slash rest
  end.

(** The text up to the query or the fragment. *)
Fixpoint before_query (s : string) : string :=
  match s with
  | EmptyString => EmptyString
  | String c rest =>
      if (Ascii.eqb c "?" || Ascii.eqb c "#")%bool then EmptyString
      else String c (before_query rest)
  end.

Definition path_of_url (url : string) : string :=
  match after_scheme url with
  | Some rest => before_query (from_slash rest)
  | None => before_query url
  end.

(** [repr] without escapes. *)
Fixpoint repr (v : pyval) : string :=
  match v with
  | VNone => "None"
  | VInt z => pretty z
  | VStr s => "'" +:+ s +:+ "'"
  | VList l =>
      "[" +:+
      (fix items (l : list pyval) : string :=
         match l with
         | [] => EmptyString
         | [x] => repr x
         | x :: rest => repr x +:+ ", " +:+ items rest
         end) l
      +:+ "]"
  end.

#[export] Instance runtime : PyRuntime := {
  repr_list l := repr (VList l);
  re_sub := sub;
  re_findall := findall;
  re_search := search;
  str_strip := strip;
  py_int := int;
  urlparse_path := path_of_url;
  path_join dir name := dir +:+ "/" +:+ name;
}.

End Reference.

(** A paginated result list in a browser: the page shows its number and
    the number of pages, may have one next control, and holds one table
    whose rows have text cells and, in the last cell, at most one anchor. *)
Module Toy.

Record TableRow : Type := mkRow {
  cells : list string;
  (** the [href] and the text of the anchor *)
  anchor : option (string * string);
}.

Record Browser : Type := mkBrowser {
  page : Z;
  pages : Z;
  (** the page shows the indicator "<page> of <pages>" *)
  shows_indicator : bool;
  (** the next control: absent, stuck (a click changes nothing) or working *)
  next_control : option bool;
  (** the data rows of the table, under a header row *)
  rows : list TableRow;
  url : string;
  (** the user interrupts the next page load *)
  interrupt_on_get : bool;
  (** how often [quit] was called *)
  quit_calls : nat;
}.

(** The elements: the next control, the table, its [j]-th row (0 is the
    header), the [k]-th cell of a row and the anchor of a row. *)
Inductive Element : Type :=
| NextControl
| Table
| Row (j : nat)
| Cell (j k : nat)
| Anchor (j : nat).

Definition set_page (n : Z) (b : Browser) : Browser :=
  mkBrowser n (pages b) (shows_indicator b) (next_control b) (rows b) (url b)
            (interrupt_on_get b) (quit_calls b).

Definition set_url (u : string) (b : Browser) : Browser :=
  mkBrowser (page b) (pages b) (shows_indicator b) (next_control b) (rows b) u
            (interrupt_on_get b) (quit_calls b).

Definition count_quit (b : Browser) : Browser :=
  mkBrowser (page b) (pages b) (shows_indicator b) (next_control b) (rows b) (url b)
            (interrupt_on_get b) (S (quit_calls b)).

(** The next control is an element of class [ui-paginator-next next]. *)
Definition next_control_selectors : list string :=
  [ ".next"; ".ui-paginator-next"; "[class*=" +:+ quoted "next" +:+ "]" ].

Definition source (b : Browser) : string :=
  if shows_indicator b
  then "<html><body><table></table><span>" +:+ pretty (page b) +:+ " of " +:+
       pretty (pages b) +:+ "</span></body></html>"
  else "<html><body><p>Sin resultados</p></body></html>".

(** The data row behind the element [Row j]. *)
Definition data_row (b : Browser) (j : nat) : option TableRow :=
  match j with
  | O => None
  | S j' => rows b !! j'
  end.

Definition has_anchor (b : Browser) (j : nat) : bool :=
  match data_row b j with
  | Some row => match anchor row with Some _ => true | None => false end
  | None => false
  end.

Definition children (b : Browser) (parent : Element) (selector : string) : list Element :=
  match parent with
  | Table =>
      if String.eqb selector "tr, mat-row" then Row <$> seq 0 (S (length (rows b))) else []
  | Row j =>
      if String.eqb selector "td, th, mat-cell" then
        match data_row b j with
        | Some row => Cell j <$> seq 0 (length (cells row))
        | None => [Cell j 0%nat; Cell j 1%nat]
        end
      else if (String.eqb selector "a" && has_anchor b j)%bool then [Anchor j]
      else []
  | Cell j k =>
      match data_row b j with
      | Some row =>
          if (String.eqb selector "a" && has_anchor b j &&
              (S k =? length (cells row))%nat)%bool
          then [Anchor j] else []
      | None => []
      end
  | _ => []
  end.

Definition text_of (b : Browser) (element : Element) : string :=
  match element with
  | NextControl => ">>"
  | Cell j k =>
      match data_row b j with
      | Some row => default EmptyString (cells row !! k)
      | None => "Columna"
      end
  | Anchor j =>
      match data_row b j with
      | Some row => default EmptyString (snd <$> anchor row)
      | None => EmptyString
      end
  | _ => EmptyString
  end.

Definition attribute_of (b : Browser) (element : Element) (name : string) : option string :=
  match element with
  | NextControl =>
      if String.eqb name "class" then Some "ui-paginator-next next" else None
  | Anchor j =>
      if String.eqb name "href" then
        match data_row b j with
        | Some row => fst <$> anchor row
        | None => None
        end
      else None
  | _ => None
  end.

(** The browser [chrome] starts is [start]. *)
Definition selenium (start : Browser) : Selenium Browser Element := {|
  chrome _ := Ok start;
  set_window_size _ _ := ret tt;
  quit := modify count_quit;
  driver_get u :=
    do b <- get_state;
    if interrupt_on_get b then raise KeyboardInterrupt else modify (set_url u);
  sleep _ := ret tt;
  save_screenshot _ := ret tt;
  page_source b := Ok (source b);
  current_url b := Ok (url b);
  find_elements by_ selector b :=
    Ok (match by_ with
        | CSS_SELECTOR =>
            if String.eqb selector "table, mat-table" then
              match rows b with [] => [] | _ => [Table] end
            else
              match next_control b with
              | Some _ =>
                  if bool_decide (selector ∈ next_control_selectors)
                  then [NextControl] else []
              | None => []
              end
        | _ => []
        end);
  find_element _ _ _ := Raise OtherException;
  elem_find_elements parent _ selector b := Ok (children b parent selector);
  elem_find_element _ _ _ _ := Raise OtherException;
  wait_until_present _ _ _ := ret tt;
  is_displayed _ _ := Ok true;
  is_enabled _ _ := Ok true;
  elem_text element b := Ok (text_of b element);
  get_attribute element name b := Ok (attribute_of b element name);
  click _ :=
    do b <- get_state;
    match next_control b with
    | Some true => modify (set_page (page b + 1))
    | _ => ret tt
    end;
  clear _ := ret tt;
  send_keys _ _ := ret tt;
|}.

Definition portal : string := "https://leyes.asambleanacional.gob.ec?vhf=1".

(** Page 1 of 5, with a next control that works or is stuck. *)
Definition listing (next_works : bool) : Browser :=
  mkBrowser 1 5 true (Some next_works) [] portal false 0.

(** A page without any pagination text. *)
Definition no_results : Browser :=
  mkBrowser 1 1 false None [] portal false 0.

(** A page of one row: a bill whose last cell has an anchor to its
    document, with the text of the anchor naming it. *)
Definition one_bill : Browser :=
  mkBrowser 1 1 true None
    [ mkRow ["Ley de Aguas"; "Proyecto de ley"; "Ver PDF"]
            (Some ("https://ppless.asambleanacional.gob.ec/docs/ley.pdf", "Ver PDF")) ]
    portal false 0.

(** A browser in which the user presses Ctrl-C while the portal loads. *)
Definition interrupted : Browser :=
  mkBrowser 1 5 true (Some true) [] "about:blank" true 0.

(** A scraper as its constructor leaves it, then given the browser [b]. *)
Definition scraper (b : option Browser) : Scraper Browser :=
  mkScraper b true 2000 true "data/pdfs" [] 0 1 ∅ [].

(** A document server.  The portal pages answer with HTML.  A document
    URL with [missing] in it is not found; one with [mislabelled] is
    declared as HTML although the body is a PDF; for one with [expired]
    the download is answered with the login page, for one with [empty]
    with an empty body; any other document is a PDF. *)
Definition html_page : Downloader.Response :=
  Downloader.mkResponse 200 (Some "text/html; charset=UTF-8") None (Ok "<html>")
    ["<html></html>"] None.

Definition declared_type (url : string) : string :=
  if contains "mislabelled" url then "text/html; charset=UTF-8" else "application/pdf".

Definition server (history : list Downloader.Request) (r : Downloader.Request)
  : outcome Downloader.Response :=
  match r with
  | Downloader.Get _ _ false => Ok html_page
  | Downloader.Head url _ =>
      Ok (Downloader.mkResponse (if contains "missing" url then 404 else 200)
            (Some (declared_type url)) (Some "13") (Ok EmptyString) [] None)
  | Downloader.Get url timeout true =>
      Ok (Downloader.mkResponse 200 (Some (declared_type url)) (Some "13") (Ok "%PDF-1.4 abcd")
            (if contains "expired" url then ["<html>"; "Iniciar sesion</html>"]
             else if contains "empty" url then []
             else ["%PDF-1.4 "; "abcd"])
            None)
  end.

(** A fresh downloader in front of that server, with the files [fs]. *)
Definition downloader (fs : gmap string string) : Downloader.ImprovedPDFDownloader :=
  Downloader.new "data/improved_pdfs" server fs.

(** A record with the id [id], the title [title] and the links [links],
    the first link being its document. *)
Definition record (id title : string) (links : list string) : gmap string pyval :=
  {[ "id" := VStr id; "title" := VStr title;
     "document_url" := VStr (default EmptyString (head links));
     "pdf_links" := VList (VStr <$> links) ]}.

(** Four documents of the server and a record. *)
Definition ley_pdf : string := "https://ppless.asambleanacional.gob.ec/docs/ley.pdf".
Definition mislabelled_pdf : string :=
  "https://ppless.asambleanacional.gob.ec/docs/mislabelled.pdf".
Definition mislabelled_view : string :=
  "https://ppless.asambleanacional.gob.ec/view/mislabelled?id=7".
Definition expired_view : string :=
  "https://ppless.asambleanacional.gob.ec/view/expired?id=7".
Definition ley_de_aguas : gmap string pyval :=
  record "page_1_table_1_row_1" "Ley de Aguas" [ley_pdf].

(** A batch: a record that downloads, one without links, one whose
    document is missing, and one whose [pdf_links] is a number, on which
    [insert] raises. *)
Definition batch : list (gmap string pyval) :=
  [ ley_de_aguas;
    record "page_1_table_1_row_2" "Sin documento" [];
    record "page_1_table_1_row_3" "No publicado"
      ["https://ppless.asambleanacional.gob.ec/docs/missing.pdf"];
    <["pdf_links" := VInt 5]>
      (record "page_1_table_1_row_4" "Registro roto" [ley_pdf]) ].

End Toy.

(** * A browser on one fixed page, and a browser on the search form *)

Module Static.

(** A browser that shows the page [page_text] and nothing to act on. *)
Definition selenium (page_text : string) : Selenium unit unit := {|
  chrome _ := Ok tt;
  set_window_size _ _ := ret tt;
  quit := ret tt;
  driver_get _ := ret tt;
  sleep _ := ret tt;
  save_screenshot _ := ret tt;
  page_source _ := Ok page_text;
  current_url _ := Ok "https://leyes.asambleanacional.gob.ec?vhf=1";
  find_elements _ _ _ := Ok [];
  find_element _ _ _ := Raise OtherException;
  elem_find_elements _ _ _ _ := Ok [];
  elem_find_element _ _ _ _ := Raise OtherException;
  wait_until_present _ _ _ := ret tt;
  is_displayed _ _ := Ok true;
  is_enabled _ _ := Ok true;
  elem_text _ _ := Ok EmptyString;
  get_attribute _ _ _ := Ok None;
  click _ := ret tt;
  clear _ := ret tt;
  send_keys _ _ := ret tt;
|}.

(** The same browser, but resizing its window raises. *)
Definition fixed_window (page_text : string) : Selenium unit unit := {|
  chrome _ := Ok tt;
  set_window_size _ _ := raise OtherException;
  quit := ret tt;
  driver_get _ := ret tt;
  sleep _ := ret tt;
  save_screenshot _ := ret tt;
  page_source _ := Ok page_text;
  current_url _ := Ok "https://leyes.asambleanacional.gob.ec?vhf=1";
  find_elements _ _ _ := Ok [];
  find_element _ _ _ := Raise OtherException;
  elem_find_elements _ _ _ _ := Ok [];
  elem_find_element _ _ _ _ := Raise OtherException;
  wait_until_present _ _ _ := ret tt;
  is_displayed _ _ := Ok true;
  is_enabled _ _ := Ok true;
  elem_text _ _ := Ok EmptyString;
  get_attribute _ _ _ := Ok None;
  click _ := ret tt;
  clear _ := ret tt;
  send_keys _ _ := ret tt;
|}.

(** The same browser with two download links whose [href] cannot be
    read. *)
Definition stale_links (page_text : string) : Selenium unit unit := {|
  chrome _ := Ok tt;
  set_window_size _ _ := ret tt;
  quit := ret tt;
  driver_get _ := ret tt;
  sleep _ := ret tt;
  save_screenshot _ := ret tt;
  page_source _ := Ok page_text;
  current_url _ := Ok "https://leyes.asambleanacional.gob.ec?vhf=1";
  find_elements _ _ _ := Ok [tt; tt];
  find_element _ _ _ := Raise OtherException;
  elem_find_elements _ _ _ _ := Ok [];
  elem_find_element _ _ _ _ := Raise OtherException;
  wait_until_present _ _ _ := ret tt;
  is_displayed _ _ := Ok true;
  is_enabled _ _ := Ok true;
  elem_text _ _ := Ok EmptyString;
  get_attribute _ _ _ := Raise OtherException;
  click _ := ret tt;
  clear _ := ret tt;
  send_keys _ _ := ret tt;
|}.

(** A browser whose scripts return nothing. *)
Definition scripting : ScraperDownloads.Scripting unit := {|
  ScraperDownloads.execute_script _ _ := ret VNone;
  ScraperDownloads.encode_latin1 text := Some text;
|}.

Definition scraper : Scraper unit :=
  mkScraper (Some tt) true 2000 true "data/pdfs" [] 0 1 ∅ [].

Definition new_scraper : Scraper unit :=
  mkScraper None true 2000 true "data/pdfs" [] 0 1 ∅ [].

(** A server that cannot be reached, and a downloader in front of it. *)
Definition offline (history : list Downloader.Request) (r : Downloader.Request)
  : outcome Downloader.Response :=
  Raise RequestException.

Definition downloader_offline : Downloader.ImprovedPDFDownloader :=
  Downloader.new "data/improved_pdfs" offline ∅.

(** The document server of [Toy] with the files [fs], and the same out
    of reach. *)
Definition web (fs : gmap string string) : ScraperDownloads.Web :=
  ScraperDownloads.mkWeb Toy.server [] fs.

Definition web_offline : ScraperDownloads.Web :=
  ScraperDownloads.mkWeb offline [] ∅.

End Static.

Module Form.

(** The search form: three date inputs and a search button.  The browser
    records what was typed into which input, and the clicks. *)
Inductive Element : Type := DateFrom | DateTo | DateOther | SearchButton.

Record Browser : Type := mkBrowser {
  typed : list (Element * string);
  clicks : nat;
}.

Definition name_of (element : Element) : option string :=
  match element with
  | DateFrom => Some "fecha_desde"
  | DateTo => Some "fecha_hasta"
  | DateOther => Some "fecha_publicacion"
  | SearchButton => None
  end.

Definition selenium : Selenium Browser Element := {|
  chrome _ := Ok (mkBrowser [] 0);
  set_window_size _ _ := ret tt;
  quit := ret tt;
  driver_get _ := ret tt;
  sleep _ := ret tt;
  save_screenshot _ := ret tt;
  page_source _ := Ok "<html><body><form></form></body></html>";
  current_url _ := Ok "https://leyes.asambleanacional.gob.ec?vhf=1";
  find_elements by_ selector _ :=
    Ok (match by_ with
        | CSS_SELECTOR =>
            if String.eqb selector ("input[name*=" +:+ quoted "fecha" +:+ "]")
            then [DateFrom; DateTo; DateOther]
            else if String.eqb selector (".btn-search") then [SearchButton]
            else []
        | _ => []
        end);
  find_element _ _ _ := Raise OtherException;
  elem_find_elements _ _ _ _ := Ok [];
  elem_find_element _ _ _ _ := Raise OtherException;
  wait_until_present _ _ _ := ret tt;
  is_displayed _ _ := Ok true;
  is_enabled _ _ := Ok true;
  elem_text _ _ := Ok EmptyString;
  get_attribute element attribute _ :=
    Ok (if String.eqb attribute "name" then name_of element else None);
  click _ := modify (λ b, mkBrowser (typed b) (S (clicks b)));
  clear _ := ret tt;
  send_keys element text := modify (λ b, mkBrowser (typed b ++ [(element, text)]) (clicks b));
|}.

Definition scraper : Scraper Browser :=
  mkScraper (Some (mkBrowser [] 0)) true 2000 true "data/pdfs" [] 0 1 ∅ [].

End Form.

(** * A results page whose indicator goes away *)

Module Loading.

(** The page shows "3 of 275" and a next button of class [next]; after a
    click on the button the page shows no indicator, the results being
    loaded.  The state of the browser is whether the indicator is
    shown. *)
Definition source (shown : bool) : string :=
  if shown
  then "<html><body><table></table><span>3 of 275</span></body></html>"
  else "<html><body><p>Cargando...</p></body></html>".

Definition selenium : Selenium bool unit := {|
  chrome _ := Ok true;
  set_window_size _ _ := ret tt;
  quit := ret tt;
  driver_get _ := ret tt;
  sleep _ := ret tt;
  save_screenshot _ := ret tt;
  page_source shown := Ok (source shown);
  current_url _ := Ok "https://leyes.asambleanacional.gob.ec?vhf=1";
  find_elements by_ selector _ :=
    Ok (match by_ with
        | CSS_SELECTOR => if String.eqb selector ".next" then [tt] else []
        | _ => []
        end);
  find_element _ _ _ := Raise OtherException;
  elem_find_elements _ _ _ _ := Ok [];
  elem_find_element _ _ _ _ := Raise OtherException;
  wait_until_present _ _ _ := ret tt;
  is_displayed _ _ := Ok true;
  is_enabled _ _ := Ok true;
  elem_text _ _ := Ok EmptyString;
  get_attribute _ _ _ := Ok None;
  click _ := modify (λ _, false);
  clear _ := ret tt;
  send_keys _ _ := ret tt;
|}.

(** A scraper as its constructor leaves it, the stored page being 1,
    with the browser on that page. *)
Definition scraper : Scraper bool :=
  mkScraper (Some true) true 2000 true "data/pdfs" [] 0 1 ∅ [].

End Loading.

(** * Properties *)

(** ** Generic facts about the monad *)

Lemma bind_ok {St A B} (m : M St A) (k : A → M St B) s a s' :
  m s = (Ok a, s') → bind m k s = k a s'.
Proof. intros Hm. unfold bind. by rewrite Hm. Qed.

Lemma bind_raise {St A B} (m : M St A) (k : A → M St B) s e s' :
  m s = (Raise e, s') → bind m k s = (Raise e, s').
Proof. intros Hm. unfold bind. by rewrite Hm. Qed.

(** A bind that ends well went through its first half. *)
Lemma bind_inv_ok {St A B} (m : M St A) (k : A → M St B) s b s' :
  bind m k s = (Ok b, s') → ∃ a s1, m s = (Ok a, s1) ∧ k a s1 = (Ok b, s').
Proof.
  unfold bind. destruct (m s) as [[a|e] s1] eqn:Hm; [eauto | discriminate].
Qed.

Lemma try_except_inv_ok {St A} (body : M St A) (h : exn → M St A) s a s' :
  try_except body h s = (Ok a, s') →
  body s = (Ok a, s') ∨
  ∃ e s1, body s = (Raise e, s1) ∧ is_Exception e = true ∧ h e s1 = (Ok a, s').
Proof.
  unfold try_except. destruct (body s) as [[x|e] s1] eqn:Hb.
  - intros [= <- <-]. by left.
  - destruct (is_Exception e) eqn:He; [| discriminate].
    intros Hh. right. eauto.
Qed.

(** ** De-duplication of the extracted rows *)

Section Deduplication.
Context {W : Type} `{!PyRuntime}.
Implicit Types (s : Scraper W) (project : gmap string pyval).

(** One turn of the loop on a key that was not seen yet. *)
Lemma remove_duplicates_new project rest unique s :
  Improved.project_id_of project ∉ seen_project_ids s →
  Improved.remove_duplicates (project :: rest) unique s =
  Improved.remove_duplicates rest (unique ++ [project])
    (set_seen_project_ids ({[Improved.project_id_of project]} ∪ seen_project_ids s) s).
Proof.
  intros Hnew. cbn [Improved.remove_duplicates]. unfold bind at 1, get_state.
  destruct (decide (Improved.project_id_of project ∈ seen_project_ids s)); [done |].
  reflexivity.
Qed.

(** One turn of the loop on a key that was seen already. *)
Lemma remove_duplicates_seen project rest unique s :
  Improved.project_id_of project ∈ seen_project_ids s →
  Improved.remove_duplicates (project :: rest) unique s =
  Improved.remove_duplicates rest unique
    (set_log (log s ++ [(DEBUG, "Duplicate project found and skipped")]) s).
Proof.
  intros Hseen. cbn [Improved.remove_duplicates]. unfold bind at 1, get_state.
  destruct (decide (Improved.project_id_of project ∈ seen_project_ids s)); [| done].
  reflexivity.
Qed.

(** The loop always ends normally, and the seen set only grows. *)
Lemma remove_duplicates_total projects unique s :
  ∃ out s', Improved.remove_duplicates projects unique s = (Ok out, s') ∧
            seen_project_ids s ⊆ seen_project_ids s' ∧
            driver s' = driver s ∧ current_page s' = current_page s.
Proof.
  revert unique s. induction projects as [| project rest IH]; intros unique s.
  - exists unique, s. by split.
  - destruct (decide (Improved.project_id_of project ∈ seen_project_ids s)) as [Hin | Hnew].
    + rewrite remove_duplicates_seen by done.
      destruct (IH unique (set_log (log s ++ [(DEBUG, "Duplicate project found and skipped")]) s))
        as (out & s' & -> & Hsub & Hd & Hc).
      exists out, s'. by repeat split.
    + rewrite remove_duplicates_new by done.
      destruct (IH (unique ++ [project])
                  (set_seen_project_ids ({[Improved.project_id_of project]} ∪ seen_project_ids s) s))
        as (out & s' & -> & Hsub & Hd & Hc).
      exists out, s'. repeat split; [| done | done].
      cbn in Hsub. set_solver.
Qed.

(** The key depends on the title and the description only. *)
Lemma project_id_of_same_content project1 project2 :
  project1 !! "title" = project2 !! "title" →
  project1 !! "description" = project2 !! "description" →
  Improved.project_id_of project1 = Improved.project_id_of project2.
Proof.
  intros Ht Hd. unfold Improved.project_id_of, dict_get. by rewrite Ht, Hd.
Qed.

(** C6. Two rows with the same title and description: within one
    extraction the first is kept and the second dropped, the seen set
    gaining exactly one key; and once the first was extracted, a later
    extraction of the second, whatever was seen in between, emits nothing
    and leaves the seen set as it was. *)
Theorem duplicate_row_dropped s s2 project1 project2 :
  project1 !! "title" = project2 !! "title" →
  project1 !! "description" = project2 !! "description" →
  Improved.project_id_of project1 ∉ seen_project_ids s →
  {[Improved.project_id_of project1]} ∪ seen_project_ids s ⊆ seen_project_ids s2 →
  (∃ s', Improved.remove_duplicates [project1; project2] [] s = (Ok [project1], s') ∧
         seen_project_ids s' = {[Improved.project_id_of project1]} ∪ seen_project_ids s ∧
         size (seen_project_ids s') = S (size (seen_project_ids s))) ∧
  (∃ s1, Improved.remove_duplicates [project1] [] s = (Ok [project1], s1) ∧
         size (seen_project_ids s1) = S (size (seen_project_ids s))) ∧
  (∃ s2', Improved.remove_duplicates [project2] [] s2 = (Ok [], s2') ∧
          seen_project_ids s2' = seen_project_ids s2).
Proof.
  intros Ht Hd Hnew Hsub.
  pose proof (project_id_of_same_content _ _ Ht Hd) as Hkey.
  assert (size ({[Improved.project_id_of project1]} ∪ seen_project_ids s)
          = S (size (seen_project_ids s))) as Hsize.
  { rewrite size_union by set_solver. by rewrite size_singleton. }
  split; [| split].
  - rewrite remove_duplicates_new by done.
    rewrite remove_duplicates_seen by (cbn; rewrite <- Hkey; set_solver).
    eexists. split; [reflexivity |]. by split.
  - rewrite remove_duplicates_new by done.
    eexists. split; [reflexivity |]. done.
  - rewrite remove_duplicates_seen by (rewrite <- Hkey; set_solver).
    eexists. split; [reflexivity |]. done.
Qed.

(** C9. The key is the title, an underscore and the description, so two
    rows whose titles and descriptions differ but concatenate to the same
    string share a key, and the second one is dropped. *)
Theorem colliding_keys_dropped s project1 project2 t1 d1 t2 d2 :
  project1 !! "title" = Some (VStr t1) →
  project1 !! "description" = Some (VStr d1) →
  project2 !! "title" = Some (VStr t2) →
  project2 !! "description" = Some (VStr d2) →
  (t1, d1) ≠ (t2, d2) →
  t1 +:+ "_" +:+ d1 = t2 +:+ "_" +:+ d2 →
  Improved.project_id_of project1 ∉ seen_project_ids s →
  Improved.project_id_of project1 = t1 +:+ "_" +:+ d1 ∧
  Improved.project_id_of project2 = Improved.project_id_of project1 ∧
  ∃ s', Improved.remove_duplicates [project1; project2] [] s = (Ok [project1], s') ∧
        seen_project_ids s' = {[Improved.project_id_of project1]} ∪ seen_project_ids s ∧
        log s' = log s ++ [(DEBUG, "Duplicate project found and skipped")].
Proof.
  intros Ht1 Hd1 Ht2 Hd2 Hne Hcat Hnew.
  assert (Improved.project_id_of project1 = t1 +:+ "_" +:+ d1) as Hk1.
  { unfold Improved.project_id_of, dict_get. by rewrite Ht1, Hd1. }
  assert (Improved.project_id_of project2 = Improved.project_id_of project1) as Hk2.
  { rewrite Hk1. unfold Improved.project_id_of, dict_get. by rewrite Ht2, Hd2. }
  repeat split; [done | done |].
  rewrite remove_duplicates_new by done.
  rewrite remove_duplicates_seen by (cbn; rewrite Hk2; set_solver).
  eexists. split; [reflexivity |]. by split.
Qed.

End Deduplication.

(** ** Discovery of the page count *)

Section PageCount.
Context {W E : Type} `{!Selenium W E} `{!PyRuntime}.
Implicit Types (s : Scraper W).

Lemma first_match_none patterns page_content :
  (∀ pattern, pattern ∈ patterns → re_findall pattern page_content = []) →
  Improved.first_match patterns page_content = None.
Proof.
  induction patterns as [| pattern rest IH]; intros Hnone; [done |].
  cbn. rewrite Hnone by apply list_elem_of_here.
  apply IH. intros p Hp. by apply Hnone, list_elem_of_further.
Qed.

(** The four entries of the dict the discovery returns. *)
Lemma pagination_info_lookup total_records total_pages current :
  Improved.pagination_info total_records total_pages current !! "total_records"
    = Some (VInt total_records) ∧
  Improved.pagination_info total_records total_pages current !! "total_pages"
    = Some (VInt total_pages) ∧
  Improved.pagination_info total_records total_pages current !! "items_per_page"
    = Some (VInt 10) ∧
  Improved.pagination_info total_records total_pages current !! "current_page"
    = Some (VInt current).
Proof. unfold Improved.pagination_info. by simplify_map_eq. Qed.

(** C2. When the text of the page matches none of the page-count patterns
    and none of the total-records patterns, the discovery returns normally
    the dict of the defaults: 2742 records, 275 pages, 10 items per page,
    current page 1; it logs one warning and changes nothing else. *)
Theorem pagination_defaults_when_nothing_matches s w page_content :
  driver s = Some w →
  page_source w = Ok page_content →
  (∀ pattern, pattern ∈ Improved.page_patterns ++ Improved.total_patterns →
              re_findall pattern page_content = []) →
  ∃ info,
    Improved.get_total_records_and_pages s =
      (Ok info,
       set_log (log s ++ [(WARNING, "Could not determine pagination info, using defaults")]) s) ∧
    info !! "total_records" = Some (VInt 2742) ∧
    info !! "total_pages" = Some (VInt 275) ∧
    info !! "items_per_page" = Some (VInt 10) ∧
    info !! "current_page" = Some (VInt 1).
Proof.
  intros Hdrv Hsrc Hnone.
  exists (Improved.pagination_info 2742 275 1). split; [| apply pagination_info_lookup].
  unfold Improved.get_total_records_and_pages, try_except, bind, get_state.
  rewrite Hdrv. unfold read_driver. rewrite Hdrv, Hsrc.
  rewrite (first_match_none Improved.page_patterns)
    by (intros p Hp; apply Hnone, elem_of_app; by left).
  rewrite (first_match_none Improved.total_patterns)
    by (intros p Hp; apply Hnone, elem_of_app; by right).
  reflexivity.
Qed.

End PageCount.

(** ** The pagination controller of the improved scraper *)

Section Navigation.
Context {W E : Type} `{!Selenium W E} `{!PyRuntime}.

Lemma keeps_page_ret {A} (a : A) : Improved.keeps_page (W:=W) (ret a).
Proof. intros s o s' [= <- <-]. done. Qed.

Lemma keeps_page_raise {A} e : Improved.keeps_page (W:=W) (raise (A:=A) e).
Proof. intros s o s' [= <- <-]. done. Qed.

Lemma keeps_page_bind {A B} (m : M (Scraper W) A) (k : A → M (Scraper W) B) :
  Improved.keeps_page m → (∀ a, Improved.keeps_page (k a)) →
  Improved.keeps_page (bind m k).
Proof.
  intros Hm Hk s o s'. unfold bind.
  destruct (m s) as [[a | e] s1] eqn:Hms.
  - intros Hka. rewrite (Hk _ _ _ _ Hka). eauto.
  - intros [= <- <-]. eauto.
Qed.

Lemma keeps_page_try_except {A} (body : M (Scraper W) A) h :
  Improved.keeps_page body → (∀ e, Improved.keeps_page (h e)) →
  Improved.keeps_page (try_except body h).
Proof.
  intros Hb Hh s o s'. unfold try_except.
  destruct (body s) as [[a | e] s1] eqn:Hbs.
  - intros [= <- <-]. eauto.
  - destruct (is_Exception e).
    + intros Hhe. rewrite (Hh _ _ _ _ Hhe). eauto.
    + intros [= <- <-]. eauto.
Qed.

Lemma keeps_page_get_state_bind {A} (k : Scraper W → M (Scraper W) A) :
  (∀ s, Improved.keeps_page (k s)) → Improved.keeps_page (bind get_state k).
Proof. intros Hk s o s'. unfold bind, get_state. apply Hk. Qed.

Lemma keeps_page_logger lv msg : Improved.keeps_page (W:=W) (logger lv msg).
Proof. intros s o s' [= <- <-]. done. Qed.

Lemma keeps_page_on_driver {A} (m : M W A) : Improved.keeps_page (on_driver m).
Proof.
  intros s o s'. unfold on_driver. destruct (driver s) as [w |].
  - destruct (m w) as [o' w']. intros [= <- <-]. done.
  - intros [= <- <-]. done.
Qed.

Lemma keeps_page_read_driver {A} (f : W → outcome A) : Improved.keeps_page (read_driver f).
Proof.
  intros s o s'. unfold read_driver. destruct (driver s); intros [= <- <-]; done.
Qed.

Lemma keeps_page_time_sleep ms : Improved.keeps_page (W:=W) (time_sleep ms).
Proof.
  intros s o s'. unfold time_sleep. destruct (driver s) as [w |].
  - destruct (sleep ms w) as [o' w']. intros [= <- <-]. done.
  - intros [= <- <-]. done.
Qed.

Lemma keeps_page_lift_outcome {A} (o : outcome A) : Improved.keeps_page (W:=W) (lift_outcome o).
Proof. intros s o' s' [= <- <-]. done. Qed.

Create HintDb keeps discriminated.
#[local] Hint Resolve keeps_page_ret keeps_page_raise keeps_page_logger keeps_page_on_driver
  keeps_page_read_driver keeps_page_time_sleep keeps_page_lift_outcome : keeps.

(** Breaks a goal [keeps_page m] along the structure of [m]. *)
Ltac keeps_page :=
  repeat first
    [ progress auto with keeps
    | lazymatch goal with
      | |- Improved.keeps_page (bind get_state _) =>
          apply keeps_page_get_state_bind; intros ?
      | |- Improved.keeps_page (bind _ _) => apply keeps_page_bind; [| intros ?]
      | |- Improved.keeps_page (try_except _ _) =>
          apply keeps_page_try_except; [| intros ?]
      | |- Improved.keeps_page (match ?x with _ => _ end) => destruct x
      end ].

Lemma keeps_page_get_current_page_number :
  Improved.keeps_page (W:=W) Improved.get_current_page_number.
Proof. unfold Improved.get_current_page_number. keeps_page. Qed.

Lemma keeps_page_find_control test found_msg error_msg selectors :
  Improved.keeps_page (W:=W) (Improved.find_control test found_msg error_msg selectors).
Proof.
  induction selectors as [| selector rest IH]; cbn [Improved.find_control]; keeps_page.
Qed.

Lemma keeps_page_find_page_links selectors :
  Improved.keeps_page (W:=W) (Improved.find_page_links selectors).
Proof.
  induction selectors as [| selector rest IH]; cbn [Improved.find_page_links]; keeps_page.
Qed.

Lemma keeps_page_find_pagination_controls :
  Improved.keeps_page (W:=W) Improved.find_pagination_controls.
Proof.
  unfold Improved.find_pagination_controls.
  pose proof keeps_page_find_control. pose proof keeps_page_find_page_links.
  keeps_page.
Qed.

Lemma set_log_same (s : Scraper W) : set_log (log s) s = s.
Proof. by destruct s. Qed.

(** Reading the indicator changes nothing but the log. *)
Lemma get_current_page_number_log_only (s : Scraper W) o s' :
  Improved.get_current_page_number s = (o, s') → ∃ l, s' = set_log l s.
Proof.
  unfold Improved.get_current_page_number, try_except, bind, get_state, read_driver,
    lift_outcome, logger, modify, ret.
  intros Hrun.
  repeat (case_match; simplify_eq/=).
  all: first [by eexists | eexists (log _); symmetry; apply set_log_same].
Qed.

(** A step that keeps the stored page, then a verifying tail. *)
Lemma verifies_advance_bind {A} n0 (m : M (Scraper W) A) k :
  Improved.keeps_page m → (∀ a, Improved.verifies_advance n0 (k a)) →
  Improved.verifies_advance n0 (bind m k).
Proof.
  intros Hm Hk s o s'. unfold bind.
  destruct (m s) as [[a | e] s1] eqn:Hms.
  - intros Hka. pose proof (Hk _ _ _ _ Hka) as Hspec.
    pose proof (Hm _ _ _ Hms) as Hpage.
    destruct o as [[b |] | e]; [| congruence | congruence].
    destruct Hspec as [-> [Hne (t & t' & Hread & Hdrv & Hcur)]].
    split; [done |]. split; [done |]. exists t, t'. repeat split; congruence.
  - intros [= <- <-]. eauto.
Qed.

Lemma verifies_advance_get_state_bind n0 (k : Scraper W → M (Scraper W) (option bool)) :
  (∀ s, Improved.verifies_advance n0 (k s)) →
  Improved.verifies_advance n0 (bind get_state k).
Proof. intros Hk s o s'. unfold bind, get_state. apply Hk. Qed.

(** A step that keeps the stored page and falls through. *)
Lemma verifies_advance_fall_through n0 (m : M (Scraper W) unit) :
  Improved.keeps_page m → Improved.verifies_advance n0 (m ;; ret None).
Proof.
  intros Hm s o s'. unfold bind.
  destruct (m s) as [[[] | e] s1] eqn:Hms; intros [= <- <-]; eauto.
Qed.

Lemma verifies_advance_ret_none n0 : Improved.verifies_advance (W:=W) n0 (ret None).
Proof. intros s o s' [= <- <-]. done. Qed.

(** The handlers of the methods log and fall through. *)
Lemma verifies_advance_try_except n0 body lv msg :
  Improved.verifies_advance n0 body →
  Improved.verifies_advance (W:=W) n0 (try_except body (λ _, logger lv msg ;; ret None)).
Proof.
  intros Hb s o s'. unfold try_except.
  destruct (body s) as [[r | e] s1] eqn:Hbs.
  - intros [= <- <-]. exact (Hb _ _ _ Hbs).
  - pose proof (Hb _ _ _ Hbs) as Hpage. cbn in Hpage.
    destruct (is_Exception e); intros [= <- <-]; done.
Qed.

(** The check itself: [True] exactly when the value read again differs. *)
Lemma verifies_advance_verify_moved n0 unchanged :
  Improved.keeps_page unchanged →
  Improved.verifies_advance (W:=W) n0 (Improved.verify_moved n0 unchanged).
Proof.
  intros Hu s o s'. unfold Improved.verify_moved. unfold bind at 1.
  destruct (Improved.get_current_page_number s) as [[n | e] s1] eqn:Hread.
  - pose proof (keeps_page_get_current_page_number _ _ _ Hread) as Hpage.
    destruct (decide (n ≠ n0)) as [Hne | Heq].
    + cbn. intros [= <- <-]. split; [done |]. split; [done |].
      exists s, s1. split; [done |]. split; [| done].
      apply get_current_page_number_log_only in Hread as [l ->]. done.
    + unfold bind. destruct (unchanged s1) as [[[] | e] s2] eqn:Hun;
        intros [= <- <-]; rewrite (Hu _ _ _ Hun); done.
  - intros [= <- <-]. exact (keeps_page_get_current_page_number _ _ _ Hread).
Qed.

(** Breaks a goal [verifies_advance n0 m] along the structure of [m]. *)
Ltac verifies_advance :=
  repeat lazymatch goal with
    | |- Improved.verifies_advance _ (ret None) => apply verifies_advance_ret_none
    | |- Improved.verifies_advance _ (Improved.verify_moved _ _) =>
        apply verifies_advance_verify_moved; keeps_page
    | |- Improved.verifies_advance _ (try_except _ _) => apply verifies_advance_try_except
    | |- Improved.verifies_advance _ (bind _ (λ _, ret None)) =>
        apply verifies_advance_fall_through; keeps_page
    | |- Improved.verifies_advance _ (bind get_state _) =>
        apply verifies_advance_get_state_bind; intros ?
    | |- Improved.verifies_advance _ (bind _ _) =>
        apply verifies_advance_bind; [keeps_page | intros ?]
    | |- Improved.verifies_advance _ (match ?x with _ => _ end) => destruct x
    end.

Lemma verifies_advance_next_button n0 controls :
  Improved.verifies_advance (W:=W) n0 (Improved.method_next_button n0 controls).
Proof. unfold Improved.method_next_button. verifies_advance. Qed.

Lemma verifies_advance_page_input n0 controls :
  Improved.verifies_advance (W:=W) n0 (Improved.method_page_input n0 controls).
Proof. unfold Improved.method_page_input. verifies_advance. Qed.

Lemma verifies_advance_click_page_link n0 next_page links :
  Improved.verifies_advance (W:=W) n0 (Improved.click_page_link n0 next_page links).
Proof.
  induction links as [| link rest IH]; cbn [Improved.click_page_link]; verifies_advance.
  exact IH.
Qed.

Lemma verifies_advance_page_links n0 controls :
  Improved.verifies_advance (W:=W) n0 (Improved.method_page_links n0 controls).
Proof.
  unfold Improved.method_page_links. verifies_advance.
  apply verifies_advance_click_page_link.
Qed.

Lemma verifies_advance_url n0 :
  Improved.verifies_advance (W:=W) n0 (Improved.method_url n0).
Proof. unfold Improved.method_url. verifies_advance. Qed.

Lemma verifies_advance_navigation_methods n0 controls method :
  method ∈ Improved.navigation_methods (W:=W) n0 controls →
  Improved.verifies_advance n0 method.
Proof.
  unfold Improved.navigation_methods. intros Hin.
  repeat (apply elem_of_cons in Hin as [-> | Hin]);
    [ apply verifies_advance_next_button | apply verifies_advance_page_input
    | apply verifies_advance_page_links | apply verifies_advance_url
    | by apply elem_of_nil in Hin ].
Qed.

(** *** No exception leaves the controller *)

Lemma catches_ret {St A} (a : A) : catches_exceptions (St:=St) (ret a).
Proof. intros s e s'. discriminate. Qed.

Lemma catches_bind {St A B} (m : M St A) (k : A → M St B) :
  catches_exceptions m → (∀ a, catches_exceptions (k a)) → catches_exceptions (bind m k).
Proof.
  intros Hm Hk s e s'. unfold bind. destruct (m s) as [[a | e'] s1] eqn:Hms.
  - apply Hk.
  - intros [= <- <-]. eauto.
Qed.

Lemma catches_get_state_bind {St A} (k : St → M St A) :
  (∀ s, catches_exceptions (k s)) → catches_exceptions (bind get_state k).
Proof. intros Hk s e s'. unfold bind, get_state. apply Hk. Qed.

Lemma catches_try_except {St A} (body : M St A) h :
  (∀ e, catches_exceptions (h e)) → catches_exceptions (try_except body h).
Proof.
  intros Hh s e s'. unfold try_except. destruct (body s) as [[a | e'] s1].
  - discriminate.
  - destruct (is_Exception e') eqn:He'.
    + apply Hh.
    + by intros [= <- <-].
Qed.

Lemma catches_logger lv msg : catches_exceptions (logger (W:=W) lv msg).
Proof. intros s e s'. discriminate. Qed.

Lemma catches_or_continue {St A} (block : M St (option A)) rest :
  catches_exceptions block → catches_exceptions rest →
  catches_exceptions (or_continue block rest).
Proof.
  intros Hb Hr. unfold or_continue. apply catches_bind; [done |].
  intros [v |]; [apply catches_ret | done].
Qed.

#[local] Hint Resolve catches_ret catches_logger : keeps.

(** Breaks a goal [catches_exceptions m] along the structure of [m]. *)
Ltac catches :=
  repeat first
    [ progress auto with keeps
    | lazymatch goal with
      | |- catches_exceptions (try_except _ _) => apply catches_try_except; intros ?
      | |- catches_exceptions (or_continue _ _) => apply catches_or_continue
      | |- catches_exceptions (bind get_state _) => apply catches_get_state_bind; intros ?
      | |- catches_exceptions (bind _ _) => apply catches_bind; [| intros ?]
      | |- catches_exceptions (match ?x with _ => _ end) => destruct x
      end ].

Lemma catches_get_current_page_number :
  catches_exceptions (Improved.get_current_page_number (W:=W)).
Proof. unfold Improved.get_current_page_number. catches. Qed.

Lemma catches_find_pagination_controls :
  catches_exceptions (Improved.find_pagination_controls (W:=W)).
Proof. unfold Improved.find_pagination_controls. catches. Qed.

Lemma catches_navigation_methods n0 controls method :
  method ∈ Improved.navigation_methods (W:=W) n0 controls →
  catches_exceptions method.
Proof.
  unfold Improved.navigation_methods. intros Hin.
  repeat (apply elem_of_cons in Hin as [-> | Hin]); [.. | by apply elem_of_nil in Hin].
  - unfold Improved.method_next_button. catches.
  - unfold Improved.method_page_input. catches.
  - unfold Improved.method_page_links. catches.
  - unfold Improved.method_url. catches.
Qed.

(** *** The chain of methods *)

(** Blocks chained by [or_continue] return the value of the first block
    that returns, the blocks before it having fallen through, or the
    value of the last statement once all of them fell through. *)
Lemma or_continue_chain_inv {St A} (blocks : list (M St (option A))) (final : M St A) s v s' :
  foldr or_continue final blocks s = (Ok v, s') →
  (∃ before block after sk,
      blocks = before ++ block :: after ∧
      fell_through before s sk ∧
      block sk = (Ok (Some v), s')) ∨
  (∃ sk, fell_through blocks s sk ∧ final sk = (Ok v, s')).
Proof.
  revert s. induction blocks as [| block rest IH]; intros s; cbn [foldr].
  - intros Hfinal. right. exists s. split; [constructor | done].
  - unfold or_continue at 1. intros Hrun.
    apply bind_inv_ok in Hrun as ([r |] & s1 & Hblock & Hrest).
    + injection Hrest as -> ->. left. exists [], block, rest, s.
      split; [done |]. split; [constructor | done].
    + destruct (IH _ Hrest) as [(before & b & after & sk & -> & Hft & Hb) | (sk & Hft & Hfin)].
      * left. exists (block :: before), b, after, sk.
        split; [done |]. split; [econstructor; eauto | done].
      * right. exists sk. split; [econstructor; eauto | done].
Qed.

Lemma fell_through_keeps_page n0 (blocks : list (M (Scraper W) (option bool)))
    (s s' : Scraper W) :
  (∀ block, block ∈ blocks → Improved.verifies_advance n0 block) →
  fell_through blocks s s' → current_page s' = current_page s.
Proof.
  intros Hall Hft. induction Hft as [| block blocks s s1 s' Hblock Hft IH]; [done |].
  rewrite IH by (intros b Hb; apply Hall; by apply list_elem_of_further).
  exact (Hall block (list_elem_of_here _ _) _ _ _ Hblock).
Qed.

(** The order of the methods of the improved scraper.  A call of
    [navigate_to_next_page] with a browser asks
    [get_current_page_number] for the page, [n0], and finds the
    controls; then
    - it returns [True] only from one of the four methods, taken in the
      order next button, page input, page links, URL parameter, after
      every method before it fell through, and only when
      [get_current_page_number], called again after the method acted,
      gave a value that differs from [n0], which is the new stored
      page;
    - it returns [False] only after all four methods were run in that
      order and each fell through.
    The value of [get_current_page_number] is the indicator of the page
    only when the page shows one. *)
Theorem navigate_to_next_page_verified (s : Scraper W) (w : W) (b : bool) (s' : Scraper W) :
  driver s = Some w →
  Improved.navigate_to_next_page s = (Ok b, s') →
  ∃ n0 s0 controls s1,
    Improved.get_current_page_number
      (set_log (log s ++ [(INFO, "Attempting to navigate from page")]) s) = (Ok n0, s0) ∧
    Improved.find_pagination_controls s0 = (Ok controls, s1) ∧
    if b then
      ∃ before method after sk,
        Improved.navigation_methods n0 controls = before ++ method :: after ∧
        fell_through before s1 sk ∧
        method sk = (Ok (Some true), s') ∧
        Improved.verified_advance n0 s s'
    else
      ∃ s5,
        fell_through (Improved.navigation_methods n0 controls) s1 s5 ∧
        s' = set_log (log s5 ++ [(ERROR, "All navigation methods failed")]) s5.
Proof.
  intros Hdrv Hrun. unfold Improved.navigate_to_next_page in Hrun.
  apply try_except_inv_ok in Hrun as [Hbody | (e & sx & Hbody & He & _)].
  2: { exfalso. revert Hbody He.
       match goal with |- ?m s = _ → _ => assert (catches_exceptions m) as Hc end.
       { pose proof catches_get_current_page_number.
         pose proof catches_find_pagination_controls.
         apply catches_get_state_bind. intros s2. destruct (driver s2); [| catches].
         apply catches_bind; [catches |]. intros _.
         apply catches_bind; [done |]. intros n0.
         apply catches_bind; [done |]. intros controls.
         pose proof (catches_navigation_methods n0 controls) as Hm.
         unfold Improved.navigation_methods in Hm.
         repeat (apply catches_or_continue; [apply Hm; set_solver |]). catches. }
       intros Hbody He. rewrite (Hc _ _ _ Hbody) in He. discriminate. }
  unfold bind at 1, get_state in Hbody. rewrite Hdrv in Hbody.
  apply bind_inv_ok in Hbody as ([] & slog & Hlog & Hbody).
  injection Hlog as <-.
  apply bind_inv_ok in Hbody as (n0 & s0 & Hread & Hbody).
  apply bind_inv_ok in Hbody as (controls & s1 & Hctl & Hbody).
  exists n0, s0, controls, s1. split; [done |]. split; [done |].
  change (foldr or_continue
            (logger ERROR "All navigation methods failed" ;; ret false)
            (Improved.navigation_methods n0 controls) s1 = (Ok b, s')) in Hbody.
  assert (current_page s1 = current_page s) as Hpage1.
  { rewrite (keeps_page_find_pagination_controls _ _ _ Hctl).
    by rewrite (keeps_page_get_current_page_number _ _ _ Hread). }
  apply or_continue_chain_inv in Hbody
    as [(before & method & after & sk & Hsplit & Hft & Hmethod) | (sk & Hft & Hfinal)].
  - assert (Improved.verifies_advance n0 method) as Hspec.
    { apply (verifies_advance_navigation_methods n0 controls).
      rewrite Hsplit. set_solver. }
    destruct (Hspec _ _ _ Hmethod) as [-> [Hne (t & t' & Hreread & Hd & Hcur)]].
    exists before, method, after, sk. repeat split; [done.. |].
    exists t, t'. repeat split; [done | done |].
    rewrite Hcur, <- Hpage1.
    apply (fell_through_keeps_page n0 before); [| done].
    intros blk Hblk. apply (verifies_advance_navigation_methods n0 controls).
    rewrite Hsplit. set_solver.
  - injection Hfinal as <- <-. exists sk. by split.
Qed.

(** The comprehensive scraper reports every click as an advance: when
    the first selector finds a control that is displayed, enabled and
    not marked disabled, and the click and the sleep after it go well,
    [navigate_to_next_page] returns [True], whatever the page shows
    before or after the click; the page is never read. *)
Lemma comprehensive_click_is_success (s : Scraper W) w (element : E) rest class_attr w1 w2 :
  driver s = Some w →
  find_elements CSS_SELECTOR ("button[aria-label=" +:+ quoted "Next" +:+ "]") w
    = Ok (element :: rest) →
  displayed_and_enabled element w = Ok true →
  get_attribute element "class" w = Ok class_attr →
  contains "disabled" (default EmptyString class_attr) = false →
  click element w = (Ok tt, w1) →
  sleep (delay s) w1 = (Ok tt, w2) →
  Comprehensive.navigate_to_next_page s =
    (Ok true,
     set_log (log s ++ [(INFO, "Found and clicking next page button")])
       (set_driver (Some w2) s)).
Proof.
  intros Hdriver Hfind Husable Hclass Hmark Hclick Hsleep.
  unfold Comprehensive.navigate_to_next_page, try_except.
  unfold bind at 1, get_state. rewrite Hdriver.
  cbn [Comprehensive.next_selectors Comprehensive.try_selectors].
  unfold or_continue at 1, bind at 1, or_continue at 1, bind at 1, try_except.
  unfold bind at 1, read_driver at 1. rewrite Hdriver, Hfind.
  cbn [Comprehensive.click_first_usable].
  unfold bind at 1, bind at 1, read_driver at 1. rewrite Hdriver, Husable.
  unfold bind at 1, read_driver at 1. rewrite Hdriver, Hclass, Hmark. cbn [negb].
  unfold bind at 1, logger, modify. unfold bind at 1, on_driver.
  cbn [driver set_log]. rewrite Hdriver, Hclick.
  unfold bind at 1, get_state. unfold bind at 1, time_sleep.
  cbn [driver set_driver set_log delay]. rewrite Hsleep.
  reflexivity.
Qed.

(** The check passes without an indicator: when the page shows none and
    the stored page differs from the value [n0] taken before navigating,
    [get_current_page_number] gives the stored page and the check
    reports an advance to it. *)
Lemma verify_moved_without_indicator (s : Scraper W) w page_content n0 unchanged :
  driver s = Some w →
  page_source w = Ok page_content →
  Improved.first_match Improved.page_patterns page_content = None →
  current_page s ≠ n0 →
  Improved.verify_moved n0 unchanged s =
    (Ok (Some true),
     set_log (log s ++ [(INFO, "Successfully navigated to page")])
       (set_current_page (current_page s) s)).
Proof.
  intros Hdriver Hsource Hnone Hstale.
  unfold Improved.verify_moved. unfold bind at 1.
  unfold Improved.get_current_page_number, try_except.
  unfold bind at 1, get_state. rewrite Hdriver.
  unfold bind at 1, read_driver. rewrite Hdriver, Hsource, Hnone.
  unfold ret at 1. cbn iota beta.
  destruct (decide (current_page s ≠ n0)) as [_ | Hsame]; [| done].
  reflexivity.
Qed.

End Navigation.

(** ** The controllers on the small browser *)

Section OnTheSmallBrowser.
#[local] Existing Instance Reference.runtime.
#[local] Instance small_browser : Selenium Toy.Browser Toy.Element :=
  Toy.selenium (Toy.listing true).

(** The comprehensive scraper on page 1 of 5 whose next control is stuck:
    it clicks the control and returns [True]; the browser is as it was,
    still on page 1, and nothing was read after the click. *)
Lemma comprehensive_navigate_unverified :
  Comprehensive.navigate_to_next_page (Toy.scraper (Some (Toy.listing false))) =
    (Ok true,
     set_log [(INFO, "Found and clicking next page button")]
       (Toy.scraper (Some (Toy.listing false)))) ∧
  Toy.page (Toy.listing false) = 1 ∧
  page_source (Toy.listing false) =
    Ok "<html><body><table></table><span>1 of 5</span></body></html>".
Proof. split; [| split]; vm_compute; reflexivity. Qed.

(** The improved scraper on the same page: the click is not trusted, the
    URL method is tried next, and the call returns [False]. *)
Example improved_navigate_stuck :
  (Improved.navigate_to_next_page (Toy.scraper (Some (Toy.listing false)))).1 = Ok false ∧
  log (Improved.navigate_to_next_page (Toy.scraper (Some (Toy.listing false)))).2 =
    [ (INFO, "Attempting to navigate from page");
      (INFO, "Found next button with selector");
      (WARNING, "Next button clicked but page didn't change");
      (WARNING, "URL navigation used but page didn't change");
      (ERROR, "All navigation methods failed") ] ∧
  current_page (Improved.navigate_to_next_page (Toy.scraper (Some (Toy.listing false)))).2 = 1.
Proof. split; [| split]; vm_compute; reflexivity. Qed.

(** The theorem on page 1 of 5 with a working next control: the call
    returns [True] with the stored page 2. *)
Lemma navigate_to_next_page_verified_witness :
  driver (Toy.scraper (Some (Toy.listing true))) = Some (Toy.listing true) ∧
  Improved.navigate_to_next_page (Toy.scraper (Some (Toy.listing true))) =
    (Ok true,
     set_log [ (INFO, "Attempting to navigate from page");
               (INFO, "Found next button with selector");
               (INFO, "Successfully navigated to page") ]
       (set_current_page 2 (Toy.scraper (Some (Toy.set_page 2 (Toy.listing true)))))) ∧
  ∃ n0 s0 controls s1,
    Improved.get_current_page_number
      (set_log (log (Toy.scraper (Some (Toy.listing true))) ++
                [(INFO, "Attempting to navigate from page")])
         (Toy.scraper (Some (Toy.listing true)))) = (Ok n0, s0) ∧
    Improved.find_pagination_controls s0 = (Ok controls, s1) ∧
    ∃ before method after sk,
      Improved.navigation_methods n0 controls = before ++ method :: after ∧
      fell_through before s1 sk ∧
      method sk =
        (Ok (Some true),
         set_log [ (INFO, "Attempting to navigate from page");
                   (INFO, "Found next button with selector");
                   (INFO, "Successfully navigated to page") ]
           (set_current_page 2 (Toy.scraper (Some (Toy.set_page 2 (Toy.listing true)))))) ∧
      Improved.verified_advance n0 (Toy.scraper (Some (Toy.listing true)))
        (set_log [ (INFO, "Attempting to navigate from page");
                   (INFO, "Found next button with selector");
                   (INFO, "Successfully navigated to page") ]
           (set_current_page 2 (Toy.scraper (Some (Toy.set_page 2 (Toy.listing true)))))).
Proof.
  split; [reflexivity |]. split; [vm_compute; reflexivity |].
  apply (navigate_to_next_page_verified
           (Toy.scraper (Some (Toy.listing true))) (Toy.listing true) true).
  - reflexivity.
  - vm_compute; reflexivity.
Defined.

(** The theorem on a page without pagination text. *)
Lemma pagination_defaults_witness :
  ∃ info,
    Improved.get_total_records_and_pages (Toy.scraper (Some Toy.no_results)) =
      (Ok info,
       set_log [(WARNING, "Could not determine pagination info, using defaults")]
         (Toy.scraper (Some Toy.no_results))) ∧
    info !! "total_records" = Some (VInt 2742) ∧
    info !! "total_pages" = Some (VInt 275) ∧
    info !! "items_per_page" = Some (VInt 10) ∧
    info !! "current_page" = Some (VInt 1).
Proof.
  apply (pagination_defaults_when_nothing_matches
           (Toy.scraper (Some Toy.no_results)) Toy.no_results
           "<html><body><p>Sin resultados</p></body></html>").
  - reflexivity.
  - reflexivity.
  - intros pattern Hin.
    unfold Improved.page_patterns, Improved.total_patterns in Hin. cbn [app] in Hin.
    repeat (apply elem_of_cons in Hin as [-> | Hin]); [vm_compute; reflexivity.. |].
    by apply elem_of_nil in Hin.
Defined.

(** The patterns on the page texts of the specification. *)
Example page_count_text_parses :
  Improved.first_match Improved.page_patterns "Página 3 de 275" = Some ["3"; "275"] ∧
  Improved.unpack_two_ints ["3"; "275"] = Ok (3, 275).
Proof. split; vm_compute; reflexivity. Qed.

(** Two rows of one page with the same title and description. *)
Lemma duplicate_row_dropped_witness :
  (∃ s', Improved.remove_duplicates
           [ {[ "id" := VStr "page_1_table_1_row_1"; "title" := VStr "Ley de Aguas";
                "description" := VStr "Proyecto" ]};
             {[ "id" := VStr "page_1_table_1_row_2"; "title" := VStr "Ley de Aguas";
                "description" := VStr "Proyecto" ]} ] []
           (Toy.scraper None) =
         (Ok [ {[ "id" := VStr "page_1_table_1_row_1"; "title" := VStr "Ley de Aguas";
                  "description" := VStr "Proyecto" ]} ], s') ∧
         seen_project_ids s' = {["Ley de Aguas_Proyecto"]} ∪ ∅ ∧
         size (seen_project_ids s') = 1%nat).
Proof.
  refine (proj1 (duplicate_row_dropped
           (Toy.scraper None)
           (set_seen_project_ids ({["Ley de Aguas_Proyecto"]} ∪ ∅) (Toy.scraper None))
           {[ "id" := VStr "page_1_table_1_row_1"; "title" := VStr "Ley de Aguas";
              "description" := VStr "Proyecto" ]}
           {[ "id" := VStr "page_1_table_1_row_2"; "title" := VStr "Ley de Aguas";
              "description" := VStr "Proyecto" ]} _ _ _ _)).
  - vm_compute; reflexivity.
  - vm_compute; reflexivity.
  - apply not_elem_of_empty.
  - reflexivity.
Defined.

(** The rows of the claim: title [a_b] with description [c], then title
    [a] with description [b_c]. *)
Lemma colliding_keys_dropped_witness :
  Improved.project_id_of {[ "title" := VStr "a_b"; "description" := VStr "c" ]} = "a_b_c" ∧
  Improved.project_id_of {[ "title" := VStr "a"; "description" := VStr "b_c" ]} =
    Improved.project_id_of {[ "title" := VStr "a_b"; "description" := VStr "c" ]} ∧
  ∃ s', Improved.remove_duplicates
          [ {[ "title" := VStr "a_b"; "description" := VStr "c" ]};
            {[ "title" := VStr "a"; "description" := VStr "b_c" ]} ] []
          (Toy.scraper None) =
        (Ok [ {[ "title" := VStr "a_b"; "description" := VStr "c" ]} ], s') ∧
        seen_project_ids s' =
          {[Improved.project_id_of {[ "title" := VStr "a_b"; "description" := VStr "c" ]}]} ∪ ∅ ∧
        log s' = [] ++ [(DEBUG, "Duplicate project found and skipped")].
Proof.
  apply (colliding_keys_dropped (Toy.scraper None)
           {[ "title" := VStr "a_b"; "description" := VStr "c" ]}
           {[ "title" := VStr "a"; "description" := VStr "b_c" ]}
           "a_b" "c" "a" "b_c").
  - vm_compute; reflexivity.
  - vm_compute; reflexivity.
  - vm_compute; reflexivity.
  - vm_compute; reflexivity.
  - discriminate.
  - reflexivity.
  - apply not_elem_of_empty.
Defined.

End OnTheSmallBrowser.

(** ** Relations a computation preserves *)

Section Preserves.
Context {St : Type} (R : St → St → Prop) `{!Reflexive R} `{!Transitive R}.

Lemma preserves_ret {A} (a : A) : preserves R (ret a).
Proof. intros s o s' [= <- <-]. reflexivity. Qed.

Lemma preserves_raise {A} e : preserves R (raise (A:=A) e).
Proof. intros s o s' [= <- <-]. reflexivity. Qed.

Lemma preserves_lift_outcome {A} (o : outcome A) : preserves R (lift_outcome o).
Proof. intros s o' s' [= <- <-]. reflexivity. Qed.

Lemma preserves_bind {A B} (m : M St A) (k : A → M St B) :
  preserves R m → (∀ a, preserves R (k a)) → preserves R (bind m k).
Proof.
  intros Hm Hk s o s'. unfold bind.
  destruct (m s) as [[a | e] s1] eqn:Hms.
  - intros Hka. transitivity s1; [exact (Hm _ _ _ Hms) | exact (Hk _ _ _ _ Hka)].
  - intros [= <- <-]. exact (Hm _ _ _ Hms).
Qed.

Lemma preserves_get_state_bind {A} (k : St → M St A) :
  (∀ x, preserves R (k x)) → preserves R (bind get_state k).
Proof. intros Hk s o s'. unfold bind, get_state. apply Hk. Qed.

Lemma preserves_try_except {A} (body : M St A) h :
  preserves R body → (∀ e, preserves R (h e)) → preserves R (try_except body h).
Proof.
  intros Hb Hh s o s'. unfold try_except.
  destruct (body s) as [[a | e] s1] eqn:Hbs.
  - intros [= <- <-]. exact (Hb _ _ _ Hbs).
  - destruct (is_Exception e).
    + intros Hhe. transitivity s1; [exact (Hb _ _ _ Hbs) | exact (Hh _ _ _ _ Hhe)].
    + intros [= <- <-]. exact (Hb _ _ _ Hbs).
Qed.

Lemma preserves_modify (f : St → St) : (∀ s, R s (f s)) → preserves R (modify f).
Proof. intros Hf s o s' [= <- <-]. apply Hf. Qed.

End Preserves.

Lemma preserves_weaken {St A} (R R' : St → St → Prop) (HR : ∀ s s', R s s' → R' s s')
    (m : M St A) :
  preserves R m → preserves R' m.
Proof. intros Hm s o s' Hrun. apply HR. exact (Hm _ _ _ Hrun). Qed.

(** Breaks a goal [preserves R m] along the structure of [m]; [base]
    closes the leaves. *)
Ltac preserves_with base :=
  repeat first
    [ progress base
    | lazymatch goal with
      | |- preserves _ (ret _) => apply preserves_ret; try typeclasses eauto
      | |- preserves _ (raise _) => apply preserves_raise; try typeclasses eauto
      | |- preserves _ (lift_outcome _) => apply preserves_lift_outcome; try typeclasses eauto
      | |- preserves _ (bind get_state _) =>
          apply preserves_get_state_bind; intros ?
      | |- preserves _ (bind _ _) =>
          apply preserves_bind; [try typeclasses eauto | | intros ?]
      | |- preserves _ (try_except _ _) =>
          apply preserves_try_except; [try typeclasses eauto | | intros ?]
      | |- preserves _ (match ?x with _ => _ end) => destruct x
      end ].

(** ** The PDF downloader *)

Section DownloaderFrames.
Context `{!PyRuntime}.

#[local] Instance same_world_refl : Reflexive Downloader.same_world.
Proof. by intros s. Qed.

#[local] Instance same_world_trans : Transitive Downloader.same_world.
Proof.
  intros s1 s2 s3 (? & ? & ? & ?) (? & ? & ? & ?).
  unfold Downloader.same_world. repeat split; congruence.
Qed.

#[local] Instance same_counters_refl : Reflexive Downloader.same_counters.
Proof. by intros s. Qed.

#[local] Instance same_counters_trans : Transitive Downloader.same_counters.
Proof.
  intros s1 s2 s3 (? & ? & ?) (? & ? & ?).
  unfold Downloader.same_counters. repeat split; congruence.
Qed.

Lemma same_world_counters s s' : Downloader.same_world s s' → Downloader.same_counters s s'.
Proof. intros (? & ? & ? & ?). by repeat split. Qed.

Lemma same_world_logger lv msg : preserves Downloader.same_world (Downloader.logger lv msg).
Proof. intros s o s' [= <- <-]. by repeat split. Qed.

Lemma same_world_session_request r :
  preserves Downloader.same_world (Downloader.session_request r).
Proof. intros s o s' [= <- <-]. by repeat split. Qed.

Lemma same_world_raise_for_status response :
  preserves Downloader.same_world (Downloader.raise_for_status response).
Proof.
  unfold Downloader.raise_for_status.
  destruct (_ && _); intros s o s' [= <- <-]; by repeat split.
Qed.

(** Closes the leaves of a [same_world] goal. *)
Ltac same_world_base :=
  first [ apply same_world_logger | apply same_world_session_request
        | apply same_world_raise_for_status ].

Lemma same_world_setup_session : preserves Downloader.same_world Downloader.setup_session.
Proof. unfold Downloader.setup_session. preserves_with same_world_base. Qed.

Lemma same_world_test_pdf_access pdf_url :
  preserves Downloader.same_world (Downloader.test_pdf_access pdf_url).
Proof. unfold Downloader.test_pdf_access. preserves_with same_world_base. Qed.

Lemma same_counters_modify_files (f : Downloader.ImprovedPDFDownloader → gmap string string) :
  preserves Downloader.same_counters (modify (λ s, Downloader.set_files (f s) s)).
Proof. apply preserves_modify. intros s. by repeat split. Qed.

(** Closes the leaves of a [same_counters] goal. *)
Ltac same_counters_base :=
  first [ apply same_counters_modify_files
        | apply (preserves_weaken _ _ same_world_counters);
          first [ same_world_base | apply same_world_test_pdf_access ] ].

Lemma same_counters_write_chunks filepath total_size downloaded_size body :
  preserves Downloader.same_counters
    (Downloader.write_chunks filepath total_size downloaded_size body).
Proof.
  revert downloaded_size. induction body as [| chunk rest IH]; intros downloaded_size;
    cbn [Downloader.write_chunks].
  - apply preserves_ret; typeclasses eauto.
  - destruct (String.eqb chunk EmptyString); [apply IH |].
    preserves_with same_counters_base. apply IH.
Qed.

Lemma same_counters_verify_download filename filepath :
  preserves Downloader.same_counters (Downloader.verify_download filename filepath).
Proof.
  unfold Downloader.verify_download.
  preserves_with ltac:(first [same_counters_base | done]).
Qed.

Lemma same_counters_fetch_pdf pdf_url filename filepath :
  preserves Downloader.same_counters (Downloader.fetch_pdf pdf_url filename filepath).
Proof.
  unfold Downloader.fetch_pdf.
  pose proof same_counters_write_chunks. pose proof same_counters_verify_download.
  preserves_with ltac:(first [same_counters_base | done]).
Qed.

Lemma same_counters_download_pdf pdf_url project_info :
  preserves Downloader.same_counters (Downloader.download_pdf pdf_url project_info).
Proof.
  unfold Downloader.download_pdf.
  pose proof same_counters_fetch_pdf.
  preserves_with ltac:(first [same_counters_base | done]).
Qed.

Lemma same_counters_try_links links project :
  preserves Downloader.same_counters (Downloader.try_links links project).
Proof.
  pose proof same_counters_download_pdf.
  induction links as [| pdf_url rest IH]; cbn [Downloader.try_links];
    preserves_with ltac:(first [same_counters_base | done]).
Qed.

(** The probe makes the HEAD request and at most one GET with the short
    timeout; it touches no file. *)
Lemma test_pdf_access_requests pdf_url s o s' :
  Downloader.test_pdf_access pdf_url s = (o, s') →
  Downloader.files s' = Downloader.files s ∧
  (Downloader.requests s' = Downloader.requests s ++ [Downloader.Head pdf_url 30] ∨
   Downloader.requests s' =
     Downloader.requests s ++ [Downloader.Head pdf_url 30; Downloader.Get pdf_url 30 true]).
Proof.
  unfold Downloader.test_pdf_access, try_except, bind, Downloader.session_request,
    Downloader.raise_for_status, Downloader.logger, lift_outcome, modify, ret, raise.
  intros Hrun.
  repeat (case_match; simplify_eq/=); split; try done;
    rewrite <- ?app_assoc; auto.
Qed.

(** Without a file at the path, [download_pdf] goes on to the probe. *)
Lemma download_pdf_no_file s pdf_url project_info filename :
  Downloader.pdf_filename pdf_url project_info = Ok filename →
  Downloader.no_file_yet (path_join (Downloader.pdf_dir s) filename) s →
  Downloader.download_pdf pdf_url project_info s =
  try_except
    (Downloader.fetch_pdf pdf_url filename (path_join (Downloader.pdf_dir s) filename))
    (λ e,
      Downloader.logger ERROR
        (if is_RequestException e
         then "Request error downloading PDF: " +:+ Downloader.exn_message e
         else "Error downloading PDF: " +:+ Downloader.exn_message e) ;;
      ret None) s.
Proof.
  intros Hname Hnone. unfold Downloader.download_pdf, try_except.
  unfold bind at 1, lift_outcome. rewrite Hname. unfold bind at 1, get_state.
  destruct (Downloader.files s !! path_join (Downloader.pdf_dir s) filename)
    as [content |] eqn:Hfile; [| done].
  by rewrite (Hnone content Hfile).
Qed.

(** After its two log lines, [fetch_pdf] is the probe and what follows. *)
Lemma fetch_pdf_announced pdf_url filename filepath s reason s1 :
  Downloader.test_pdf_access pdf_url (Downloader.announced filename pdf_url s)
    = (Ok (false, reason), s1) →
  Downloader.fetch_pdf pdf_url filename filepath s =
  (Ok None,
   Downloader.set_log (Downloader.log s1 ++ [(WARNING, "PDF not accessible: " +:+ reason)]) s1).
Proof.
  intros Hprobe. unfold Downloader.fetch_pdf.
  unfold bind at 1. cbn [Downloader.logger modify].
  unfold bind at 1. cbn [Downloader.logger modify].
  unfold bind at 1.
  replace (Downloader.set_log _ (Downloader.set_log _ s))
    with (Downloader.announced filename pdf_url s)
    by (unfold Downloader.announced; cbn; by rewrite <- app_assoc).
  rewrite Hprobe. reflexivity.
Qed.

(** C5, as the code has it. When no file is there yet and the probe
    fails, whatever the reason, [download_pdf] returns [None]; the only
    requests made are those of the probe, a HEAD and at most one GET with
    the short timeout, so the streaming download, the GET with the long
    timeout, is not attempted, and no file is written. *)
Theorem probe_failure_stops_download s pdf_url project_info filename reason s1 :
  Downloader.pdf_filename pdf_url project_info = Ok filename →
  Downloader.no_file_yet (path_join (Downloader.pdf_dir s) filename) s →
  Downloader.test_pdf_access pdf_url (Downloader.announced filename pdf_url s)
    = (Ok (false, reason), s1) →
  Downloader.download_pdf pdf_url project_info s =
    (Ok None,
     Downloader.set_log
       (Downloader.log s1 ++ [(WARNING, "PDF not accessible: " +:+ reason)]) s1) ∧
  Downloader.files s1 = Downloader.files s ∧
  (Downloader.requests s1 = Downloader.requests s ++ [Downloader.Head pdf_url 30] ∨
   Downloader.requests s1 =
     Downloader.requests s ++ [Downloader.Head pdf_url 30; Downloader.Get pdf_url 30 true]).
Proof.
  intros Hname Hnone Hprobe. split.
  - rewrite (download_pdf_no_file _ _ _ _ Hname Hnone). unfold try_except.
    by rewrite (fetch_pdf_announced _ _ _ _ _ _ Hprobe).
  - exact (test_pdf_access_requests _ _ _ _ Hprobe).
Qed.

(** A declared content type without [pdf], on a URL that does not end in
    [.pdf], fails the probe after the HEAD request alone. *)
Lemma test_pdf_access_wrong_content_type s pdf_url response :
  Downloader.server s (Downloader.requests s) (Downloader.Head pdf_url 30) = Ok response →
  Downloader.status_code response = 200 →
  Downloader.looks_like_pdf
    (lower (default EmptyString (Downloader.content_type response))) pdf_url = false →
  ∃ s', Downloader.test_pdf_access pdf_url s =
          (Ok (false, "Wrong content type: " +:+
                      lower (default EmptyString (Downloader.content_type response))), s') ∧
        Downloader.requests s' = Downloader.requests s ++ [Downloader.Head pdf_url 30].
Proof.
  intros Hhead Hstatus Hpdf.
  unfold Downloader.test_pdf_access, try_except, bind, Downloader.session_request,
    Downloader.logger, modify. cbn. rewrite Hhead, Hstatus. cbn. rewrite Hpdf. cbn.
  eexists. split; reflexivity.
Qed.

Lemma string_app_assoc (a b c : string) : (a +:+ b) +:+ c = a +:+ (b +:+ c).
Proof.
  induction a as [| x a IH]; [done |].
  change (String x ((a +:+ b) +:+ c) = String x (a +:+ (b +:+ c))). by rewrite IH.
Qed.

Lemma string_app_empty_r (a : string) : a +:+ EmptyString = a.
Proof.
  induction a as [| x a IH]; [done |].
  change (String x (a +:+ EmptyString) = String x a). by rewrite IH.
Qed.

Lemma string_length_zero (a : string) : (String.length a =? 0)%nat = true ↔ a = EmptyString.
Proof. destruct a; cbn; split; done. Qed.

(** The loop over the chunks appends the whole body to the file and makes
    no request. *)
Lemma write_chunks_ok filepath total_size body : ∀ downloaded_size s init,
  Downloader.files s !! filepath = Some init →
  ∃ s', Downloader.write_chunks filepath total_size downloaded_size body s = (Ok tt, s') ∧
        Downloader.files s' !! filepath = Some (init +:+ concat_chunks body) ∧
        Downloader.requests s' = Downloader.requests s.
Proof.
  induction body as [| chunk rest IH]; intros downloaded_size s init Hinit;
    cbn [Downloader.write_chunks concat_chunks foldr].
  - exists s. by rewrite string_app_empty_r.
  - destruct (String.eqb_spec chunk EmptyString) as [-> | Hne].
    + apply IH. done.
    + unfold bind at 1, modify.
      match goal with |- context [bind ?m _ ?st] => set (s1 := st) end.
      assert (Downloader.files s1 !! filepath = Some (init +:+ chunk)) as H1.
      { subst s1. cbn. rewrite Hinit. cbn. apply lookup_insert_eq. }
      unfold bind at 1.
      destruct (_ && _); cbn [Downloader.logger modify ret].
      * destruct (IH (downloaded_size + Z.of_nat (String.length chunk))
                    (Downloader.set_log
                       (Downloader.log s1 ++ [(INFO, "Download progress")]) s1)
                    (init +:+ chunk) H1) as (s' & -> & Hf & Hr).
        exists s'. split; [done |]. split; [| done].
        rewrite Hf. by rewrite string_app_assoc.
      * destruct (IH (downloaded_size + Z.of_nat (String.length chunk)) s1
                    (init +:+ chunk) H1) as (s' & -> & Hf & Hr).
        exists s'. split; [done |]. split; [| done].
        rewrite Hf. by rewrite string_app_assoc.
Qed.

(** When the probe succeeds and the download request is answered with a
    body that streams to its end, [fetch_pdf] reaches the verification
    with the body in the file; the download was the one request made
    after the probe. *)
Lemma fetch_pdf_streams s pdf_url filename filepath reason s1 response :
  Downloader.test_pdf_access pdf_url (Downloader.announced filename pdf_url s)
    = (Ok (true, reason), s1) →
  Downloader.server s1 (Downloader.requests s1) (Downloader.Get pdf_url 60 true)
    = Ok response →
  ((400 <=? Downloader.status_code response) &&
   (Downloader.status_code response <? 600))%bool = false →
  Downloader.looks_like_pdf
    (lower (default EmptyString (Downloader.content_type response))) pdf_url = true →
  (∀ text, Downloader.content_length response = Some text → is_Some (py_int text)) →
  Downloader.stream_error response = None →
  ∃ s2,
    Downloader.files s2 !! filepath = Some (concat_chunks (Downloader.chunks response)) ∧
    Downloader.requests s2 = Downloader.requests s1 ++ [Downloader.Get pdf_url 60 true] ∧
    Downloader.fetch_pdf pdf_url filename filepath s =
      Downloader.verify_download filename filepath s2.
Proof.
  intros Hprobe Hget Hstatus Hpdf Hlen Hstream. unfold Downloader.fetch_pdf.
  unfold bind at 1. cbn [Downloader.logger modify].
  unfold bind at 1. cbn [Downloader.logger modify].
  unfold bind at 1.
  replace (Downloader.set_log _ (Downloader.set_log _ s))
    with (Downloader.announced filename pdf_url s)
    by (unfold Downloader.announced; cbn; by rewrite <- app_assoc).
  rewrite Hprobe. cbn [negb].
  unfold bind at 1, Downloader.session_request. rewrite Hget.
  unfold bind at 1, Downloader.raise_for_status. rewrite Hstatus. cbn [ret].
  rewrite Hpdf. cbn [negb].
  match goal with |- context [bind _ _ ?st] => set (s2 := st) end.
  assert (∃ n, match Downloader.content_length response with
               | Some text => match py_int text with
                              | Some n => ret n
                              | None => raise OtherException
                              end
               | None => ret 0
               end s2 = (Ok n, s2)) as [n Hn].
  { destruct (Downloader.content_length response) as [text |] eqn:Hcl; [| by exists 0].
    destruct (Hlen text eq_refl) as [n ->]. by exists n. }
  unfold bind at 1. rewrite Hn.
  unfold bind at 1, modify.
  match goal with |- context [bind _ _ ?st] => set (s3 := st) end.
  assert (Downloader.files s3 !! filepath = Some EmptyString) as H3.
  { subst s3. cbn. apply lookup_insert_eq. }
  destruct (write_chunks_ok filepath n (Downloader.chunks response) 0 s3 EmptyString H3)
    as (s4 & Hwrite & Hfile & Hreq).
  unfold bind at 1. rewrite Hwrite.
  rewrite Hstream. unfold bind at 1, ret.
  exists s4. split; [done |]. split; [| done].
  rewrite Hreq. done.
Qed.

(** The verification on an empty file: the file is removed and the
    method returns [None]. *)
Lemma verify_download_empty filename filepath s :
  Downloader.files s !! filepath = Some EmptyString →
  ∃ s', Downloader.verify_download filename filepath s = (Ok None, s') ∧
        Downloader.files s' !! filepath = None ∧
        Downloader.requests s' = Downloader.requests s ∧
        Downloader.log s' = Downloader.log s ++ [(ERROR, "Downloaded file is empty")].
Proof.
  intros Hfile. unfold Downloader.verify_download, bind, get_state. rewrite Hfile. cbn.
  eexists. split; [reflexivity |]. cbn. split; [apply lookup_delete_eq | done].
Qed.

(** The verification on a file with content that does not start with the
    PDF header: a warning, and the path is returned with the file kept. *)
Lemma verify_download_not_pdf filename filepath s content :
  Downloader.files s !! filepath = Some content →
  content ≠ EmptyString →
  startswith "%PDF" (String.substring 0 4 content) = false →
  ∃ s', Downloader.verify_download filename filepath s = (Ok (Some filepath), s') ∧
        Downloader.files s' = Downloader.files s ∧
        Downloader.requests s' = Downloader.requests s ∧
        Downloader.log s' =
          Downloader.log s ++
          [ (WARNING, "Downloaded file doesn't start with PDF header");
            (INFO, "PDF downloaded successfully: " +:+ filename) ].
Proof.
  intros Hfile Hne Hhead. unfold Downloader.verify_download, bind, get_state.
  rewrite Hfile. unfold default. cbn [from_option id].
  destruct (String.length content =? 0)%nat eqn:Hlen.
  { apply string_length_zero in Hlen. done. }
  rewrite Hhead. cbn.
  eexists. split; [reflexivity |]. cbn. by rewrite <- app_assoc.
Qed.

(** C4. No file is there yet, the probe succeeds, and the download
    request is answered with a success status, a PDF content type or URL
    suffix, a readable length and a body that streams to its end. Then
    - if the body is empty, the file is removed, an error is logged and
      [download_pdf] returns [None];
    - if the body has content whose first four bytes are not [%PDF], a
      warning is logged, the file stays with the body as content, and
      [download_pdf] returns its path. *)
Theorem downloaded_file_is_verified s pdf_url project_info filename reason s1 response :
  Downloader.pdf_filename pdf_url project_info = Ok filename →
  Downloader.no_file_yet (path_join (Downloader.pdf_dir s) filename) s →
  Downloader.test_pdf_access pdf_url (Downloader.announced filename pdf_url s)
    = (Ok (true, reason), s1) →
  Downloader.server s1 (Downloader.requests s1) (Downloader.Get pdf_url 60 true)
    = Ok response →
  ((400 <=? Downloader.status_code response) &&
   (Downloader.status_code response <? 600))%bool = false →
  Downloader.looks_like_pdf
    (lower (default EmptyString (Downloader.content_type response))) pdf_url = true →
  (∀ text, Downloader.content_length response = Some text → is_Some (py_int text)) →
  Downloader.stream_error response = None →
  (concat_chunks (Downloader.chunks response) = EmptyString →
   ∃ s', Downloader.download_pdf pdf_url project_info s = (Ok None, s') ∧
         Downloader.files s' !! path_join (Downloader.pdf_dir s) filename = None ∧
         (ERROR, "Downloaded file is empty") ∈ Downloader.log s') ∧
  (concat_chunks (Downloader.chunks response) ≠ EmptyString →
   startswith "%PDF"
     (String.substring 0 4 (concat_chunks (Downloader.chunks response))) = false →
   ∃ s', Downloader.download_pdf pdf_url project_info s =
           (Ok (Some (path_join (Downloader.pdf_dir s) filename)), s') ∧
         Downloader.files s' !! path_join (Downloader.pdf_dir s) filename =
           Some (concat_chunks (Downloader.chunks response)) ∧
         (WARNING, "Downloaded file doesn't start with PDF header") ∈ Downloader.log s').
Proof.
  intros Hname Hnone Hprobe Hget Hstatus Hpdf Hlen Hstream.
  destruct (fetch_pdf_streams s pdf_url filename
              (path_join (Downloader.pdf_dir s) filename) reason s1 response
              Hprobe Hget Hstatus Hpdf Hlen Hstream) as (s2 & Hfile & Hreq & Hfetch).
  rewrite (download_pdf_no_file _ _ _ _ Hname Hnone). unfold try_except. rewrite Hfetch.
  split.
  - intros Hempty. rewrite Hempty in Hfile.
    destruct (verify_download_empty filename _ s2 Hfile) as (s' & -> & Hgone & _ & Hlog).
    exists s'. split; [done |]. split; [done |].
    rewrite Hlog. apply elem_of_app. right. apply list_elem_of_here.
  - intros Hcontent Hhead.
    destruct (verify_download_not_pdf filename _ s2 _ Hfile Hcontent Hhead)
      as (s' & -> & Hfiles & _ & Hlog).
    exists s'. split; [done |]. split; [by rewrite Hfiles |].
    rewrite Hlog. apply elem_of_app. right. apply list_elem_of_here.
Qed.

(** A path is returned only for a file with content. *)
Lemma verify_download_success filename filepath s path s' :
  Downloader.verify_download filename filepath s = (Ok (Some path), s') →
  path = filepath ∧
  ∃ content, Downloader.files s' !! filepath = Some content ∧ content ≠ EmptyString.
Proof.
  unfold Downloader.verify_download, bind, get_state, Downloader.logger, modify, ret.
  destruct (Downloader.files s !! filepath) as [content |] eqn:Hfile; cbn [default];
    unfold default; cbn [from_option id].
  2: { cbn. discriminate. }
  destruct (String.length content =? 0)%nat eqn:Hlen; [discriminate |].
  destruct (negb _); intros [= <- <-]; (split; [done |]); exists content;
    (split; [done |]); intros ->; discriminate.
Qed.

(** [fetch_pdf] returns a path only from the verification. *)
Lemma fetch_pdf_success pdf_url filename filepath s path s' :
  Downloader.fetch_pdf pdf_url filename filepath s = (Ok (Some path), s') →
  ∃ sx, Downloader.verify_download filename filepath sx = (Ok (Some path), s').
Proof.
  unfold Downloader.fetch_pdf. intros Hrun.
  apply bind_inv_ok in Hrun as (? & ? & _ & Hrun).
  apply bind_inv_ok in Hrun as (? & ? & _ & Hrun).
  apply bind_inv_ok in Hrun as ([ok reason] & ? & _ & Hrun).
  destruct ok; cbn [negb] in Hrun.
  2: { apply bind_inv_ok in Hrun as (? & ? & _ & Hrun). discriminate. }
  apply bind_inv_ok in Hrun as (response & ? & _ & Hrun).
  apply bind_inv_ok in Hrun as (? & ? & _ & Hrun).
  destruct (negb _).
  { apply bind_inv_ok in Hrun as (? & ? & _ & Hrun). discriminate. }
  apply bind_inv_ok in Hrun as (? & ? & _ & Hrun).
  apply bind_inv_ok in Hrun as (? & ? & _ & Hrun).
  apply bind_inv_ok in Hrun as (? & ? & _ & Hrun).
  apply bind_inv_ok in Hrun as (? & ? & _ & Hrun).
  eauto.
Qed.
(** With a file with content at the path, [download_pdf] returns the
    path after one log line. *)
Lemma download_pdf_short_circuit s pdf_url project_info filename content :
  Downloader.pdf_filename pdf_url project_info = Ok filename →
  Downloader.files s !! path_join (Downloader.pdf_dir s) filename = Some content →
  content ≠ EmptyString →
  Downloader.download_pdf pdf_url project_info s =
    (Ok (Some (path_join (Downloader.pdf_dir s) filename)),
     Downloader.set_log
       (Downloader.log s ++ [(INFO, "PDF already exists: " +:+ filename)]) s).
Proof.
  intros Hname Hfile Hne. unfold Downloader.download_pdf, try_except.
  unfold bind at 1, lift_outcome. rewrite Hname. unfold bind at 1, get_state.
  rewrite Hfile.
  destruct (0 <? String.length content)%nat eqn:Hlen; [done |].
  destruct content; [done | discriminate].
Qed.

(** A successful [download_pdf] leaves a file with content at the path it
    returns, which is the path derived from the record and the URL. *)
Lemma download_pdf_success s pdf_url project_info path s' :
  Downloader.download_pdf pdf_url project_info s = (Ok (Some path), s') →
  ∃ filename content,
    Downloader.pdf_filename pdf_url project_info = Ok filename ∧
    path = path_join (Downloader.pdf_dir s') filename ∧
    Downloader.files s' !! path = Some content ∧
    content ≠ EmptyString.
Proof.
  intros Hrun.
  pose proof (same_counters_download_pdf _ _ _ _ _ Hrun) as (Hdir & _ & _).
  unfold Downloader.download_pdf in Hrun.
  apply try_except_inv_ok in Hrun as [Hbody | (e & sx & _ & _ & Hh)].
  2: { apply bind_inv_ok in Hh as (? & ? & _ & Hh). discriminate. }
  apply bind_inv_ok in Hbody as (filename & s0 & Hname & Hbody).
  unfold lift_outcome in Hname. injection Hname as Hname <-.
  unfold bind at 1, get_state in Hbody. rewrite Hdir.
  assert (∀ sx, Downloader.verify_download filename
                  (path_join (Downloader.pdf_dir s) filename) sx = (Ok (Some path), s') →
          ∃ content,
            path = path_join (Downloader.pdf_dir s) filename ∧
            Downloader.files s' !! path = Some content ∧ content ≠ EmptyString) as Hverify.
  { intros sx Hv. apply verify_download_success in Hv as (-> & content & Hf & Hne). eauto. }
  destruct (Downloader.files s !! path_join (Downloader.pdf_dir s) filename)
    as [content |] eqn:Hfile.
  - destruct (0 <? String.length content)%nat eqn:Hlen.
    + injection Hbody as <- <-. exists filename, content.
      repeat split; [done.. |]. intros ->. discriminate.
    + apply fetch_pdf_success in Hbody as [sx Hv].
      destruct (Hverify sx Hv) as (c & -> & Hf & Hne). by exists filename, c.
  - apply fetch_pdf_success in Hbody as [sx Hv].
    destruct (Hverify sx Hv) as (c & -> & Hf & Hne). by exists filename, c.
Qed.

(** C3. When a file with content is already at the path derived from the
    record and the URL, [download_pdf] returns that path, makes no request
    and writes no file; so after any successful call, the same call again
    returns the same path and again makes no request and writes no file. *)
Theorem download_pdf_existing_file s pdf_url project_info filename content :
  Downloader.pdf_filename pdf_url project_info = Ok filename →
  Downloader.files s !! path_join (Downloader.pdf_dir s) filename = Some content →
  content ≠ EmptyString →
  (∃ s', Downloader.download_pdf pdf_url project_info s =
           (Ok (Some (path_join (Downloader.pdf_dir s) filename)), s') ∧
         Downloader.requests s' = Downloader.requests s ∧
         Downloader.files s' = Downloader.files s) ∧
  (∀ s0 path s1,
     Downloader.download_pdf pdf_url project_info s0 = (Ok (Some path), s1) →
     ∃ s2, Downloader.download_pdf pdf_url project_info s1 = (Ok (Some path), s2) ∧
           Downloader.requests s2 = Downloader.requests s1 ∧
           Downloader.files s2 = Downloader.files s1).
Proof.
  intros Hname Hfile Hne. split.
  - rewrite (download_pdf_short_circuit _ _ _ _ _ Hname Hfile Hne). by eexists.
  - intros s0 path s1 Hfirst.
    apply download_pdf_success in Hfirst as (filename' & content' & Hname' & -> & Hf & Hne').
    rewrite (download_pdf_short_circuit _ _ _ _ _ Hname' Hf Hne'). by eexists.
Qed.

(** *** The counters of the batch download *)

Lemma counts_once_bind {A B} (m : M Downloader.ImprovedPDFDownloader A)
    (k : A → M Downloader.ImprovedPDFDownloader B) :
  preserves Downloader.same_counters m → (∀ a, Downloader.counts_once (k a)) →
  Downloader.counts_once (bind m k).
Proof.
  intros Hm Hk s o s'. unfold bind.
  destruct (m s) as [[a | e] s1] eqn:Hms.
  - intros Hka. destruct (Hm _ _ _ Hms) as (_ & _ & Hst). rewrite <- Hst.
    exact (Hk _ _ _ _ Hka).
  - intros [= <- <-]. by destruct (Hm _ _ _ Hms) as (_ & _ & Hst).
Qed.

(** The handler counts for the body that raised before counting. *)
Lemma counts_once_try_except {A} (body : M Downloader.ImprovedPDFDownloader A) h :
  Downloader.counts_once body → (∀ e, Downloader.counts_once (h e)) →
  Downloader.counts_once (try_except body h).
Proof.
  intros Hb Hh s o s'. unfold try_except.
  destruct (body s) as [[a | e] s1] eqn:Hbs.
  - intros [= <- <-]. exact (Hb _ _ _ Hbs).
  - pose proof (Hb _ _ _ Hbs) as Hst. cbn in Hst.
    destruct (is_Exception e).
    + intros Hhe. rewrite <- Hst. exact (Hh _ _ _ _ Hhe).
    + by intros [= <- <-].
Qed.

Lemma counts_once_downloaded {A} (a : A) :
  Downloader.counts_once (Downloader.count_downloaded ;; ret a).
Proof. intros s o s' [= <- <-]. cbn. split; [done |]. by left. Qed.

Lemma counts_once_failed {A} (a : A) :
  Downloader.counts_once (Downloader.count_failed ;; ret a).
Proof. intros s o s' [= <- <-]. cbn. split; [done |]. right. by left. Qed.

Lemma counts_once_skipped {A} (a : A) :
  Downloader.counts_once (Downloader.count_skipped ;; ret a).
Proof. intros s o s' [= <- <-]. cbn. split; [done |]. right. by right. Qed.

(** Every path through the body of the loop counts the record once: as
    skipped, as downloaded or as failed; a body that raises has not
    counted yet, and its handler counts the record as failed. *)
Lemma process_project_counts_once i project :
  Downloader.counts_once (Downloader.process_project i project).
Proof.
  unfold Downloader.process_project.
  pose proof same_counters_try_links.
  apply counts_once_try_except.
  - apply counts_once_bind.
    { preserves_with ltac:(first [same_counters_base | done]). }
    intros _.
    apply counts_once_bind.
    { preserves_with ltac:(first [same_counters_base | done]). }
    intros [pdf_links project'].
    destruct (negb (truthy pdf_links)).
    + apply counts_once_bind.
      { preserves_with ltac:(first [same_counters_base | done]). }
      intros _. apply counts_once_skipped.
    + apply counts_once_bind.
      { preserves_with ltac:(first [same_counters_base | done]). }
      intros links.
      apply counts_once_bind; [done |]. intros [path |].
      * apply counts_once_downloaded.
      * apply counts_once_failed.
  - intros e. apply counts_once_bind.
    { preserves_with ltac:(first [same_counters_base | done]). }
    intros _. apply counts_once_failed.
Qed.

(** The sum of the three counters after a pass over the records. *)
Lemma process_projects_sum projects : ∀ i s projects' s',
  Downloader.process_projects i projects s = (Ok projects', s') →
  Downloader.total (Downloader.stats s') = Downloader.total (Downloader.stats s) ∧
  Downloader.downloaded (Downloader.stats s') + Downloader.failed (Downloader.stats s') +
    Downloader.skipped (Downloader.stats s') =
  Downloader.downloaded (Downloader.stats s) + Downloader.failed (Downloader.stats s) +
    Downloader.skipped (Downloader.stats s) + Z.of_nat (length projects).
Proof.
  induction projects as [| project rest IH]; intros i s projects' s' Hrun;
    cbn [Downloader.process_projects] in Hrun.
  - injection Hrun as <- <-. cbn. lia.
  - apply bind_inv_ok in Hrun as (p' & s1 & Hone & Hrun).
    apply bind_inv_ok in Hrun as (rest' & s2 & Hrest & Hrun).
    injection Hrun as <- <-.
    pose proof (process_project_counts_once _ _ _ _ _ Hone) as [Htot Hcount].
    destruct (IH _ _ _ _ Hrest) as [Htot' Hsum].
    split; [congruence |]. rewrite Hsum. cbn [length].
    destruct Hcount as [(-> & -> & ->) | [(-> & -> & ->) | (-> & -> & ->)]]; lia.
Qed.

(** C10. Each record the loop processes to its end counts once in
    exactly one of [downloaded], [failed] and [skipped], the path through
    the handler of the loop included.  So when the session setup succeeds
    and the batch completes, [total] is the number of input records and
    the three counters have grown by that number together; on a
    downloader whose counters are zero, as its constructor leaves them,
    their sum is [total]. *)
Theorem batch_counters_add_up s projects s0 result projects' s' :
  Downloader.setup_session
    (Downloader.set_log
       (Downloader.log s ++ [(INFO, "Starting improved PDF download")]) s) = (Ok true, s0) →
  Downloader.download_pdfs_from_data projects s = (Ok (result, projects'), s') →
  (∀ i project s1 project' s2,
     Downloader.process_project i project s1 = (Ok project', s2) →
     Downloader.counted_once (Downloader.stats s1) (Downloader.stats s2)) ∧
  result = Downloader.stats s' ∧
  Downloader.total result = Z.of_nat (length projects) ∧
  Downloader.downloaded result + Downloader.failed result + Downloader.skipped result =
    Downloader.downloaded (Downloader.stats s) + Downloader.failed (Downloader.stats s) +
    Downloader.skipped (Downloader.stats s) + Z.of_nat (length projects) ∧
  (Downloader.downloaded (Downloader.stats s) = 0 →
   Downloader.failed (Downloader.stats s) = 0 →
   Downloader.skipped (Downloader.stats s) = 0 →
   Downloader.downloaded result + Downloader.failed result + Downloader.skipped result =
     Downloader.total result).
Proof.
  intros Hsetup Hrun. split.
  { intros i project s1 project' s2 Hone.
    exact (process_project_counts_once _ _ _ _ _ Hone). }
  unfold Downloader.download_pdfs_from_data in Hrun.
  unfold bind at 1 in Hrun. cbn [Downloader.logger modify] in Hrun.
  unfold bind at 1 in Hrun. rewrite Hsetup in Hrun. cbn [negb] in Hrun.
  unfold bind at 1 in Hrun. cbn [modify] in Hrun.
  apply bind_inv_ok in Hrun as (ps & s2 & Hloop & Hrun).
  unfold bind at 1 in Hrun. cbn [Downloader.logger modify] in Hrun.
  unfold bind, get_state in Hrun. injection Hrun as <- <- <-.
  apply process_projects_sum in Hloop as [Htot Hsum]. cbn in Htot, Hsum.
  destruct (same_world_setup_session _ _ _ Hsetup) as (_ & _ & _ & Hst). cbn in Hst.
  rewrite Hst in Hsum.
  cbn. repeat split; try done; lia.
Qed.

End DownloaderFrames.

(** ** The improved scraper on a page whose indicator goes away *)

Section OnTheLoadingPage.
#[local] Existing Instance Reference.runtime.
#[local] Existing Instance Loading.selenium.

(** C1. An unverified click is reported as an advance.  The stored page
    is 1 and the page shows "3 of 275"; the next button is clicked and
    the page then shows no indicator.  [get_current_page_number], asked
    again, falls back on the stored page, 1, which differs from the 3
    read before the click: [navigate_to_next_page] returns [True] and
    logs the success with the stored page still 1, although no indicator
    was read after the click and none shows a change. *)
Theorem unverified_click_counts_as_advance :
  Improved.get_current_page_number Loading.scraper = (Ok 3, Loading.scraper) ∧
  Improved.navigate_to_next_page Loading.scraper =
    (Ok true,
     set_log [ (INFO, "Attempting to navigate from page");
               (INFO, "Found next button with selector");
               (INFO, "Successfully navigated to page") ]
       (set_driver (Some false) Loading.scraper)) ∧
  page_source false = Ok "<html><body><p>Cargando...</p></body></html>" ∧
  Improved.first_match Improved.page_patterns
    "<html><body><p>Cargando...</p></body></html>" = None ∧
  Improved.get_current_page_number
    (Improved.navigate_to_next_page Loading.scraper).2 =
    (Ok 1, (Improved.navigate_to_next_page Loading.scraper).2) ∧
  current_page (Improved.navigate_to_next_page Loading.scraper).2 = 1.
Proof. repeat split; vm_compute; reflexivity. Qed.

End OnTheLoadingPage.

(** ** The downloader in front of the document server *)

Section OnTheDocumentServer.
#[local] Existing Instance Reference.runtime.

(** The file of the record is there already: no request, the path. *)
Lemma download_pdf_existing_file_witness :
  (∃ s', Downloader.download_pdf Toy.ley_pdf Toy.ley_de_aguas
           (Toy.downloader
              {[ "data/improved_pdfs/page_1_table_1_row_1_ley.pdf" := "%PDF-1.4 abcd" ]}) =
           (Ok (Some "data/improved_pdfs/page_1_table_1_row_1_ley.pdf"), s') ∧
         Downloader.requests s' = [] ∧
         Downloader.files s' =
           {[ "data/improved_pdfs/page_1_table_1_row_1_ley.pdf" := "%PDF-1.4 abcd" ]}) ∧
  (∀ s0 path s1,
     Downloader.download_pdf Toy.ley_pdf Toy.ley_de_aguas s0 = (Ok (Some path), s1) →
     ∃ s2, Downloader.download_pdf Toy.ley_pdf Toy.ley_de_aguas s1 = (Ok (Some path), s2) ∧
           Downloader.requests s2 = Downloader.requests s1 ∧
           Downloader.files s2 = Downloader.files s1).
Proof.
  pose proof (download_pdf_existing_file
                (Toy.downloader
                   {[ "data/improved_pdfs/page_1_table_1_row_1_ley.pdf" := "%PDF-1.4 abcd" ]})
                Toy.ley_pdf Toy.ley_de_aguas "page_1_table_1_row_1_ley.pdf"
                "%PDF-1.4 abcd") as Hexisting.
  apply Hexisting.
  - vm_compute; reflexivity.
  - vm_compute; reflexivity.
  - discriminate.
Defined.

(** A first download, then the same call again: the same path, and the
    three requests of the first call stay the only ones. *)
Example download_pdf_twice :
  (Downloader.download_pdf Toy.ley_pdf Toy.ley_de_aguas (Toy.downloader ∅)).1 =
    Ok (Some "data/improved_pdfs/page_1_table_1_row_1_ley.pdf") ∧
  (Downloader.download_pdf Toy.ley_pdf Toy.ley_de_aguas
     (Downloader.download_pdf Toy.ley_pdf Toy.ley_de_aguas (Toy.downloader ∅)).2).1 =
    Ok (Some "data/improved_pdfs/page_1_table_1_row_1_ley.pdf") ∧
  Downloader.requests
    (Downloader.download_pdf Toy.ley_pdf Toy.ley_de_aguas
       (Downloader.download_pdf Toy.ley_pdf Toy.ley_de_aguas (Toy.downloader ∅)).2).2 =
    [ Downloader.Head Toy.ley_pdf 30; Downloader.Get Toy.ley_pdf 30 true;
      Downloader.Get Toy.ley_pdf 60 true ].
Proof. split; [| split]; vm_compute; reflexivity. Qed.

(** The download of a document whose session expired: the login page is
    written, flagged with a warning, kept, and its path returned. *)
Lemma downloaded_file_is_verified_witness :
  ∃ s', Downloader.download_pdf Toy.expired_view Toy.ley_de_aguas (Toy.downloader ∅) =
          (Ok (Some "data/improved_pdfs/page_1_table_1_row_1_Ley-de-Aguas.pdf"), s') ∧
        Downloader.files s' !! "data/improved_pdfs/page_1_table_1_row_1_Ley-de-Aguas.pdf" =
          Some "<html>Iniciar sesion</html>" ∧
        (WARNING, "Downloaded file doesn't start with PDF header") ∈ Downloader.log s'.
Proof.
  refine (proj2 (downloaded_file_is_verified (Toy.downloader ∅) Toy.expired_view
            Toy.ley_de_aguas "page_1_table_1_row_1_Ley-de-Aguas.pdf"
            "PDF content confirmed"
            (Downloader.test_pdf_access Toy.expired_view
               (Downloader.announced "page_1_table_1_row_1_Ley-de-Aguas.pdf"
                  Toy.expired_view (Toy.downloader ∅))).2
            (Downloader.mkResponse 200 (Some "application/pdf") (Some "13")
               (Ok "%PDF-1.4 abcd") ["<html>"; "Iniciar sesion</html>"] None)
            _ _ _ _ _ _ _ _) _ _).
  - vm_compute; reflexivity.
  - intros content Hfile. vm_compute in Hfile. discriminate.
  - vm_compute; reflexivity.
  - vm_compute; reflexivity.
  - reflexivity.
  - vm_compute; reflexivity.
  - intros text [= <-]. exists 13. vm_compute; reflexivity.
  - reflexivity.
  - discriminate.
  - vm_compute; reflexivity.
Defined.

(** The empty body: the file is removed and the call fails. *)
Example empty_download_is_removed :
  (Downloader.download_pdf "https://ppless.asambleanacional.gob.ec/view/empty?id=7"
     Toy.ley_de_aguas (Toy.downloader ∅)).1 = Ok None ∧
  Downloader.files
    (Downloader.download_pdf "https://ppless.asambleanacional.gob.ec/view/empty?id=7"
       Toy.ley_de_aguas (Toy.downloader ∅)).2 = ∅ ∧
  Downloader.Get "https://ppless.asambleanacional.gob.ec/view/empty?id=7" 60 true ∈
    Downloader.requests
      (Downloader.download_pdf "https://ppless.asambleanacional.gob.ec/view/empty?id=7"
         Toy.ley_de_aguas (Toy.downloader ∅)).2.
Proof.
  split; [vm_compute; reflexivity |]. split; [vm_compute; reflexivity |].
  vm_compute. apply list_elem_of_further, list_elem_of_further, list_elem_of_here.
Qed.

(** A document the server declares as HTML, at a URL that ends in [.pdf]:
    the probe goes on to read the first bytes, finds the PDF header and
    succeeds; the streaming download is made and the path returned. *)
Lemma declared_html_is_downloaded :
  Toy.server [] (Downloader.Head Toy.mislabelled_pdf 30) =
    Ok (Downloader.mkResponse 200 (Some "text/html; charset=UTF-8") (Some "13")
          (Ok EmptyString) [] None) ∧
  (Downloader.test_pdf_access Toy.mislabelled_pdf (Toy.downloader ∅)).1 =
    Ok (true, "PDF content confirmed") ∧
  (Downloader.download_pdf Toy.mislabelled_pdf Toy.ley_de_aguas (Toy.downloader ∅)).1 =
    Ok (Some "data/improved_pdfs/page_1_table_1_row_1_mislabelled.pdf") ∧
  Downloader.requests
    (Downloader.download_pdf Toy.mislabelled_pdf Toy.ley_de_aguas (Toy.downloader ∅)).2 =
    [ Downloader.Head Toy.mislabelled_pdf 30; Downloader.Get Toy.mislabelled_pdf 30 true;
      Downloader.Get Toy.mislabelled_pdf 60 true ].
Proof. split; [| split; [| split]]; vm_compute; reflexivity. Qed.

(** The same document at a URL without the suffix: the probe fails after
    the HEAD request, and nothing else is requested. *)
Lemma probe_failure_stops_download_witness :
  Downloader.download_pdf Toy.mislabelled_view Toy.ley_de_aguas (Toy.downloader ∅) =
    (Ok None,
     Downloader.set_log
       [ (INFO, "Downloading PDF: page_1_table_1_row_1_Ley-de-Aguas.pdf");
         (INFO, "URL: " +:+ Toy.mislabelled_view);
         (INFO, "Testing PDF access: " +:+ Toy.mislabelled_view);
         (INFO, "HEAD response");
         (WARNING, "Content-Type doesn't indicate PDF: text/html; charset=utf-8");
         (WARNING, "PDF not accessible: Wrong content type: text/html; charset=utf-8") ]
       (Downloader.set_requests [Downloader.Head Toy.mislabelled_view 30]
          (Toy.downloader ∅))) ∧
  Downloader.requests
    (Downloader.download_pdf Toy.mislabelled_view Toy.ley_de_aguas (Toy.downloader ∅)).2 =
    [Downloader.Head Toy.mislabelled_view 30].
Proof.
  pose proof (probe_failure_stops_download (Toy.downloader ∅) Toy.mislabelled_view
                Toy.ley_de_aguas "page_1_table_1_row_1_Ley-de-Aguas.pdf"
                "Wrong content type: text/html; charset=utf-8"
                (Downloader.test_pdf_access Toy.mislabelled_view
                   (Downloader.announced "page_1_table_1_row_1_Ley-de-Aguas.pdf"
                      Toy.mislabelled_view (Toy.downloader ∅))).2) as Hstop.
  destruct Hstop as (Hrun & _ & _).
  - vm_compute; reflexivity.
  - intros content Hfile. vm_compute in Hfile. discriminate.
  - vm_compute; reflexivity.
  - split; [| rewrite Hrun]; vm_compute; reflexivity.
Defined.

(** The batch of four records: one downloaded, two failed, one of them
    in the handler of the loop, and one skipped. *)
Lemma batch_counters_add_up_witness :
  (Downloader.download_pdfs_from_data Toy.batch (Toy.downloader ∅)).1 =
    Ok (Downloader.mkStats 1 2 1 4,
        match (Downloader.download_pdfs_from_data Toy.batch (Toy.downloader ∅)).1 with
        | Ok (_, projects) => projects
        | Raise _ => []
        end) ∧
  Downloader.total (Downloader.mkStats 1 2 1 4) = Z.of_nat (length Toy.batch) ∧
  Downloader.downloaded (Downloader.mkStats 1 2 1 4) +
    Downloader.failed (Downloader.mkStats 1 2 1 4) +
    Downloader.skipped (Downloader.mkStats 1 2 1 4) =
  Downloader.total (Downloader.mkStats 1 2 1 4).
Proof.
  pose proof (batch_counters_add_up (Toy.downloader ∅) Toy.batch
                (Downloader.setup_session
                   (Downloader.set_log
                      (Downloader.log (Toy.downloader ∅) ++
                       [(INFO, "Starting improved PDF download")])
                      (Toy.downloader ∅))).2
                (Downloader.mkStats 1 2 1 4)
                match (Downloader.download_pdfs_from_data Toy.batch (Toy.downloader ∅)).1 with
                | Ok (_, projects) => projects
                | Raise _ => []
                end
                (Downloader.download_pdfs_from_data Toy.batch (Toy.downloader ∅)).2)
    as Hbatch.
  destruct Hbatch as (_ & _ & Htotal & _ & Hsum).
  - vm_compute; reflexivity.
  - vm_compute; reflexivity.
  - split; [vm_compute; reflexivity |]. split; [exact Htotal |].
    apply Hsum; reflexivity.
Defined.

End OnTheDocumentServer.

(** ** The links of a record *)

Section Links.
Context {W E : Type} `{!Selenium W E} `{!PyRuntime}.

(** The dialog resolver returns its links without repeats. *)
Lemma find_pdf_links_in_dialog_no_duplicates (dialog : E) (s : Scraper W) links s' :
  Improved.find_pdf_links_in_dialog dialog s = (Ok links, s') → NoDup links.
Proof.
  unfold Improved.find_pdf_links_in_dialog. intros Hrun.
  apply bind_inv_ok in Hrun as ([[] pdf_links] & s1 & _ & Hret).
  injection Hret as <- <-. apply NoDup_elements.
Qed.

End Links.

Section LinksOnTheSmallBrowser.
#[local] Existing Instance Reference.runtime.
#[local] Instance results_browser : Selenium Toy.Browser Toy.Element :=
  Toy.selenium Toy.one_bill.

(** C7 on the page of one bill, whose anchor has [.pdf] in its [href] and
    [pdf] in its text.  The row resolver appends the link for the [href]
    and again for the text; the record is given that list, and the scan
    of the cells appends the link a third time: the record the extractor
    emits holds the link three times.  The downloader then puts the
    document of the record, the same link, in front: four times. *)
Theorem emitted_record_repeats_link :
  (Improved.find_pdf_links_in_table (Toy.Row 1) (Toy.scraper (Some Toy.one_bill))).1 =
    Ok [ "https://ppless.asambleanacional.gob.ec/docs/ley.pdf";
         "https://ppless.asambleanacional.gob.ec/docs/ley.pdf" ] ∧
  (∃ project,
     (Improved.extract_current_page_data (Toy.scraper (Some Toy.one_bill))).1 = Ok [project] ∧
     project !! "document_url" =
       Some (VStr "https://ppless.asambleanacional.gob.ec/docs/ley.pdf") ∧
     project !! "pdf_links" =
       Some (VList [ VStr "https://ppless.asambleanacional.gob.ec/docs/ley.pdf";
                     VStr "https://ppless.asambleanacional.gob.ec/docs/ley.pdf";
                     VStr "https://ppless.asambleanacional.gob.ec/docs/ley.pdf" ]) ∧
     ∃ project',
       (Downloader.process_project 1 project (Toy.downloader ∅)).1 = Ok project' ∧
       project' !! "pdf_links" =
         Some (VList [ VStr "https://ppless.asambleanacional.gob.ec/docs/ley.pdf";
                       VStr "https://ppless.asambleanacional.gob.ec/docs/ley.pdf";
                       VStr "https://ppless.asambleanacional.gob.ec/docs/ley.pdf";
                       VStr "https://ppless.asambleanacional.gob.ec/docs/ley.pdf" ])) ∧
  ¬ NoDup [ "https://ppless.asambleanacional.gob.ec/docs/ley.pdf";
            "https://ppless.asambleanacional.gob.ec/docs/ley.pdf" ].
Proof.
  split; [vm_compute; reflexivity |]. split.
  - exists (match (Improved.extract_current_page_data (Toy.scraper (Some Toy.one_bill))).1 with
            | Ok [project] => project
            | _ => ∅
            end).
    split; [vm_compute; reflexivity |]. split; [vm_compute; reflexivity |].
    split; [vm_compute; reflexivity |].
    exists (match (Downloader.process_project 1
                     (match (Improved.extract_current_page_data
                               (Toy.scraper (Some Toy.one_bill))).1 with
                      | Ok [project] => project
                      | _ => ∅
                      end) (Toy.downloader ∅)).1 with
            | Ok project' => project'
            | _ => ∅
            end).
    split; vm_compute; reflexivity.
  - intros Hnodup. apply NoDup_cons in Hnodup as [Hnotin _].
    apply Hnotin, list_elem_of_here.
Qed.

End LinksOnTheSmallBrowser.

(** ** The browser at the end of a run *)

Section Finalization.
Context {W E : Type} `{!Selenium W E} `{!PyRuntime}.
Variable find_and_fill_date_inputs : string → string → M (Scraper W) bool.
Variable find_and_click_submit_button : M (Scraper W) bool.
Variable download_pdfs_for_projects : list (gmap string pyval) → M (Scraper W) unit.
Variable process_and_export :
  list (gmap string pyval) → list string → M (Scraper W) (list (gmap string pyval)).

(** [close_driver] never raises an [Exception], and leaves the scraper
    without a driver unless [quit] itself raised. *)
Lemma close_driver_releases (s : Scraper W) u s' :
  Improved.close_driver s = (Ok u, s') →
  driver s' = None ∨
  ∃ w e w', driver s = Some w ∧ quit w = (Raise e, w') ∧ is_Exception e = true.
Proof.
  unfold Improved.close_driver. intros Hrun.
  apply try_except_inv_ok in Hrun as [Hbody | (e & s1 & Hbody & He & _)].
  - unfold bind, get_state, on_driver, logger, modify, ret in Hbody.
    destruct (driver s) as [w|] eqn:Hw; rewrite ?Hw in Hbody.
    + destruct (quit w) as [[[]|e] w'] eqn:Hq; [| discriminate].
      injection Hbody as _ <-. by left.
    + injection Hbody as _ <-. by left.
  - right. unfold bind, get_state, on_driver, logger, modify, ret in Hbody.
    destruct (driver s) as [w|] eqn:Hw; rewrite ?Hw in Hbody; [| discriminate].
    destruct (quit w) as [[[]|e'] w'] eqn:Hq; [discriminate |].
    injection Hbody as -> _. eauto 6.
Qed.

(** Every return of [start_scraping] comes from [close_driver], but for
    the one after a failed [setup_driver]. *)
Lemma start_scraping_returns_through_close_driver
    start_date end_date max_pages output_formats (s : Scraper W) r s' :
  Improved.start_scraping find_and_fill_date_inputs find_and_click_submit_button
    download_pdfs_for_projects process_and_export
    start_date end_date max_pages output_formats s = (Ok r, s') →
  (∃ s0, Improved.setup_driver s0 = (Ok false, s') ∧ r = None) ∨
  (∃ s1, Improved.close_driver s1 = (Ok tt, s')).
Proof.
  unfold Improved.start_scraping. intros Hrun.
  apply try_except_inv_ok in Hrun as [Hbody | (e & s1 & _ & _ & Hhandler)].
  - apply bind_inv_ok in Hbody as ([] & s1 & _ & Hbody).
    apply bind_inv_ok in Hbody as (ready & s2 & Hsetup & Hbody).
    destruct ready; cbn [negb] in Hbody.
    2: { injection Hbody as <- <-. left. eauto. }
    right.
    apply bind_inv_ok in Hbody as (arrived & s3 & _ & Hbody).
    destruct arrived; cbn [negb] in Hbody.
    2: { apply bind_inv_ok in Hbody as ([] & s4 & Hclose & Hret).
         injection Hret as _ <-. eauto. }
    apply bind_inv_ok in Hbody as (date_filled & s4 & _ & Hbody).
    apply bind_inv_ok in Hbody as ([] & s5 & _ & Hbody).
    apply bind_inv_ok in Hbody as (submit_clicked & s6 & _ & Hbody).
    apply bind_inv_ok in Hbody as ([] & s7 & _ & Hbody).
    apply bind_inv_ok in Hbody as (projects & s8 & _ & Hbody).
    destruct projects as [|project projects].
    + apply bind_inv_ok in Hbody as ([] & s9 & _ & Hbody).
      apply bind_inv_ok in Hbody as ([] & s10 & Hclose & Hret).
      injection Hret as _ <-. eauto.
    + apply bind_inv_ok in Hbody as ([] & s9 & _ & Hbody).
      apply bind_inv_ok in Hbody as (s9' & s10 & _ & Hbody).
      apply bind_inv_ok in Hbody as ([] & s11 & _ & Hbody).
      apply bind_inv_ok in Hbody as (processed & s12 & _ & Hbody).
      apply bind_inv_ok in Hbody as ([] & s13 & _ & Hbody).
      apply bind_inv_ok in Hbody as ([] & s14 & Hclose & Hret).
      injection Hret as _ <-. eauto.
  - apply bind_inv_ok in Hhandler as ([] & s2 & _ & Hhandler).
    apply bind_inv_ok in Hhandler as ([] & s3 & Hclose & Hret).
    injection Hret as _ <-. eauto.
Qed.

(** [start_scraping] catches every [Exception] of its steps: what it
    raises is a [KeyboardInterrupt]. *)
Lemma start_scraping_raises_only_interrupt
    start_date end_date max_pages output_formats (s : Scraper W) e s' :
  Improved.start_scraping find_and_fill_date_inputs find_and_click_submit_button
    download_pdfs_for_projects process_and_export
    start_date end_date max_pages output_formats s = (Raise e, s') →
  e = KeyboardInterrupt.
Proof.
  unfold Improved.start_scraping, try_except.
  match goal with |- context [match ?body s with _ => _ end] =>
    destruct (body s) as [[r|e0] s0] end; [discriminate |].
  destruct (is_Exception e0) eqn:He0.
  - unfold bind at 1, logger, modify.
    unfold bind at 1.
    match goal with |- context [Improved.close_driver ?s1] =>
      destruct (Improved.close_driver s1) as [[[]|e1] s2] eqn:Hclose end;
      [discriminate |].
    intros [= <- <-].
    unfold Improved.close_driver, try_except in Hclose.
    match type of Hclose with context [match ?body ?s1 with _ => _ end] =>
      destruct (body s1) as [[r|e2] s3] end; [discriminate |].
    destruct (is_Exception e2) eqn:He2; [discriminate |].
    injection Hclose as <- _. by destruct e2.
  - intros [= <- <-]. by destruct e0.
Qed.

End Finalization.

Section FinalizationOnTheSmallBrowser.
#[local] Existing Instance Reference.runtime.
#[local] Instance interrupted_browser : Selenium Toy.Browser Toy.Element :=
  Toy.selenium Toy.interrupted.
Variable find_and_fill_date_inputs : string → string → M (Scraper Toy.Browser) bool.
Variable find_and_click_submit_button : M (Scraper Toy.Browser) bool.
Variable download_pdfs_for_projects :
  list (gmap string pyval) → M (Scraper Toy.Browser) unit.
Variable process_and_export :
  list (gmap string pyval) → list string →
  M (Scraper Toy.Browser) (list (gmap string pyval)).

(** C8 on a run the user interrupts while the portal loads.  The
    [KeyboardInterrupt] of [driver.get] is not an [Exception]: it passes
    the handlers of [navigate_to_iframe] and of [start_scraping], whose
    [close_driver] is therefore not run, and reaches [main], which logs
    it and returns.  The scraper still holds the browser, and [quit] was
    never called on it. *)
Theorem interrupt_leaves_browser_running
    start_date end_date max_pages output_formats :
  let run :=
    Improved.main find_and_fill_date_inputs find_and_click_submit_button
      download_pdfs_for_projects process_and_export
      start_date end_date max_pages output_formats (Toy.scraper None) in
  run.1 = Ok tt ∧
  driver run.2 = Some Toy.interrupted ∧
  Toy.quit_calls Toy.interrupted = 0%nat ∧
  last (log run.2) = Some (INFO, "Scraping interrupted by user").
Proof.
  cbv zeta. split; [| split; [| split]]; vm_compute; reflexivity.
Qed.

End FinalizationOnTheSmallBrowser.
Set Warnings "-clear-no-such-hyp".

(** * Further properties of the code *)

Section Records.
Context {W E : Type} `{!Selenium W E} `{!PyRuntime}.

Lemma remove_duplicates_spec projects : ∀ unique (s : Scraper W),
  ∃ added s',
    Improved.remove_duplicates projects unique s = (Ok (unique ++ added), s') ∧
    added `sublist_of` projects ∧
    NoDup (Improved.keys_of added) ∧
    (∀ k, k ∈ Improved.keys_of added → k ∉ seen_project_ids s) ∧
    seen_project_ids s' = list_to_set (Improved.keys_of projects) ∪ seen_project_ids s ∧
    all_projects s' = all_projects s ∧
    driver s' = driver s ∧
    current_page s' = current_page s.
Proof.
  induction projects as [| project rest IH]; intros unique s.
  - exists [], s. rewrite app_nil_r. repeat split; try done.
    + constructor.
    + intros k Hk. by apply elem_of_nil in Hk.
    + set_solver.
  - destruct (decide (Improved.project_id_of project ∈ seen_project_ids s)) as [Hin | Hnew].
    + rewrite remove_duplicates_seen by done.
      destruct (IH unique (set_log (log s ++ [(DEBUG, "Duplicate project found and skipped")]) s))
        as (added & s' & -> & Hsub & Hnd & Hfresh & Hseen & Hall & Hd & Hc).
      exists added, s'. repeat split; try done.
      * by apply sublist_cons.
      * rewrite Hseen. cbn. set_solver.
    + rewrite remove_duplicates_new by done.
      destruct (IH (unique ++ [project])
                  (set_seen_project_ids ({[Improved.project_id_of project]} ∪ seen_project_ids s) s))
        as (added & s' & -> & Hsub & Hnd & Hfresh & Hseen & Hall & Hd & Hc).
      exists (project :: added), s'. rewrite <- app_assoc. repeat split; try done.
      * by apply sublist_skip.
      * cbn. apply NoDup_cons. split; [| done].
        intros Hk. apply Hfresh in Hk. cbn in Hk. set_solver.
      * intros k Hk. cbn in Hk. apply elem_of_cons in Hk as [-> | Hk]; [done |].
        apply Hfresh in Hk. cbn in Hk. set_solver.
      * rewrite Hseen. cbn. set_solver.
Qed.

End Records.

Section BrowsingFrames.
Context {W E : Type} `{!Selenium W E} `{!PyRuntime}.

#[local] Instance only_browses_refl : Reflexive (Improved.only_browses (W:=W)).
Proof. by intros s. Qed.

#[local] Instance only_browses_trans : Transitive (Improved.only_browses (W:=W)).
Proof.
  intros s1 s2 s3 (? & ? & ? & ? & ? & ? & ? & ? & ?) (? & ? & ? & ? & ? & ? & ? & ? & ?).
  unfold Improved.only_browses. repeat split; try congruence. auto.
Qed.

#[local] Instance only_browses_local_refl {L} : Reflexive (Improved.only_browses_local (W:=W) (L:=L)).
Proof. by intros s. Qed.

#[local] Instance only_browses_local_trans {L} : Transitive (Improved.only_browses_local (W:=W) (L:=L)).
Proof. intros [s1 l1] [s2 l2] [s3 l3]. apply only_browses_trans. Qed.

#[local] Instance same_records_refl : Reflexive (Improved.same_records (W:=W)).
Proof. by intros s. Qed.

#[local] Instance same_records_trans : Transitive (Improved.same_records (W:=W)).
Proof.
  intros s1 s2 s3 (? & ? & ? & ? & ? & ? & ?) (? & ? & ? & ? & ? & ? & ?).
  unfold Improved.same_records. repeat split; try congruence. auto.
Qed.

Lemma only_browses_same_records (s s' : Scraper W) : Improved.only_browses s s' → Improved.same_records s s'.
Proof. intros (? & ? & ? & ? & ? & ? & ? & ? & ?). by repeat split. Qed.

Lemma only_browses_logger lv msg : preserves Improved.only_browses (logger (W:=W) lv msg).
Proof. by intros s o s' [= <- <-]. Qed.

Lemma only_browses_on_driver {A} (m : M W A) : preserves Improved.only_browses (on_driver m).
Proof.
  intros s o s'. unfold on_driver. destruct (driver s) as [w |]; [| by intros [= <- <-]].
  destruct (m w) as [o' w']. by intros [= <- <-].
Qed.

Lemma only_browses_read_driver {A} (f : W → outcome A) : preserves Improved.only_browses (read_driver f).
Proof. intros s o s'. unfold read_driver. destruct (driver s); by intros [= <- <-]. Qed.

Lemma only_browses_time_sleep ms : preserves Improved.only_browses (time_sleep (W:=W) ms).
Proof.
  intros s o s'. unfold time_sleep. destruct (driver s) as [w |]; [| by intros [= <- <-]].
  destruct (sleep ms w) as [o' w']. by intros [= <- <-].
Qed.

Lemma only_browses_in_object {L A} (m : M (Scraper W) A) :
  preserves Improved.only_browses m → preserves (Improved.only_browses_local (W:=W) (L:=L)) (in_object m).
Proof.
  intros Hm [s l] o [s' l']. unfold in_object.
  destruct (m s) as [o' s1] eqn:Hms. intros [= <- <- <-]. exact (Hm _ _ _ Hms).
Qed.

Lemma only_browses_modify_local {L} (f : L → L) :
  preserves (Improved.only_browses_local (W:=W) (L:=L)) (modify_local f).
Proof. by intros [s l] o [s' l'] [= <- <- <-]. Qed.

Lemma only_browses_get_local {L} : preserves (Improved.only_browses_local (W:=W) (L:=L)) get_local.
Proof. by intros [s l] o [s' l'] [= <- <- <-]. Qed.

Lemma only_browses_with_local {L A} (init : L) (m : M (Scraper W * L) A) :
  preserves Improved.only_browses_local m → preserves Improved.only_browses (with_local init m).
Proof.
  intros Hm s o s'. unfold with_local.
  destruct (m (s, init)) as [o' [s1 l]] eqn:Hms. intros [= <- <-].
  exact (Hm _ _ _ Hms).
Qed.

Lemma same_records_set_current_page n :
  preserves Improved.same_records (modify (set_current_page (W:=W) n)).
Proof. by intros s o s' [= <- <-]. Qed.

Lemma same_records_set_total_records n :
  preserves Improved.same_records (modify (set_total_records (W:=W) n)).
Proof. by intros s o s' [= <- <-]. Qed.

End BrowsingFrames.

(** Closes the leaves of an [Improved.only_browses] goal. *)
Ltac only_browses_leaf :=
  idtac;
  lazymatch goal with
  | |- preserves _ (logger _ _) => apply only_browses_logger
  | |- preserves _ (on_driver _) => apply only_browses_on_driver
  | |- preserves _ (read_driver _) => apply only_browses_read_driver
  | |- preserves _ (time_sleep _) => apply only_browses_time_sleep
  | |- preserves _ (Improved.reading _) =>
      apply only_browses_in_object, only_browses_read_driver
  | |- preserves _ (in_object _) => apply only_browses_in_object
  | |- preserves _ (modify_local _) => apply only_browses_modify_local
  | |- preserves _ get_local => apply only_browses_get_local
  | |- preserves _ (with_local _ _) => apply only_browses_with_local
  | |- preserves _ (or_continue _ _) => unfold or_continue
  | |- preserves _ _ => solve [trivial]
  end.

Ltac solve_only_browses := preserves_with only_browses_leaf.

Section BrowsingFrames2.
Context {W E : Type} `{!Selenium W E} `{!PyRuntime}.
#[local] Existing Instances only_browses_refl only_browses_trans
  only_browses_local_refl only_browses_local_trans.

Lemma only_browses_get_current_page_number :
  preserves Improved.only_browses (Improved.get_current_page_number (W:=W)).
Proof. unfold Improved.get_current_page_number. solve_only_browses. Qed.

Lemma only_browses_get_total_records_and_pages :
  preserves Improved.only_browses (Improved.get_total_records_and_pages (W:=W)).
Proof. unfold Improved.get_total_records_and_pages. solve_only_browses. Qed.

Lemma only_browses_find_control test found_msg error_msg selectors :
  preserves Improved.only_browses (Improved.find_control (W:=W) test found_msg error_msg selectors).
Proof.
  induction selectors as [| selector rest IH]; cbn [Improved.find_control]; solve_only_browses.
Qed.

Lemma only_browses_find_page_links selectors :
  preserves Improved.only_browses (Improved.find_page_links (W:=W) selectors).
Proof.
  induction selectors as [| selector rest IH]; cbn [Improved.find_page_links]; solve_only_browses.
Qed.

Lemma only_browses_find_pagination_controls :
  preserves Improved.only_browses (Improved.find_pagination_controls (W:=W)).
Proof.
  unfold Improved.find_pagination_controls.
  pose proof only_browses_find_control. pose proof only_browses_find_page_links.
  solve_only_browses.
Qed.

End BrowsingFrames2.

Section ExtractionFrames.
Context {W E : Type} `{!Selenium W E} `{!PyRuntime}.
#[local] Existing Instances only_browses_refl only_browses_trans
  only_browses_local_refl only_browses_local_trans.

Lemma only_browses_scan_row_links links :
  preserves Improved.only_browses_local (Improved.scan_row_links (W:=W) links).
Proof.
  induction links as [| link rest IH]; cbn [Improved.scan_row_links]; solve_only_browses.
Qed.

Lemma only_browses_scan_row_buttons buttons :
  preserves Improved.only_browses_local (Improved.scan_row_buttons (W:=W) buttons).
Proof.
  induction buttons as [| button rest IH]; cbn [Improved.scan_row_buttons]; solve_only_browses.
Qed.

Lemma only_browses_find_pdf_links_in_table row :
  preserves Improved.only_browses (Improved.find_pdf_links_in_table (W:=W) row).
Proof.
  unfold Improved.find_pdf_links_in_table.
  pose proof only_browses_scan_row_links. pose proof only_browses_scan_row_buttons.
  solve_only_browses.
Qed.

Lemma only_browses_scan_dialog_links links :
  preserves Improved.only_browses_local (Improved.scan_dialog_links (W:=W) links).
Proof.
  induction links as [| link rest IH]; cbn [Improved.scan_dialog_links]; solve_only_browses.
Qed.

Lemma only_browses_first_href {L} links :
  preserves Improved.only_browses_local (Improved.first_href (W:=W) (L:=L) links).
Proof.
  induction links as [| link rest IH]; cbn [Improved.first_href]; solve_only_browses.
Qed.

Lemma only_browses_scan_dialog_buttons buttons :
  preserves Improved.only_browses_local (Improved.scan_dialog_buttons (W:=W) buttons).
Proof.
  pose proof (only_browses_first_href (L:=list string)).
  induction buttons as [| button rest IH]; cbn [Improved.scan_dialog_buttons]; solve_only_browses.
Qed.

Lemma only_browses_scan_clickables clickables :
  preserves Improved.only_browses_local (Improved.scan_clickables (W:=W) clickables).
Proof.
  induction clickables as [| clickable rest IH]; cbn [Improved.scan_clickables]; solve_only_browses.
Qed.

Lemma only_browses_find_pdf_links_in_dialog dialog :
  preserves Improved.only_browses (Improved.find_pdf_links_in_dialog (W:=W) dialog).
Proof.
  unfold Improved.find_pdf_links_in_dialog.
  pose proof only_browses_scan_dialog_links. pose proof only_browses_scan_dialog_buttons.
  pose proof only_browses_scan_clickables.
  solve_only_browses.
Qed.

Lemma only_browses_read_cells cells : ∀ k,
  preserves Improved.only_browses_local (Improved.read_cells (W:=W) k cells).
Proof.
  induction cells as [| cell rest IH]; intros k; cbn [Improved.read_cells]; solve_only_browses.
Qed.

Lemma only_browses_scan_cell_links links :
  preserves Improved.only_browses_local (Improved.scan_cell_links (W:=W) links).
Proof.
  induction links as [| link rest IH]; cbn [Improved.scan_cell_links]; solve_only_browses.
Qed.

Lemma only_browses_scan_cells cells :
  preserves Improved.only_browses_local (Improved.scan_cells (W:=W) cells).
Proof.
  pose proof only_browses_scan_cell_links.
  induction cells as [| cell rest IH]; cbn [Improved.scan_cells]; solve_only_browses.
Qed.

Lemma only_browses_find_dialog selectors :
  preserves Improved.only_browses (Improved.find_dialog (W:=W) selectors).
Proof.
  induction selectors as [| selector rest IH]; cbn [Improved.find_dialog]; solve_only_browses.
Qed.

Lemma only_browses_click_first_displayed buttons :
  preserves Improved.only_browses (Improved.click_first_displayed (W:=W) buttons).
Proof.
  induction buttons as [| button rest IH]; cbn [Improved.click_first_displayed]; solve_only_browses.
Qed.

Lemma only_browses_close_dialog dialog :
  preserves Improved.only_browses (Improved.close_dialog (W:=W) dialog).
Proof.
  unfold Improved.close_dialog. pose proof only_browses_click_first_displayed. solve_only_browses.
Qed.

Lemma only_browses_open_documents_dialog button :
  preserves Improved.only_browses_local (Improved.open_documents_dialog (W:=W) button).
Proof.
  unfold Improved.open_documents_dialog.
  pose proof only_browses_find_dialog. pose proof only_browses_find_pdf_links_in_dialog.
  pose proof only_browses_close_dialog.
  solve_only_browses.
Qed.

Lemma only_browses_scan_buttons buttons :
  preserves Improved.only_browses_local (Improved.scan_buttons (W:=W) buttons).
Proof.
  pose proof only_browses_open_documents_dialog.
  pose proof (only_browses_first_href (L:=gmap string pyval)).
  induction buttons as [| button rest IH]; cbn [Improved.scan_buttons]; solve_only_browses.
Qed.

Lemma only_browses_extract_row i j row :
  preserves Improved.only_browses (Improved.extract_row (W:=W) i j row).
Proof.
  unfold Improved.extract_row.
  pose proof only_browses_read_cells. pose proof only_browses_find_pdf_links_in_table.
  pose proof only_browses_scan_cells. pose proof only_browses_scan_buttons.
  solve_only_browses.
Qed.

Lemma only_browses_extract_rows i rows : ∀ j,
  preserves Improved.only_browses (Improved.extract_rows (W:=W) i j rows).
Proof.
  pose proof only_browses_extract_row.
  induction rows as [| row rest IH]; intros j; cbn [Improved.extract_rows]; solve_only_browses.
Qed.

Lemma only_browses_extract_tables tables : ∀ i,
  preserves Improved.only_browses (Improved.extract_tables (W:=W) i tables).
Proof.
  pose proof only_browses_extract_rows.
  induction tables as [| table rest IH]; intros i; cbn [Improved.extract_tables]; solve_only_browses.
Qed.

Lemma only_browses_extract_table_data :
  preserves Improved.only_browses (Improved.extract_table_data (W:=W)).
Proof.
  unfold Improved.extract_table_data. pose proof only_browses_extract_tables. solve_only_browses.
Qed.

End ExtractionFrames.

(** Closes the leaves of a [Improved.same_records] goal: the stored page and the
    total of records may change. *)
Ltac same_records_leaf :=
  idtac;
  lazymatch goal with
  | |- preserves _ (modify (set_current_page _)) => apply same_records_set_current_page
  | |- preserves _ (modify (set_total_records _)) => apply same_records_set_total_records
  | |- preserves _ (or_continue _ _) => unfold or_continue
  | |- preserves _ (bind _ _) => fail
  | |- preserves _ (try_except _ _) => fail
  | |- preserves _ (match _ with _ => _ end) => fail
  | |- preserves _ (ret _) => fail
  | |- preserves _ (lift_outcome _) => fail
  | |- preserves _ Improved.get_current_page_number =>
      apply (preserves_weaken _ _ only_browses_same_records),
        only_browses_get_current_page_number
  | |- preserves _ Improved.find_pagination_controls =>
      apply (preserves_weaken _ _ only_browses_same_records),
        only_browses_find_pagination_controls
  | |- preserves _ Improved.get_total_records_and_pages =>
      apply (preserves_weaken _ _ only_browses_same_records),
        only_browses_get_total_records_and_pages
  | |- preserves _ Improved.extract_table_data =>
      apply (preserves_weaken _ _ only_browses_same_records),
        only_browses_extract_table_data
  | |- preserves _ _ =>
      first [ solve [trivial]
            | apply (preserves_weaken _ _ only_browses_same_records); only_browses_leaf ]
  end.

Ltac solve_same_records := preserves_with same_records_leaf.

Section NavigationFrames.
Context {W E : Type} `{!Selenium W E} `{!PyRuntime}.
#[local] Existing Instances same_records_refl same_records_trans.

Lemma same_records_verify_moved n0 unchanged :
  preserves Improved.same_records unchanged →
  preserves Improved.same_records (Improved.verify_moved (W:=W) n0 unchanged).
Proof. intros Hu. unfold Improved.verify_moved. solve_same_records. Qed.

End NavigationFrames.

(** The leaves again, with the check of the navigation methods. *)
Ltac same_records_nav_leaf :=
  idtac;
  lazymatch goal with
  | |- preserves _ (Improved.verify_moved _ _) => apply same_records_verify_moved
  | |- _ => same_records_leaf
  end.

Ltac solve_same_records_nav := preserves_with same_records_nav_leaf.

Section NavigationFrames2.
Context {W E : Type} `{!Selenium W E} `{!PyRuntime}.
#[local] Existing Instances same_records_refl same_records_trans.

Lemma same_records_click_page_link n0 next_page links :
  preserves Improved.same_records (Improved.click_page_link (W:=W) n0 next_page links).
Proof.
  induction links as [| link rest IH]; cbn [Improved.click_page_link]; solve_same_records_nav.
Qed.

Lemma same_records_navigate_to_next_page :
  preserves Improved.same_records (Improved.navigate_to_next_page (W:=W)).
Proof.
  unfold Improved.navigate_to_next_page, Improved.method_next_button,
    Improved.method_page_input, Improved.method_page_links, Improved.method_url.
  pose proof same_records_click_page_link.
  solve_same_records_nav.
Qed.

End NavigationFrames2.

Section RunWideRecords.
Context {W E : Type} `{!Selenium W E} `{!PyRuntime}.
#[local] Existing Instances same_records_refl same_records_trans.

#[local] Instance records_grow_refl : Reflexive (Improved.records_grow (W:=W)).
Proof. intros s. split; [done | split; [done | auto]]. Qed.

#[local] Instance records_grow_trans : Transitive (Improved.records_grow (W:=W)).
Proof.
  intros s1 s2 s3 (Hp1 & Hs1 & Hd1) (Hp2 & Hs2 & Hd2). split; [| split].
  - by etrans.
  - set_solver.
  - auto.
Qed.

Lemma same_records_grow (s s' : Scraper W) : Improved.same_records s s' → Improved.records_grow s s'.
Proof.
  intros (_ & _ & _ & _ & Ha & Hs & _). unfold Improved.records_grow, Improved.distinct_records. rewrite Ha, Hs.
  split; [done | split; [done | auto]].
Qed.

Lemma page_result_nil (s s' : Scraper W) :
  Improved.same_records s s' → Improved.page_result s (Ok []) s'.
Proof.
  intros (_ & _ & _ & _ & Ha & Hs & _). split; [done |]. split; [by rewrite Hs |].
  intros r [= <-]. split; [constructor |]. intros k Hk. by apply elem_of_nil in Hk.
Qed.

Lemma page_result_raise (s s' : Scraper W) e :
  Improved.same_records s s' → Improved.page_result s (Raise e) s'.
Proof.
  intros (_ & _ & _ & _ & Ha & Hs & _). split; [done |]. split; [by rewrite Hs | done].
Qed.

Lemma extract_current_page_data_fresh (s : Scraper W) o s' :
  Improved.extract_current_page_data s = (o, s') → Improved.page_result s o s'.
Proof.
  unfold Improved.extract_current_page_data.
  assert (∀ (s1 : Scraper W) o1 s2,
            (logger ERROR "Error extracting data from page" ;; ret []) s1 = (o1, s2) →
            o1 = Ok ([] : list (gmap string pyval)) ∧ Improved.same_records s1 s2) as Hhandler.
  { intros s1 o1 s2 [= <- <-]. by repeat split. }
  unfold try_except, bind at 1, get_state.
  destruct (driver s) as [w |] eqn:Hw.
  2: { intros [= <- <-]. by apply page_result_nil. }
  unfold bind at 1.
  match goal with |- context [match ?m s with _ => _ end] =>
    assert (preserves Improved.same_records m) as Hm1
      by (destruct (current_page s <=? 3); solve_same_records);
    destruct (m s) as [[[] | e1] s1] eqn:Hshot; apply Hm1 in Hshot end.
  2: { destruct (is_Exception e1).
       - intros Hh. apply Hhandler in Hh as (-> & Hh).
         apply page_result_nil. by etrans.
       - intros [= <- <-]. by apply page_result_raise. }
  unfold bind at 1.
  destruct (Improved.extract_table_data s1) as [[table_data | e2] s2] eqn:Htable;
    apply (preserves_weaken _ _ only_browses_same_records _
             only_browses_extract_table_data) in Htable.
  2: { destruct (is_Exception e2).
       - intros Hh. apply Hhandler in Hh as (-> & Hh).
         apply page_result_nil. etrans; [done |]. by etrans.
       - intros [= <- <-]. apply page_result_raise. by etrans. }
  unfold bind at 1.
  match goal with |- context [match ?m s2 with _ => _ end] =>
    assert (preserves Improved.same_records m) as Hm3 by (destruct table_data; solve_same_records);
    destruct (m s2) as [[[] | e3] s3] eqn:Hlog; [apply Hm3 in Hlog |] end.
  2: { destruct table_data; discriminate. }
  unfold bind at 1.
  destruct (remove_duplicates_spec table_data [] s3)
    as (added & s4 & -> & Hsub & Hnd & Hfresh & Hseen & Ha4 & _ & _).
  cbn [app]. intros [= <- <-].
  assert (Improved.same_records s s3) as (_ & _ & _ & _ & Ha3 & Hs3 & _) by (etrans; [done |]; by etrans).
  split; [cbn; congruence |]. split; [cbn; set_solver |].
  intros r [= <-]. split; [done |].
  intros k Hk. split.
  - apply Hfresh in Hk. by rewrite Hs3 in Hk.
  - assert (k ∈ Improved.keys_of table_data) as Hin; [| cbn; set_solver].
    apply list_elem_of_fmap in Hk as (p & -> & Hp).
    apply list_elem_of_fmap_2. by eapply elem_of_sublist.
Qed.

End RunWideRecords.

Section RunWideRecords2.
Context {W E : Type} `{!Selenium W E} `{!PyRuntime}.
#[local] Existing Instances same_records_refl same_records_trans
  records_grow_refl records_grow_trans.

Lemma page_result_grow (s s1 : Scraper W) o :
  Improved.page_result s o s1 → Improved.records_grow s s1.
Proof.
  intros (Ha & Hs & _). split; [by rewrite Ha | split; [done |]].
  intros [Hnd Hin]. split; rewrite Ha; [done |]. set_solver.
Qed.

(** Adding the records of a page keeps the collected records distinct. *)
Lemma page_result_extend (s s1 : Scraper W) page_projects :
  Improved.page_result s (Ok page_projects) s1 →
  Improved.records_grow s (set_all_projects (all_projects s1 ++ page_projects) s1).
Proof.
  intros (Ha & Hs & Hfresh). destruct (Hfresh _ eq_refl) as [Hnd Hk].
  split; [| split].
  - cbn. rewrite Ha. by apply prefix_app_r.
  - done.
  - intros [Hnd0 Hin0]. split; cbn; rewrite Ha.
    + unfold Improved.keys_of. rewrite fmap_app. apply NoDup_app. split; [done |]. split; [| done].
      intros k Hk0 Hk1. apply Hin0 in Hk0. by apply Hk in Hk1 as [? _].
    + intros k. unfold Improved.keys_of. rewrite fmap_app, elem_of_app.
      intros [Hk0 | Hk1]; [apply Hs; by apply Hin0 | by apply Hk].
Qed.

Lemma records_grow_add_page {A} (m_empty : M (Scraper W) unit)
    (rest : list (gmap string pyval) → M (Scraper W) A) :
  preserves Improved.records_grow m_empty →
  (∀ page_projects, preserves Improved.records_grow (rest page_projects)) →
  preserves Improved.records_grow
    (do page_projects <- Improved.extract_current_page_data;
     match page_projects with
     | _ :: _ => Improved.extend_all_projects page_projects ;; logger INFO "Added projects"
     | [] => m_empty
     end ;;
     rest page_projects).
Proof.
  intros Hempty Hrest s o s'. unfold bind at 1.
  destruct (Improved.extract_current_page_data s) as [[page_projects | e] s1] eqn:Hpage;
    apply extract_current_page_data_fresh in Hpage.
  2: { intros [= <- <-]. by eapply page_result_grow. }
  destruct page_projects as [| project page_projects].
  - intros Hrun. etrans; [by eapply page_result_grow |].
    exact (preserves_bind _ _ _ Hempty (λ _, Hrest []) _ _ _ Hrun).
  - intros Hrun. etrans; [exact (page_result_extend _ _ _ Hpage) |].
    etrans; [| exact (Hrest _ _ _ _ Hrun)].
    apply same_records_grow. by repeat split.
Qed.

End RunWideRecords2.

(** Closes the leaves of a [Improved.records_grow] goal. *)
Ltac records_grow_leaf :=
  idtac;
  lazymatch goal with
  | |- preserves _ (bind Improved.extract_current_page_data _) =>
      apply records_grow_add_page; [| intros ?]
  | |- preserves _ (bind _ _) => fail
  | |- preserves _ (try_except _ _) => fail
  | |- preserves _ (match _ with _ => _ end) => fail
  | |- preserves _ Improved.navigate_to_next_page =>
      apply (preserves_weaken _ _ same_records_grow), same_records_navigate_to_next_page
  | |- preserves _ (ret _) => fail
  | |- preserves _ (lift_outcome _) => fail
  | |- preserves Improved.records_grow _ =>
      first [ solve [trivial]
            | apply (preserves_weaken _ _ same_records_grow); same_records_leaf ]
  end.

Ltac solve_records_grow := preserves_with records_grow_leaf.

Section RunWideRecords3.
Context {W E : Type} `{!Selenium W E} `{!PyRuntime}.
#[local] Existing Instances same_records_refl same_records_trans
  records_grow_refl records_grow_trans.

Lemma records_grow_scrape_remaining_pages remaining : ∀ page_num,
  preserves Improved.records_grow (Improved.scrape_remaining_pages (W:=W) remaining page_num).
Proof.
  induction remaining as [| remaining IH]; intros page_num;
    cbn [Improved.scrape_remaining_pages]; solve_records_grow.
Qed.

Lemma records_grow_scrape_all_pages max_pages :
  preserves Improved.records_grow (Improved.scrape_all_pages (W:=W) max_pages).
Proof.
  unfold Improved.scrape_all_pages.
  pose proof records_grow_scrape_remaining_pages. solve_records_grow.
Qed.

End RunWideRecords3.

Section RecordsOfTheRun.
Context {W E : Type} `{!Selenium W E} `{!PyRuntime}.
#[local] Existing Instances same_records_refl same_records_trans
  records_grow_refl records_grow_trans.

(** X1. The de-duplication loop of a page always ends normally.  The
    records it keeps are records of the page in the order of the page,
    no two of them have the same key, none has a key that was seen
    before, and after the loop the keys of all the records of the page
    are seen. *)
Theorem remove_duplicates_unique_keys (projects : list (gmap string pyval)) (s : Scraper W) :
  ∃ unique_projects s',
    Improved.remove_duplicates projects [] s = (Ok unique_projects, s') ∧
    unique_projects `sublist_of` projects ∧
    NoDup (Improved.keys_of unique_projects) ∧
    (∀ k, k ∈ Improved.keys_of unique_projects → k ∉ seen_project_ids s) ∧
    seen_project_ids s' = list_to_set (Improved.keys_of projects) ∪ seen_project_ids s.
Proof.
  destruct (remove_duplicates_spec projects [] s)
    as (added & s' & Hrun & Hsub & Hnd & Hfresh & Hseen & _).
  exists added, s'. by repeat split.
Qed.

(** X2. [extract_current_page_data] leaves the collected records alone
    and only adds to the seen keys.  The records it returns have keys
    that differ from each other, were not seen before the call and are
    seen after it; and it raises nothing but an interrupt. *)
Theorem extract_current_page_data_new_keys (s : Scraper W) :
  let run := Improved.extract_current_page_data s in
  all_projects run.2 = all_projects s ∧
  seen_project_ids s ⊆ seen_project_ids run.2 ∧
  match run.1 with
  | Ok page_projects =>
      NoDup (Improved.keys_of page_projects) ∧
      ∀ k, k ∈ Improved.keys_of page_projects →
           (k ∉ seen_project_ids s) ∧ (k ∈ seen_project_ids run.2)
  | Raise e => e = KeyboardInterrupt
  end.
Proof.
  cbv zeta.
  destruct (Improved.extract_current_page_data s) as [o s'] eqn:Hrun. cbn [fst snd].
  destruct (extract_current_page_data_fresh _ _ _ Hrun) as (Ha & Hs & Hfresh).
  split; [done |]. split; [done |].
  destruct o as [page_projects | e]; [by apply Hfresh |].
  unfold Improved.extract_current_page_data, try_except in Hrun.
  match type of Hrun with context [match ?body s with _ => _ end] =>
    destruct (body s) as [[r | e0] s0] end; [discriminate |].
  destruct (is_Exception e0) eqn:He0; [discriminate |].
  injection Hrun as <- _. by destruct e0.
Qed.

(** X3. [scrape_all_pages] never drops a record: whatever happens, the
    records collected before the call are still the first of the
    collected records after it; what it returns is the list of collected
    records; and it raises nothing but an interrupt. *)
Theorem scrape_all_pages_keeps_collected max_pages (s : Scraper W) :
  let run := Improved.scrape_all_pages max_pages s in
  all_projects s `prefix_of` all_projects run.2 ∧
  match run.1 with
  | Ok projects => projects = all_projects run.2
  | Raise e => e = KeyboardInterrupt
  end.
Proof.
  cbv zeta.
  destruct (Improved.scrape_all_pages max_pages s) as [o s'] eqn:Hrun. cbn [fst snd].
  split; [exact (proj1 (records_grow_scrape_all_pages _ _ _ _ Hrun)) |].
  unfold Improved.scrape_all_pages, try_except in Hrun.
  match type of Hrun with context [match ?body s with _ => _ end] =>
    destruct (body s) as [[r | e0] s0] eqn:Hbody end.
  - injection Hrun as <- <-.
    repeat (apply bind_inv_ok in Hbody as (? & ? & ? & Hbody)).
    injection Hbody as <- <-.
    match goal with Hg : get_state _ = (Ok _, _) |- _ => by injection Hg as <- <- end.
  - destruct (is_Exception e0) eqn:He0.
    + by injection Hrun as <- <-.
    + injection Hrun as <- _. by destruct e0.
Qed.

(** X4. The de-duplication holds for the whole run: if no two collected
    records have the same key and the keys of the collected records are
    seen, as in a new scraper, the same is true after [scrape_all_pages],
    however it ends. *)
Theorem scrape_all_pages_keeps_records_distinct max_pages (s : Scraper W) :
  Improved.distinct_records s →
  Improved.distinct_records (Improved.scrape_all_pages max_pages s).2.
Proof.
  destruct (Improved.scrape_all_pages max_pages s) as [o s'] eqn:Hrun. cbn [snd].
  exact (proj2 (proj2 (records_grow_scrape_all_pages _ _ _ _ Hrun))).
Qed.

End RecordsOfTheRun.

Section NavigationWithoutIndicator.
Context {W E : Type} `{!Selenium W E} `{!PyRuntime}.
#[local] Existing Instances same_records_refl same_records_trans.

Hypothesis no_indicator :
  ∀ (w : W) page_content,
    page_source w = Ok page_content →
    Improved.first_match Improved.page_patterns page_content = None.

(** Without an indicator on the page, what is read is the stored page. *)
Lemma get_current_page_number_stored (s : Scraper W) n s' :
  is_Some (driver s) →
  Improved.get_current_page_number s = (Ok n, s') → n = current_page s.
Proof.
  intros [w Hw]. unfold Improved.get_current_page_number, try_except, bind at 1, get_state.
  rewrite Hw. unfold bind at 1, read_driver. rewrite Hw.
  destruct (page_source w) as [page_content | e] eqn:Hsrc.
  - rewrite (no_indicator _ _ Hsrc). by intros [= <- <-].
  - destruct (is_Exception e); [| discriminate]. by intros [= <- <-].
Qed.

(** X5. On a portal none of whose pages shows a page indicator, no
    navigation method can confirm an advance: [navigate_to_next_page]
    never returns [True]. *)
Theorem navigate_needs_page_indicator (s : Scraper W) :
  (Improved.navigate_to_next_page s).1 ≠ Ok true.
Proof.
  destruct (Improved.navigate_to_next_page s) as [o s'] eqn:Hrun. cbn [fst].
  intros ->.
  pose proof (same_records_navigate_to_next_page _ _ _ Hrun) as Hsame.
  unfold Improved.navigate_to_next_page in Hrun.
  apply try_except_inv_ok in Hrun as [Hbody | (e & sx & _ & _ & Hh)]; [| discriminate].
  unfold bind at 1, get_state in Hbody.
  destruct (driver s) as [w |] eqn:Hdrv; [| discriminate].
  apply bind_inv_ok in Hbody as ([] & slog & Hlog & Hbody).
  injection Hlog as <-.
  apply bind_inv_ok in Hbody as (n0 & s0 & Hread & Hbody).
  apply bind_inv_ok in Hbody as (controls & s1 & Hctl & Hbody).
  change (foldr or_continue
            (logger ERROR "All navigation methods failed" ;; ret false)
            (Improved.navigation_methods n0 controls) s1 = (Ok true, s')) in Hbody.
  assert (n0 = current_page s) as ->.
  { apply get_current_page_number_stored in Hread; [done |]. cbn. by rewrite Hdrv. }
  assert (current_page s1 = current_page s) as Hpage1.
  { rewrite (keeps_page_find_pagination_controls _ _ _ Hctl).
    by rewrite (keeps_page_get_current_page_number _ _ _ Hread). }
  apply or_continue_chain_inv in Hbody
    as [(before & method & after & sk & Hsplit & Hft & Hmethod) | (sk & Hft & Hfinal)];
    [| discriminate].
  assert (Improved.verifies_advance (current_page s) method) as Hspec.
  { apply (verifies_advance_navigation_methods _ controls). rewrite Hsplit. set_solver. }
  destruct (Hspec _ _ _ Hmethod) as [_ [Hne (t & t' & Hreread & Hd & Hcur)]].
  apply Hne. apply get_current_page_number_stored in Hreread.
  - rewrite Hreread, Hcur, <- Hpage1.
    apply (fell_through_keeps_page (current_page s) before); [| done].
    intros blk Hblk. apply (verifies_advance_navigation_methods _ controls).
    rewrite Hsplit. set_solver.
  - rewrite Hd. apply Hsame. by rewrite Hdrv.
Qed.

End NavigationWithoutIndicator.

Section NavigationFrame.
Context {W E : Type} `{!Selenium W E} `{!PyRuntime}.

(** X6. [navigate_to_next_page] only browses: it keeps the collected
    records, the seen keys and the configuration of the scraper, a
    browser that is there stays there, and it raises nothing but an
    interrupt.  Without a browser it logs an error and returns [False]. *)
Theorem navigate_to_next_page_only_browses (s : Scraper W) :
  let run := Improved.navigate_to_next_page s in
  Improved.same_records s run.2 ∧
  match run.1 with
  | Ok _ => True
  | Raise e => e = KeyboardInterrupt
  end ∧
  (driver s = None →
   run = (Ok false, set_log (log s ++ [(ERROR, "WebDriver not initialized")]) s)).
Proof.
  cbv zeta. split; [| split].
  - destruct (Improved.navigate_to_next_page s) as [o s'] eqn:Hrun.
    exact (same_records_navigate_to_next_page _ _ _ Hrun).
  - destruct (Improved.navigate_to_next_page s) as [[b | e] s'] eqn:Hrun; [done |].
    cbn [fst]. unfold Improved.navigate_to_next_page, try_except in Hrun.
    match type of Hrun with context [match ?body s with _ => _ end] =>
      destruct (body s) as [[r | e0] s0] end; [discriminate |].
    destruct (is_Exception e0) eqn:He0; [discriminate |].
    injection Hrun as <- _. by destruct e0.
  - intros Hnone.
    unfold Improved.navigate_to_next_page, try_except, bind at 1, get_state.
    by rewrite Hnone.
Qed.

End NavigationFrame.

Section PageCountMore.
Context {W E : Type} `{!Selenium W E} `{!PyRuntime}.

(** X7. When the page shows no page indicator but a total of records,
    [get_total_records_and_pages] returns that total and the number of
    pages of ten records that hold it: enough pages for all the records,
    and no page more; the current page is 1. *)
Theorem total_pages_round_up (s : Scraper W) w page_content text n :
  driver s = Some w →
  page_source w = Ok page_content →
  Improved.first_match Improved.page_patterns page_content = None →
  Improved.first_match Improved.total_patterns page_content = Some [text] →
  py_int text = Some n →
  ∃ info total_pages,
    Improved.get_total_records_and_pages s =
      (Ok info, set_log (log s ++ [(INFO, "Found total records")]) s) ∧
    info !! "total_records" = Some (VInt n) ∧
    info !! "total_pages" = Some (VInt total_pages) ∧
    10 * (total_pages - 1) < n ≤ 10 * total_pages ∧
    info !! "current_page" = Some (VInt 1).
Proof.
  intros Hdrv Hsrc Hpage Htotal Hint.
  exists (Improved.pagination_info n ((n + 9) `div` 10) 1), ((n + 9) `div` 10).
  destruct (pagination_info_lookup n ((n + 9) `div` 10) 1) as (Hr & Hp & _ & Hc).
  split; [| split; [done | split; [done | split; [| done]]]].
  - unfold Improved.get_total_records_and_pages, try_except, bind, get_state.
    rewrite Hdrv. unfold read_driver. rewrite Hdrv, Hsrc, Hpage, Htotal.
    unfold lift_outcome, Improved.unpack_int. by rewrite Hint.
  - pose proof (Z.div_mod (n + 9) 10 ltac:(lia)).
    pose proof (Z.mod_pos_bound (n + 9) 10 ltac:(lia)). lia.
Qed.

(** X8. When the page shows a page indicator, the total of records is
    taken to be ten for every page, and the current page and the number
    of pages are the two numbers of the indicator. *)
Theorem page_indicator_gives_pages (s : Scraper W) w page_content a b current total :
  driver s = Some w →
  page_source w = Ok page_content →
  Improved.first_match Improved.page_patterns page_content = Some [a; b] →
  py_int a = Some current →
  py_int b = Some total →
  ∃ info,
    Improved.get_total_records_and_pages s =
      (Ok info, set_log (log s ++ [(INFO, "Found page info")]) s) ∧
    info !! "total_records" = Some (VInt (total * 10)) ∧
    info !! "total_pages" = Some (VInt total) ∧
    info !! "current_page" = Some (VInt current) ∧
    Improved.get_current_page_number s = (Ok current, s).
Proof.
  intros Hdrv Hsrc Hpage Ha Hb.
  exists (Improved.pagination_info (total * 10) total current).
  destruct (pagination_info_lookup (total * 10) total current) as (Hr & Hp & _ & Hc).
  split; [| split; [done | split; [done | split; [done |]]]].
  - unfold Improved.get_total_records_and_pages, try_except, bind, get_state.
    rewrite Hdrv. unfold read_driver. rewrite Hdrv, Hsrc, Hpage.
    unfold lift_outcome, Improved.unpack_two_ints. by rewrite Ha, Hb.
  - unfold Improved.get_current_page_number, try_except, bind, get_state.
    rewrite Hdrv. unfold read_driver. rewrite Hdrv, Hsrc, Hpage.
    unfold lift_outcome, Improved.unpack_two_ints. by rewrite Ha, Hb.
Qed.

(** X9. Without a browser the pagination information has no current
    page, so [scrape_all_pages] fails on the missing key: it logs the
    error, extracts nothing and returns the records collected before,
    with the total of records set to 0. *)
Theorem scrape_all_pages_without_driver max_pages (s : Scraper W) :
  driver s = None →
  Improved.scrape_all_pages max_pages s =
    (Ok (all_projects s),
     set_log (log s ++ [ (INFO, "Starting to scrape all pages...");
                         (ERROR, "Error during pagination scraping") ])
       (set_total_records 0 s)).
Proof.
  intros Hnone.
  unfold Improved.scrape_all_pages, Improved.get_total_records_and_pages, try_except,
    bind, logger, modify, get_state, ret, lift_outcome, Improved.int_item.
  cbn [driver set_log]. rewrite Hnone.
  assert (({[ "total_records" := VInt 0; "total_pages" := VInt 0;
              "items_per_page" := VInt 10 ]} : gmap string pyval) !! "total_records"
          = Some (VInt 0)) as -> by by simplify_map_eq.
  assert (({[ "total_records" := VInt 0; "total_pages" := VInt 0;
              "items_per_page" := VInt 10 ]} : gmap string pyval) !! "total_pages"
          = Some (VInt 0)) as -> by by simplify_map_eq.
  assert (({[ "total_records" := VInt 0; "total_pages" := VInt 0;
              "items_per_page" := VInt 10 ]} : gmap string pyval) !! "current_page"
          = None) as -> by by simplify_map_eq.
  cbn. unfold set_log, set_total_records; cbn. by rewrite <- app_assoc.
Qed.

End PageCountMore.

Section DownloaderMore.
Context `{!PyRuntime}.

(** X10. The probe answers [True] only for a document the server
    confirms: the HEAD request was answered with status 200 and a declared
    type or a URL suffix of a PDF, the GET request that followed with a
    success status and a body that starts with [%PDF]. *)
Theorem test_pdf_access_confirms_pdf pdf_url s reason s' :
  Downloader.test_pdf_access pdf_url s = (Ok (true, reason), s') →
  ∃ head_response get_response content,
    Downloader.server s (Downloader.requests s) (Downloader.Head pdf_url 30)
      = Ok head_response ∧
    Downloader.status_code head_response = 200 ∧
    Downloader.looks_like_pdf
      (lower (default EmptyString (Downloader.content_type head_response))) pdf_url = true ∧
    Downloader.server s (Downloader.requests s ++ [Downloader.Head pdf_url 30])
      (Downloader.Get pdf_url 30 true) = Ok get_response ∧
    ((400 <=? Downloader.status_code get_response) &&
     (Downloader.status_code get_response <? 600))%bool = false ∧
    Downloader.raw_read get_response = Ok content ∧
    startswith "%PDF" content = true ∧
    reason = "PDF content confirmed".
Proof.
  unfold Downloader.test_pdf_access, try_except, bind, Downloader.session_request,
    Downloader.raise_for_status, Downloader.logger, lift_outcome, modify, ret, raise.
  cbn [Downloader.server Downloader.requests Downloader.set_log Downloader.set_requests].
  intros Hrun.
  destruct (Downloader.server s (Downloader.requests s) (Downloader.Head pdf_url 30))
    as [head_response | e] eqn:Hhead.
  2: { destruct (is_Exception e); simplify_eq/=. }
  destruct (Downloader.status_code head_response =? 200) eqn:Hstatus; [| simplify_eq/=].
  apply Z.eqb_eq in Hstatus.
  destruct (Downloader.looks_like_pdf _ pdf_url) eqn:Hpdf; [| simplify_eq/=].
  cbn [Downloader.server Downloader.requests Downloader.set_log Downloader.set_requests]
    in Hrun.
  destruct (Downloader.server s (Downloader.requests s ++ [Downloader.Head pdf_url 30])
              (Downloader.Get pdf_url 30 true)) as [get_response | e] eqn:Hget.
  2: { destruct (is_Exception e); simplify_eq/=. }
  destruct (_ && _) eqn:Hok; [simplify_eq/= |].
  destruct (Downloader.raw_read get_response) as [content | e] eqn:Hraw.
  2: { destruct (is_Exception e); simplify_eq/=. }
  destruct (startswith "%PDF" content) eqn:Hstart; [| simplify_eq/=].
  injection Hrun as <- _.
  exists head_response, get_response, content. by repeat split.
Qed.

End DownloaderMore.

Section DownloaderMore2.
Context `{!PyRuntime}.
#[local] Existing Instances same_world_refl same_world_trans
  same_counters_refl same_counters_trans.


(** X12. When the session setup fails, the batch download stops there:
    no record is processed, the counters stay as they were, [total]
    included, no file is written, and the records come back unchanged. *)
Theorem download_aborts_without_session projects s s0 :
  Downloader.setup_session
    (Downloader.set_log
       (Downloader.log s ++ [(INFO, "Starting improved PDF download")]) s) = (Ok false, s0) →
  Downloader.download_pdfs_from_data projects s =
    (Ok (Downloader.stats s, projects),
     Downloader.set_log
       (Downloader.log s0 ++ [(ERROR, "Failed to setup session, aborting PDF downloads")]) s0) ∧
  Downloader.stats s0 = Downloader.stats s ∧
  Downloader.files s0 = Downloader.files s.
Proof.
  intros Hsetup.
  destruct (same_world_setup_session _ _ _ Hsetup) as (_ & _ & Hfiles & Hstats).
  split; [| by split].
  unfold Downloader.download_pdfs_from_data.
  unfold bind at 1, Downloader.logger at 1, modify. unfold bind at 1. rewrite Hsetup.
  cbn. by rewrite Hstats.
Qed.

(** X13. [download_pdf] returns a path only for a file that is there
    with content; it changes no counter, and raises nothing but an
    interrupt. *)
Theorem download_pdf_returns_file pdf_url project_info s :
  let run := Downloader.download_pdf pdf_url project_info s in
  match run.1 with
  | Ok (Some path) =>
      ∃ content, Downloader.files run.2 !! path = Some content ∧ content ≠ EmptyString
  | Ok None => True
  | Raise e => e = KeyboardInterrupt
  end ∧
  Downloader.stats run.2 = Downloader.stats s.
Proof.
  cbv zeta.
  destruct (Downloader.download_pdf pdf_url project_info s) as [o s'] eqn:Hrun.
  cbn [fst snd]. split.
  2: { by destruct (same_counters_download_pdf _ _ _ _ _ Hrun) as (_ & _ & ?). }
  destruct o as [[path |] | e]; [| done |].
  - apply download_pdf_success in Hrun as (filename & content & _ & _ & Hfile & Hne). eauto.
  - unfold Downloader.download_pdf, try_except in Hrun.
    match type of Hrun with context [match ?body s with _ => _ end] =>
      destruct (body s) as [[r | e0] s0] end; [discriminate |].
    destruct (is_Exception e0) eqn:He0; [discriminate |].
    injection Hrun as <- _. by destruct e0.
Qed.

(** X14. A record whose title is not text cannot be downloaded: making
    the file name raises, and [download_pdf] logs the error and returns
    [None] without a request. *)
Theorem download_pdf_title_not_text pdf_url project_info s title :
  project_info !! "title" = Some title →
  (∀ text, title ≠ VStr text) →
  Downloader.download_pdf pdf_url project_info s =
    (Ok None,
     Downloader.set_log
       (Downloader.log s ++ [(ERROR, "Error downloading PDF: Exception")]) s).
Proof.
  intros Htitle Hnot.
  unfold Downloader.download_pdf, try_except, bind at 1, lift_outcome,
    Downloader.pdf_filename, dict_get.
  rewrite Htitle. cbn [default from_option id].
  destruct title as [| z | text | l]; try done.
  by destruct (Hnot text).
Qed.

End DownloaderMore2.

Section DownloaderMore3.
Context `{!PyRuntime}.
#[local] Existing Instances same_world_refl same_world_trans
  same_counters_refl same_counters_trans.

(** X15. The happy path of [download_pdf]: no file is there yet, the
    probe succeeds, and the download is answered with a success status
    and a body that starts with [%PDF] and streams to its end.  Then the
    file holds the body as it was served, the path is returned, the
    download was the one request made after the probe, and the last
    line logged is the success. *)
Theorem download_pdf_saves_body s pdf_url project_info filename reason s1 response :
  Downloader.pdf_filename pdf_url project_info = Ok filename →
  Downloader.no_file_yet (path_join (Downloader.pdf_dir s) filename) s →
  Downloader.test_pdf_access pdf_url (Downloader.announced filename pdf_url s)
    = (Ok (true, reason), s1) →
  Downloader.server s1 (Downloader.requests s1) (Downloader.Get pdf_url 60 true)
    = Ok response →
  ((400 <=? Downloader.status_code response) &&
   (Downloader.status_code response <? 600))%bool = false →
  Downloader.looks_like_pdf
    (lower (default EmptyString (Downloader.content_type response))) pdf_url = true →
  (∀ text, Downloader.content_length response = Some text → is_Some (py_int text)) →
  Downloader.stream_error response = None →
  startswith "%PDF"
    (String.substring 0 4 (concat_chunks (Downloader.chunks response))) = true →
  ∃ s',
    Downloader.download_pdf pdf_url project_info s =
      (Ok (Some (path_join (Downloader.pdf_dir s) filename)), s') ∧
    Downloader.files s' !! path_join (Downloader.pdf_dir s) filename =
      Some (concat_chunks (Downloader.chunks response)) ∧
    Downloader.requests s' = Downloader.requests s1 ++ [Downloader.Get pdf_url 60 true] ∧
    last (Downloader.log s') = Some (INFO, "PDF downloaded successfully: " +:+ filename).
Proof.
  intros Hname Hnone Hprobe Hget Hstatus Hpdf Hlen Hstream Hheader.
  destruct (fetch_pdf_streams s pdf_url filename
              (path_join (Downloader.pdf_dir s) filename) reason s1 response
              Hprobe Hget Hstatus Hpdf Hlen Hstream) as (s2 & Hfile & Hreq & Hfetch).
  rewrite (download_pdf_no_file _ _ _ _ Hname Hnone). unfold try_except. rewrite Hfetch.
  unfold Downloader.verify_download, bind, get_state. rewrite Hfile.
  unfold default. cbn [from_option id].
  destruct (String.length (concat_chunks (Downloader.chunks response)) =? 0)%nat eqn:Hzero.
  { apply string_length_zero in Hzero. rewrite Hzero in Hheader. discriminate. }
  rewrite Hheader. cbn.
  eexists. split; [reflexivity |]. cbn. split; [done |]. split; [done |].
  apply last_snoc.
Qed.

End DownloaderMore3.

(** Closes the leaves of a [same_counters] goal. *)
Ltac downloader_counters_leaf :=
  first [ apply same_counters_modify_files
        | apply (preserves_weaken _ _ same_world_counters);
          first [ apply same_world_logger | apply same_world_session_request
                | apply same_world_raise_for_status | apply same_world_test_pdf_access ]
        | done ].

Section DownloaderMore4.
Context `{!PyRuntime}.
#[local] Existing Instances same_world_refl same_world_trans
  same_counters_refl same_counters_trans.

(** The loop over the links returns the path of a download that
    succeeded, as the last thing it did. *)
Lemma try_links_success links project : ∀ s path s',
  Downloader.try_links links project s = (Ok (Some path), s') →
  ∃ url sx, VStr url ∈ links ∧
            Downloader.download_pdf url project sx = (Ok (Some path), s').
Proof.
  induction links as [| pdf_url rest IH]; intros s path s' Hrun;
    cbn [Downloader.try_links] in Hrun; [discriminate |].
  assert (∀ sx, Downloader.try_links rest project sx = (Ok (Some path), s') →
          ∃ url sy, VStr url ∈ pdf_url :: rest ∧
                    Downloader.download_pdf url project sy = (Ok (Some path), s')) as Hrest.
  { intros sx Hx. destruct (IH _ _ _ Hx) as (url & sy & Hin & Hd).
    exists url, sy. split; [by apply list_elem_of_further | done]. }
  destruct (truthy pdf_url); [| by eapply Hrest].
  apply bind_inv_ok in Hrun as (pdf_path & s1 & Hdown & Hrun).
  destruct pdf_path as [p |]; [| by eapply Hrest].
  destruct (truthy (VStr p)); [| by eapply Hrest].
  injection Hrun as <- <-.
  destruct pdf_url as [| z | url | l].
  - apply bind_inv_ok in Hdown as (? & ? & _ & Hdown). discriminate.
  - apply bind_inv_ok in Hdown as (? & ? & _ & Hdown). discriminate.
  - exists url, s. split; [apply list_elem_of_here | done].
  - apply bind_inv_ok in Hdown as (? & ? & _ & Hdown). discriminate.
Qed.

(** No [Exception] leaves the loop over the links. *)
Lemma catches_try_links links project :
  catches_exceptions (Downloader.try_links links project).
Proof.
  assert (∀ url, catches_exceptions (Downloader.download_pdf url project)) as Hd.
  { intros url. unfold Downloader.download_pdf.
    apply catches_try_except. intros e. apply catches_bind; [| intros _; apply catches_ret].
    by intros ? ? ?. }
  induction links as [| pdf_url rest IH]; cbn [Downloader.try_links]; [apply catches_ret |].
  destruct (truthy pdf_url); [| done].
  apply catches_bind.
  - destruct pdf_url; try done;
      (apply catches_bind; [by intros ? ? ? | intros _; apply catches_ret]).
  - intros [path |]; [| done]. destruct (truthy (VStr path)); [apply catches_ret | done].
Qed.

(** X16. What the batch loop does to one record.  Either the record is
    counted as downloaded, and then its [pdf_file_path] is the path of a
    file that is there with content; or it is not, and then its
    [pdf_file_path] is as it was. *)
Theorem process_project_marks_downloads i project s project' s' :
  Downloader.process_project i project s = (Ok project', s') →
  (Downloader.downloaded (Downloader.stats s') = Downloader.downloaded (Downloader.stats s) + 1 ∧
   ∃ path content,
     project' !! "pdf_file_path" = Some (VStr path) ∧
     Downloader.files s' !! path = Some content ∧ content ≠ EmptyString) ∨
  (Downloader.downloaded (Downloader.stats s') = Downloader.downloaded (Downloader.stats s) ∧
   project' !! "pdf_file_path" = project !! "pdf_file_path").
Proof.
  unfold Downloader.process_project. intros Hrun.
  pose proof same_counters_try_links as Htry.
  assert (∀ A (m : M Downloader.ImprovedPDFDownloader A) sa o sb,
            preserves Downloader.same_counters m → m sa = (o, sb) →
            Downloader.stats sb = Downloader.stats sa) as Hstats.
  { intros A m sa o sb Hm Hms. by destruct (Hm _ _ _ Hms) as (_ & _ & ?). }
  assert (∀ document_url pdf_links links project1,
            Downloader.insert_document_url document_url pdf_links project
              = Ok (links, project1) →
            project1 !! "pdf_file_path" = project !! "pdf_file_path") as Hinsert.
  { intros document_url pdf_links links project1. unfold Downloader.insert_document_url.
    destruct pdf_links; try discriminate.
    destruct (project !! "pdf_links"); intros [= <- <-]; [| done].
    by rewrite lookup_insert_ne. }
  apply try_except_inv_ok in Hrun as [Hbody | (e & sx & Hbody & He & Hh)].
  - apply bind_inv_ok in Hbody as ([] & s1 & Hprogress & Hbody).
    apply Hstats in Hprogress;
      [| destruct (i mod 5 =? 0)%nat; preserves_with downloader_counters_leaf].
    apply bind_inv_ok in Hbody as ([pdf_links project1] & s2 & Hlinks & Hbody).
    assert (s2 = s1 ∧ project1 !! "pdf_file_path" = project !! "pdf_file_path") as [-> Hkey].
    { destruct (truthy (dict_get project "document_url" (VStr EmptyString))).
      - unfold lift_outcome in Hlinks.
        destruct (Downloader.insert_document_url _ _ _) as [[l p] | e] eqn:Hins;
          [| discriminate].
        injection Hlinks as -> -> ->. split; [done |]. by eapply Hinsert.
      - by injection Hlinks as <- <- <-. }
    destruct (negb (truthy pdf_links)).
    { apply bind_inv_ok in Hbody as ([] & s3 & Hlog & Hbody).
      injection Hlog as <-. injection Hbody as <- <-. right. cbn. split; [congruence | done]. }
    apply bind_inv_ok in Hbody as (links & s3 & Hiter & Hbody).
    unfold lift_outcome in Hiter. assert (s3 = s1) as -> by by case_match; simplify_eq.
    apply bind_inv_ok in Hbody as (pdf_path & s4 & Hdown & Hbody).
    pose proof (Hstats _ _ _ _ _ (Htry links project1) Hdown) as Hst4.
    destruct pdf_path as [path |].
    + injection Hbody as <- <-. left. cbn. split; [congruence |].
      apply try_links_success in Hdown as (url & sx & _ & Hdown).
      apply download_pdf_success in Hdown as (filename & content & _ & _ & Hfile & Hne).
      exists path, content. split; [apply lookup_insert_eq | done].
    + injection Hbody as <- <-. right. cbn. split; [congruence | done].
  - right. injection Hh as <- <-. split; [| done]. cbn.
    revert Hbody.
    match goal with |- ?m s = _ → _ =>
      assert (Downloader.counts_once m) as Hc end.
    { apply counts_once_bind.
      { preserves_with downloader_counters_leaf. }
      intros _.
      apply counts_once_bind.
      { preserves_with downloader_counters_leaf. }
      intros [pdf_links project'0].
      destruct (negb (truthy pdf_links)).
      + apply counts_once_bind.
        { preserves_with downloader_counters_leaf. }
        intros _. apply counts_once_skipped.
      + apply counts_once_bind.
        { preserves_with downloader_counters_leaf. }
        intros links.
        apply counts_once_bind; [done |]. intros [path |].
        * apply counts_once_downloaded.
        * apply counts_once_failed. }
    intros Hbody. apply Hc in Hbody. cbn in Hbody. by rewrite Hbody.
Qed.

(** X17. The batch loop changes the records it is given: for a record
    with a document URL and a list of links, the URL is put in front of
    the list of the record, whatever comes of the download. *)
Theorem process_project_prepends_document_url i project s project' s' url links :
  project !! "document_url" = Some (VStr url) →
  url ≠ EmptyString →
  project !! "pdf_links" = Some (VList links) →
  Downloader.process_project i project s = (Ok project', s') →
  project' !! "pdf_links" = Some (VList (VStr url :: links)).
Proof.
  intros Hurl Hne Hlinks. unfold Downloader.process_project, dict_get.
  rewrite Hurl, Hlinks. cbn [default from_option id truthy].
  destruct (String.eqb_spec url EmptyString) as [-> | _]; [done |]. cbn [negb].
  unfold Downloader.insert_document_url. rewrite Hlinks. cbn [lift_outcome].
  unfold try_except, bind at 1.
  match goal with |- context [match ?m s with _ => _ end] =>
    assert (∃ s1, m s = (Ok tt, s1)) as [s1 ->]
      by (destruct (i mod 5 =? 0)%nat; by eexists) end.
  unfold bind at 1, lift_outcome. cbn [truthy negb Downloader.iterate].
  unfold bind at 1. unfold bind at 1.
  destruct (Downloader.try_links (VStr url :: links) _ s1) as [[[path |] | e] s2] eqn:Hdown.
  - intros [= <- <-]. rewrite lookup_insert_ne by done. apply lookup_insert_eq.
  - intros [= <- <-]. apply lookup_insert_eq.
  - apply catches_try_links in Hdown. rewrite Hdown. discriminate.
Qed.

End DownloaderMore4.

Section RecordIdentity.
Context {W E : Type} `{!Selenium W E} `{!PyRuntime}.
#[local] Existing Instances only_browses_refl only_browses_trans
  only_browses_local_refl only_browses_local_trans.

#[local] Instance keeps_identity_refl : Reflexive (Improved.keeps_identity (W:=W)).
Proof. by intros [s l]. Qed.

#[local] Instance keeps_identity_trans : Transitive (Improved.keeps_identity (W:=W)).
Proof.
  intros [s1 l1] [s2 l2] [s3 l3] [? (? & ? & ?)] [? (? & ? & ?)].
  split; [by etrans |]. unfold Improved.same_identity in *. cbn in *. repeat split; congruence.
Qed.

Lemma keeps_identity_in_object {A} (m : M (Scraper W) A) :
  preserves Improved.only_browses m → preserves Improved.keeps_identity (in_object m).
Proof.
  intros Hm [s l] o [s' l']. unfold in_object.
  destruct (m s) as [o' s1] eqn:Hms. intros [= <- <- <-].
  split; [exact (Hm _ _ _ Hms) | done].
Qed.

Lemma keeps_identity_modify_local (f : gmap string pyval → gmap string pyval) :
  (∀ project, Improved.same_identity project (f project)) →
  preserves (Improved.keeps_identity (W:=W)) (modify_local f).
Proof. intros Hf [s l] o [s' l'] [= <- <- <-]. split; [done | apply Hf]. Qed.

Lemma same_identity_add_pdf_link href project :
  Improved.same_identity project (Improved.add_pdf_link href project).
Proof.
  unfold Improved.add_pdf_link, Improved.same_identity.
  repeat case_match; rewrite ?lookup_insert_ne by done; done.
Qed.

Lemma same_identity_set_pdf_links links project :
  Improved.same_identity project (Improved.set_pdf_links links project).
Proof.
  unfold Improved.set_pdf_links, Improved.same_identity.
  destruct links; rewrite ?lookup_insert_ne by done; done.
Qed.

Lemma same_identity_field k text project :
  Improved.same_identity project
    match Improved.field_of_cell k with
    | Some field => <[field := VStr text]> project
    | None => project
    end.
Proof.
  unfold Improved.same_identity.
  do 6 (destruct k as [| k]; [cbn; by rewrite !lookup_insert_ne by done |]). done.
Qed.

End RecordIdentity.

(** Closes the leaves of a [Improved.keeps_identity] goal. *)
Ltac keeps_identity_leaf :=
  idtac;
  lazymatch goal with
  | |- preserves _ (Improved.reading _) =>
      apply keeps_identity_in_object, only_browses_read_driver
  | |- preserves _ (in_object _) => apply keeps_identity_in_object; solve_only_browses
  | |- preserves _ (modify_local (Improved.add_pdf_link _)) =>
      apply keeps_identity_modify_local; intros ?; apply same_identity_add_pdf_link
  | |- preserves _ (modify_local (Improved.set_pdf_links _)) =>
      apply keeps_identity_modify_local; intros ?; apply same_identity_set_pdf_links
  | |- preserves _ (modify_local _) =>
      apply keeps_identity_modify_local; intros ?; apply same_identity_field
  | |- preserves _ (bind _ _) => fail
  | |- preserves _ (try_except _ _) => fail
  | |- preserves _ (match _ with _ => _ end) => fail
  | |- preserves _ (ret _) => fail
  | |- preserves _ _ => solve [trivial]
  end.

Ltac solve_keeps_identity := preserves_with keeps_identity_leaf.

Section RecordIdentity2.
Context {W E : Type} `{!Selenium W E} `{!PyRuntime}.
#[local] Existing Instances only_browses_refl only_browses_trans
  only_browses_local_refl only_browses_local_trans keeps_identity_refl keeps_identity_trans.

Lemma keeps_identity_read_cells cells : ∀ k,
  preserves Improved.keeps_identity (Improved.read_cells (W:=W) k cells).
Proof.
  induction cells as [| cell rest IH]; intros k; cbn [Improved.read_cells]; solve_keeps_identity.
Qed.

Lemma keeps_identity_scan_cell_links links :
  preserves Improved.keeps_identity (Improved.scan_cell_links (W:=W) links).
Proof.
  induction links as [| link rest IH]; cbn [Improved.scan_cell_links]; solve_keeps_identity.
Qed.

Lemma keeps_identity_scan_cells cells :
  preserves Improved.keeps_identity (Improved.scan_cells (W:=W) cells).
Proof.
  pose proof keeps_identity_scan_cell_links.
  induction cells as [| cell rest IH]; cbn [Improved.scan_cells]; solve_keeps_identity.
Qed.

Lemma keeps_identity_first_href links :
  preserves Improved.keeps_identity (Improved.first_href (W:=W) links).
Proof.
  induction links as [| link rest IH]; cbn [Improved.first_href]; solve_keeps_identity.
Qed.

Lemma keeps_identity_open_documents_dialog button :
  preserves Improved.keeps_identity (Improved.open_documents_dialog (W:=W) button).
Proof.
  unfold Improved.open_documents_dialog.
  pose proof only_browses_find_dialog. pose proof only_browses_find_pdf_links_in_dialog.
  pose proof only_browses_close_dialog.
  solve_keeps_identity.
Qed.

Lemma keeps_identity_scan_buttons buttons :
  preserves Improved.keeps_identity (Improved.scan_buttons (W:=W) buttons).
Proof.
  pose proof keeps_identity_open_documents_dialog. pose proof keeps_identity_first_href.
  induction buttons as [| button rest IH]; cbn [Improved.scan_buttons]; solve_keeps_identity.
Qed.

(** A record [extract_row] emits says where it was found, whatever the
    cells, links and buttons of the row held. *)
Lemma extract_row_identity i j row (s : Scraper W) project s' :
  Improved.extract_row i j row s = (Ok (Some project), s') →
  project !! "id" =
    Some (VStr ("page_" +:+ pretty (current_page s) +:+ "_table_" +:+ pretty (i + 1)%nat +:+
                "_row_" +:+ pretty j)) ∧
  project !! "page_number" = Some (VInt (current_page s)) ∧
  project !! "source" = Some (VStr "improved_pagination_table") ∧
  (truthy (dict_get project "title" VNone) ||
   truthy (dict_get project "description" VNone))%bool = true.
Proof.
  unfold Improved.extract_row. intros Hrun.
  apply bind_inv_ok in Hrun as (cells & s0 & Hcells & Hrun).
  assert (s0 = s) as ->.
  { unfold read_driver in Hcells. by destruct (driver s); simplify_eq. }
  destruct (2 <=? length cells)%nat; [| discriminate].
  unfold bind at 1, get_state in Hrun.
  apply bind_inv_ok in Hrun as ([[] project0] & s1 & Hlocal & Hrun).
  destruct (truthy _ || truthy _)%bool eqn:Htruthy; [| discriminate].
  injection Hrun as <- <-.
  unfold with_local in Hlocal.
  match type of Hlocal with context [?m (s, ?init)] =>
    assert (preserves Improved.keeps_identity m) as Hm;
    [| destruct (m (s, init)) as [o [s2 l]] eqn:Hms; apply Hm in Hms as [_ (Hid & Hpage & Hsrc)] ]
  end.
  { pose proof keeps_identity_read_cells. pose proof only_browses_find_pdf_links_in_table.
    pose proof keeps_identity_scan_cells. pose proof keeps_identity_scan_buttons.
    solve_keeps_identity. }
  destruct o as [[] | e]; [| discriminate]. injection Hlocal as <- <-.
  cbn [snd] in Hid, Hpage, Hsrc. rewrite Hid, Hpage, Hsrc.
  unfold Improved.new_project. by simplify_map_eq.
Qed.

Lemma extract_rows_identity i rows : ∀ j (s : Scraper W) projects s',
  Improved.extract_rows i j rows s = (Ok projects, s') →
  ∀ project, project ∈ projects →
    ∃ j', (j ≤ j')%nat ∧ Improved.found_at (current_page s) (i + 1) j' project.
Proof.
  induction rows as [| row rest IH]; intros j s projects s' Hrun;
    cbn [Improved.extract_rows] in Hrun.
  - injection Hrun as <- <-. intros project Hin. by apply elem_of_nil in Hin.
  - apply bind_inv_ok in Hrun as (found & s1 & Hrow & Hrun).
    apply bind_inv_ok in Hrun as (more & s2 & Hrest & Hrun).
    injection Hrun as <- <-.
    assert (current_page s1 = current_page s) as Hpage.
    { revert Hrow.
      match goal with |- ?m s = _ → _ => assert (preserves Improved.only_browses m) as Hm end.
      { pose proof only_browses_extract_row. solve_only_browses. }
      intros Hrow. by destruct (Hm _ _ _ Hrow) as (_ & _ & _ & _ & _ & _ & ? & _). }
    assert (∀ project, project ∈ more →
              ∃ j', (j ≤ j')%nat ∧ Improved.found_at (current_page s) (i + 1) j' project) as Hmore.
    { intros project Hin. destruct (IH _ _ _ _ Hrest project Hin) as (j' & Hle & Hat).
      exists j'. rewrite <- Hpage. split; [lia | done]. }
    destruct found as [project0 |]; [| done].
    intros project Hin. apply elem_of_cons in Hin as [-> | Hin]; [| by apply Hmore].
    exists j. split; [done |].
    apply try_except_inv_ok in Hrow as [Hrow | (e & sx & _ & _ & Hh)]; [| discriminate].
    exact (extract_row_identity _ _ _ _ _ _ Hrow).
Qed.

Lemma extract_tables_identity tables : ∀ i (s : Scraper W) projects s',
  Improved.extract_tables i tables s = (Ok projects, s') →
  ∀ project, project ∈ projects →
    ∃ i' j, (i < i')%nat ∧ (1 ≤ j)%nat ∧ Improved.found_at (current_page s) i' j project.
Proof.
  induction tables as [| table rest IH]; intros i s projects s' Hrun;
    cbn [Improved.extract_tables] in Hrun.
  - injection Hrun as <- <-. intros project Hin. by apply elem_of_nil in Hin.
  - apply bind_inv_ok in Hrun as (found & s1 & Htable & Hrun).
    apply bind_inv_ok in Hrun as (more & s2 & Hrest & Hrun).
    injection Hrun as <- <-.
    assert (current_page s1 = current_page s) as Hpage.
    { revert Htable.
      match goal with |- ?m s = _ → _ => assert (preserves Improved.only_browses m) as Hm end.
      { pose proof only_browses_extract_rows. solve_only_browses. }
      intros Htable. by destruct (Hm _ _ _ Htable) as (_ & _ & _ & _ & _ & _ & ? & _). }
    intros project Hin. apply elem_of_app in Hin as [Hin | Hin].
    + apply try_except_inv_ok in Htable as [Htable | (e & sx & _ & _ & Hh)].
      2: { injection Hh as <- _. by apply elem_of_nil in Hin. }
      apply bind_inv_ok in Htable as (rows & s0 & Hrows & Htable).
      assert (s0 = s) as ->.
      { unfold read_driver in Hrows. by destruct (driver s); simplify_eq. }
      destruct (1 <? length rows)%nat.
      2: { injection Htable as <- _. by apply elem_of_nil in Hin. }
      apply bind_inv_ok in Htable as ([] & s3 & Hlog & Htable).
      injection Hlog as <-.
      destruct (extract_rows_identity _ _ _ _ _ _ Htable project Hin) as (j & Hle & Hat).
      exists (i + 1)%nat, j. split; [lia |]. split; [done |]. exact Hat.
    + destruct (IH _ _ _ _ Hrest project Hin) as (i' & j & Hlt & Hle & Hat).
      exists i', j. rewrite <- Hpage. split; [lia |]. by split.
Qed.

(** X18. The records [extract_table_data] returns say where they were
    found: the [id] of each is made of the stored page, the number of a
    table and the number of a row, both counted from 1, its
    [page_number] is the stored page and its [source] the name of the
    extractor, whatever the cells, links and buttons of the row held;
    and each has a title or a description. *)
Theorem extract_table_data_identity (s : Scraper W) projects s' :
  Improved.extract_table_data s = (Ok projects, s') →
  ∀ project, project ∈ projects →
    ∃ i j, (1 ≤ i)%nat ∧ (1 ≤ j)%nat ∧ Improved.found_at (current_page s) i j project.
Proof.
  unfold Improved.extract_table_data. intros Hrun project Hin.
  apply try_except_inv_ok in Hrun as [Hrun | (e & sx & _ & _ & Hh)].
  2: { injection Hh as <- _. by apply elem_of_nil in Hin. }
  unfold bind at 1, get_state in Hrun.
  destruct (driver s) as [w |] eqn:Hw.
  2: { injection Hrun as <- _. by apply elem_of_nil in Hin. }
  apply bind_inv_ok in Hrun as (tables & s0 & Htables & Hrun).
  assert (s0 = s) as ->.
  { unfold read_driver in Htables. rewrite Hw in Htables. by simplify_eq. }
  destruct (extract_tables_identity _ _ _ _ _ Hrun project Hin) as (i & j & Hlt & Hle & Hat).
  exists i, j. split; [lia |]. by split.
Qed.

(** X19. The extraction of the tables only browses: it changes nothing
    of the scraper but the browser and the log, a browser that is there
    stays there, and it raises nothing but an interrupt.  Without a
    browser it returns no record and changes nothing. *)
Theorem extract_table_data_only_browses (s : Scraper W) :
  let run := Improved.extract_table_data s in
  Improved.only_browses s run.2 ∧
  match run.1 with
  | Ok _ => True
  | Raise e => e = KeyboardInterrupt
  end ∧
  (driver s = None → run = (Ok [], s)).
Proof.
  cbv zeta. split; [| split].
  - destruct (Improved.extract_table_data s) as [o s'] eqn:Hrun.
    exact (only_browses_extract_table_data _ _ _ Hrun).
  - destruct (Improved.extract_table_data s) as [[b | e] s'] eqn:Hrun; [done |].
    cbn [fst]. unfold Improved.extract_table_data, try_except in Hrun.
    match type of Hrun with context [match ?body s with _ => _ end] =>
      destruct (body s) as [[r | e0] s0] end; [discriminate |].
    destruct (is_Exception e0) eqn:He0; [discriminate |].
    injection Hrun as <- _. by destruct e0.
  - intros Hnone.
    unfold Improved.extract_table_data, try_except, bind at 1, get_state.
    by rewrite Hnone.
Qed.

End RecordIdentity2.

Section ControlsFound.
Context {W E : Type} `{!Selenium W E} `{!PyRuntime}.

Lemma first_element_found test (elements : list E) (w : W) element :
  Improved.first_element test elements w = Ok (Some element) →
  element ∈ elements ∧ test element w = Ok true.
Proof.
  induction elements as [| x rest IH]; cbn [Improved.first_element]; [discriminate |].
  destruct (test x w) as [[] | e] eqn:Htest; [| | discriminate].
  - intros [= <-]. split; [apply list_elem_of_here | done].
  - intros Hrest. destruct (IH Hrest). split; [by apply list_elem_of_further | done].
Qed.

Lemma find_control_found test found_msg error_msg selectors : ∀ (s : Scraper W) o s',
  Improved.find_control test found_msg error_msg selectors s = (o, s') →
  driver s' = driver s ∧
  ∀ element, o = Ok (Some element) →
    ∃ w, driver s = Some w ∧ test element w = Ok true.
Proof.
  induction selectors as [| selector rest IH]; intros s o s';
    cbn [Improved.find_control].
  - intros [= <- <-]. split; [done |]. discriminate.
  - match goal with |- _ → ?concl => set (P := concl) end.
    assert (∀ l, Improved.find_control test found_msg error_msg rest (set_log l s) = (o, s') →
              P) as Hrest.
    { intros l Hrun. by apply IH in Hrun. }
    assert (∀ e : exn, o = Raise e → s' = s → P) as Hraise.
    { intros e -> ->. split; [done |]. discriminate. }
    assert (∀ element l w, driver s = Some w → test element w = Ok true →
              o = Ok (Some element) → s' = set_log l s → P) as Hfound.
    { intros element l w Hw Htest -> ->. split; [done |]. intros ? [= <-]. eauto. }
    clearbody P.
    unfold bind at 1, try_except, bind at 1, read_driver.
    destruct (driver s) as [w |] eqn:Hw.
    2: { cbn. apply Hrest. }
    destruct (find_elements _ selector w) as [elements | e].
    2: { destruct (is_Exception e) eqn:He; cbn; [apply Hrest |].
         intros [= <- <-]. by eapply Hraise. }
    unfold bind at 1. rewrite Hw.
    destruct (Improved.first_element test elements w) as [[element |] | e] eqn:Hfirst.
    + cbn. intros [= <- <-].
      apply first_element_found in Hfirst as [_ Htest]. by eapply Hfound.
    + cbn. rewrite <- (set_log_same s) at 1. apply Hrest.
    + destruct (is_Exception e) eqn:He; cbn; [apply Hrest |].
      intros [= <- <-]. by eapply Hraise.
Qed.

Lemma find_page_links_found selectors : ∀ (s : Scraper W) o s',
  Improved.find_page_links selectors s = (o, s') →
  driver s' = driver s ∧ ∀ links, o = Ok (Some links) → links ≠ [].
Proof.
  induction selectors as [| selector rest IH]; intros s o s';
    cbn [Improved.find_page_links].
  - intros [= <- <-]. split; [done |]. discriminate.
  - match goal with |- _ → ?concl => set (P := concl) end.
    assert (∀ l, Improved.find_page_links rest (set_log l s) = (o, s') → P) as Hrest.
    { intros l Hrun. by apply IH in Hrun. }
    assert (∀ e : exn, o = Raise e → s' = s → P) as Hraise.
    { intros e -> ->. split; [done |]. discriminate. }
    assert (∀ link links l, o = Ok (Some (link :: links)) → s' = set_log l s → P) as Hfound.
    { intros link links l -> ->. split; [done |]. by intros ? [= <-]. }
    clearbody P.
    unfold bind at 1, try_except, bind at 1, read_driver.
    destruct (driver s) as [w |] eqn:Hw.
    2: { cbn. apply Hrest. }
    destruct (find_elements _ selector w) as [[| link links] | e].
    + cbn. rewrite <- (set_log_same s) at 1. apply Hrest.
    + cbn. intros [= <- <-]. by eapply Hfound.
    + destruct (is_Exception e); cbn; [apply Hrest |].
      intros [= <- <-]. by eapply Hraise.
Qed.

(** X20. The controls [find_pagination_controls] returns were looked
    at in the browser as it is: a next button it returns is displayed
    and enabled there, a page input is displayed, and a list of page
    links is not empty; the search changes nothing in the browser. *)
Theorem find_pagination_controls_found (s : Scraper W) controls s' :
  Improved.find_pagination_controls s = (Ok controls, s') →
  driver s' = driver s ∧
  (∀ button, Improved.next_button controls = Some button →
     ∃ w, driver s = Some w ∧ displayed_and_enabled button w = Ok true) ∧
  (∀ input, Improved.page_input controls = Some input →
     ∃ w, driver s = Some w ∧ is_displayed input w = Ok true) ∧
  (∀ links, Improved.page_links controls = Some links → links ≠ []).
Proof.
  unfold Improved.find_pagination_controls. intros Hrun.
  apply try_except_inv_ok in Hrun as [Hrun | (e & sx & Hbody & _ & Hh)].
  - unfold bind at 1, get_state in Hrun.
    destruct (driver s) as [w |] eqn:Hw.
    2: { injection Hrun as <- <-. by repeat split. }
    apply bind_inv_ok in Hrun as (nb & s1 & Hnb & Hrun).
    apply bind_inv_ok in Hrun as (pi & s2 & Hpi & Hrun).
    apply bind_inv_ok in Hrun as (pl & s3 & Hpl & Hrun).
    injection Hrun as <- <-.
    apply find_control_found in Hnb as [Hd1 Hnb].
    apply find_control_found in Hpi as [Hd2 Hpi].
    apply find_page_links_found in Hpl as [Hd3 Hpl].
    cbn. split; [congruence |]. split; [| split].
    + intros button ->. rewrite <- Hw. by apply Hnb.
    + intros input ->. rewrite <- Hw, <- Hd1. by apply Hpi.
    + intros links ->. by apply Hpl.
  - injection Hh as <- <-. cbn.
    assert (driver sx = driver s) as Hd.
    { revert Hbody. unfold bind at 1, get_state.
      destruct (driver s) as [w |] eqn:Hw; [| discriminate].
      unfold bind at 1.
      destruct (Improved.find_control _ _ _ _ s) as [[nb | e1] s1] eqn:Hnb;
        apply find_control_found in Hnb as [Hd1 _].
      2: { intros [= _ <-]. congruence. }
      unfold bind at 1.
      destruct (Improved.find_control _ _ _ _ s1) as [[pi | e2] s2] eqn:Hpi;
        apply find_control_found in Hpi as [Hd2 _].
      2: { intros [= _ <-]. congruence. }
      unfold bind at 1.
      destruct (Improved.find_page_links _ s2) as [[pl | e3] s3] eqn:Hpl;
        apply find_page_links_found in Hpl as [Hd3 _].
      - discriminate.
      - intros [= _ <-]. congruence. }
    by repeat split.
Qed.

End ControlsFound.

Section FinalizationMore.
Context {W E : Type} `{!Selenium W E} `{!PyRuntime}.
Variable find_and_fill_date_inputs : string → string → M (Scraper W) bool.
Variable find_and_click_submit_button : M (Scraper W) bool.
Variable download_pdfs_for_projects : list (gmap string pyval) → M (Scraper W) unit.
Variable process_and_export :
  list (gmap string pyval) → list string → M (Scraper W) (list (gmap string pyval)).

(** X21. With a browser whose [quit] raises no [Exception],
    [start_scraping] releases it on every return but one: when it
    returns, whatever its steps did or raised, the scraper holds no
    driver, unless the return is the one after a failed [setup_driver];
    and it raises nothing but an interrupt. *)
Theorem start_scraping_releases_driver start_date end_date max_pages output_formats
    (s : Scraper W) :
  (∀ (w : W) e w', quit w = (Raise e, w') → is_Exception e = false) →
  let run :=
    Improved.start_scraping find_and_fill_date_inputs find_and_click_submit_button
      download_pdfs_for_projects process_and_export
      start_date end_date max_pages output_formats s in
  match run.1 with
  | Ok results =>
      driver run.2 = None ∨
      (results = None ∧ ∃ s0, Improved.setup_driver s0 = (Ok false, run.2))
  | Raise e => e = KeyboardInterrupt
  end.
Proof.
  intros Hquit. cbv zeta.
  destruct (Improved.start_scraping _ _ _ _ _ _ _ _ s) as [[results | e] s'] eqn:Hrun;
    cbn [fst snd].
  - apply start_scraping_returns_through_close_driver in Hrun
      as [(s0 & Hsetup & ->) | (s1 & Hclose)].
    + right. eauto.
    + left. apply close_driver_releases in Hclose as [Hnone | (w & e & w' & _ & Hq & He)];
        [done |].
      apply Hquit in Hq. congruence.
  - by apply start_scraping_raises_only_interrupt in Hrun.
Qed.

(** The run when the browser starts but resizing its window raises. *)
Lemma setup_failure_run start_date end_date max_pages output_formats
    (s : Scraper W) w e w' :
  chrome (headless s) = Ok w →
  set_window_size 1920 1080 w = (Raise e, w') →
  is_Exception e = true →
  Improved.start_scraping find_and_fill_date_inputs find_and_click_submit_button
    download_pdfs_for_projects process_and_export
    start_date end_date max_pages output_formats s =
    (Ok None,
     set_log (log s ++
              [ (INFO, "Starting improved pagination-based Ecuadorian National Assembly scraper");
                (ERROR, "WebDriver setup failed") ])
       (set_driver (Some w') s)).
Proof.
  intros Hchrome Hsize He.
  unfold Improved.start_scraping, try_except.
  unfold bind at 1, logger at 1, modify. unfold bind at 1.
  unfold Improved.setup_driver, try_except, bind at 1, get_state.
  cbn [headless set_log]. unfold bind at 1, lift_outcome. rewrite Hchrome.
  unfold bind at 1, modify. unfold bind at 1, on_driver. cbn [driver set_driver].
  rewrite Hsize, He. cbn.
  unfold set_log, set_driver; cbn. by rewrite <- app_assoc.
Qed.

(** X22. When the browser starts but resizing its window raises, the
    setup fails with the browser already stored: [start_scraping]
    returns [None] at once, the failure of the setup being the last
    line it logs, and leaves the browser in [driver], not closed. *)
Theorem setup_failure_keeps_browser start_date end_date max_pages output_formats
    (s : Scraper W) w e w' :
  chrome (headless s) = Ok w →
  set_window_size 1920 1080 w = (Raise e, w') →
  is_Exception e = true →
  let run :=
    Improved.start_scraping find_and_fill_date_inputs find_and_click_submit_button
      download_pdfs_for_projects process_and_export
      start_date end_date max_pages output_formats s in
  run.1 = Ok None ∧
  driver run.2 = Some w' ∧
  last (log run.2) = Some (ERROR, "WebDriver setup failed").
Proof.
  intros Hchrome Hsize He. cbv zeta.
  rewrite (setup_failure_run _ _ _ _ _ _ _ _ Hchrome Hsize He). cbn [fst snd].
  split; [done |]. split; [done |].
  cbn [log set_log].
  match goal with |- last (?l ++ [?a; ?b]) = _ =>
    assert (l ++ [a; b] = (l ++ [a]) ++ [b]) as -> by by rewrite <- app_assoc
  end.
  apply last_snoc.
Qed.

End FinalizationMore.

Section FileNames.
Context `{!PyRuntime}.






End FileNames.

Section SearchForm.
Context {W E : Type} `{!Selenium W E} `{!PyRuntime}.
#[local] Existing Instances only_browses_refl only_browses_trans
  only_browses_local_refl only_browses_local_trans.

Lemma only_browses_for_each {L A} (body : A → M (Scraper W * L) unit) (l : list A) :
  (∀ x, preserves Improved.only_browses_local (body x)) →
  preserves Improved.only_browses_local (for_each l body).
Proof.
  intros Hbody. induction l as [| x rest IH]; cbn [for_each]; solve_only_browses.
Qed.

Lemma only_browses_fill_date_input start_date end_date element :
  preserves Improved.only_browses_local
    (Improved.fill_date_input (W:=W) start_date end_date element).
Proof.
  unfold Improved.fill_date_input, Improved.type_date. solve_only_browses.
Qed.

Lemma only_browses_fill_date_inputs start_date end_date selector :
  preserves Improved.only_browses_local
    (Improved.fill_date_inputs (W:=W) start_date end_date selector).
Proof.
  unfold Improved.fill_date_inputs.
  pose proof (only_browses_for_each (Improved.fill_date_input (W:=W) start_date end_date)).
  pose proof only_browses_fill_date_input.
  solve_only_browses. auto.
Qed.

Lemma only_browses_find_and_fill_date_inputs start_date end_date :
  preserves Improved.only_browses
    (Improved.find_and_fill_date_inputs (W:=W) start_date end_date).
Proof.
  unfold Improved.find_and_fill_date_inputs.
  pose proof (only_browses_for_each (Improved.fill_date_inputs (W:=W) start_date end_date)).
  pose proof only_browses_fill_date_inputs.
  solve_only_browses. auto.
Qed.

Lemma only_browses_click_first_enabled found_msg elements :
  preserves Improved.only_browses (Improved.click_first_enabled (W:=W) found_msg elements).
Proof.
  induction elements as [| element rest IH]; cbn [Improved.click_first_enabled];
    solve_only_browses.
Qed.

Lemma only_browses_click_first_button by_ selector_of found_msg error_msg keys :
  preserves Improved.only_browses
    (Improved.click_first_button (W:=W) by_ selector_of found_msg error_msg keys).
Proof.
  pose proof only_browses_click_first_enabled.
  induction keys as [| key rest IH]; cbn [Improved.click_first_button]; solve_only_browses.
Qed.

Lemma only_browses_find_and_click_submit_button :
  preserves Improved.only_browses (Improved.find_and_click_submit_button (W:=W)).
Proof.
  unfold Improved.find_and_click_submit_button.
  pose proof only_browses_click_first_button. solve_only_browses.
Qed.

End SearchForm.

Section SearchForm2.
Context {W E : Type} `{!Selenium W E} `{!PyRuntime}.
#[local] Existing Instances only_browses_refl only_browses_trans
  only_browses_local_refl only_browses_local_trans.

Lemma click_first_enabled_clicked found_msg elements : ∀ (s : Scraper W) result s',
  Improved.click_first_enabled found_msg elements s = (Ok (Some result), s') →
  result = true ∧ ∃ w2, driver s' = Some w2 ∧ Improved.clicked_usable (delay s) w2.
Proof.
  induction elements as [| element rest IH]; intros s result s';
    cbn [Improved.click_first_enabled]; [discriminate |].
  unfold bind at 1, read_driver.
  destruct (driver s) as [w0 |] eqn:Hw; [| discriminate].
  destruct (displayed_and_enabled element w0) as [[] | e] eqn:Husable; [| | discriminate].
  - unfold bind at 1, logger, modify. unfold bind at 1, on_driver. cbn [driver set_log].
    rewrite Hw. destruct (click element w0) as [[[] | e] w1] eqn:Hclick; [| discriminate].
    unfold bind at 1, get_state. cbn [delay set_driver set_log].
    unfold bind at 1, time_sleep. cbn [driver set_driver].
    destruct (sleep (delay s) w1) as [[[] | e] w2] eqn:Hsleep; [| discriminate].
    intros [= <- <-]. split; [done |]. exists w2. split; [done |].
    by exists element, w0, w1.
  - intros Hrest. by apply IH in Hrest.
Qed.

Lemma click_first_button_clicked by_ selector_of found_msg error_msg keys :
  ∀ (s : Scraper W) result s',
  Improved.click_first_button by_ selector_of found_msg error_msg keys s
    = (Ok (Some result), s') →
  result = true ∧ ∃ w2, driver s' = Some w2 ∧ Improved.clicked_usable (delay s) w2.
Proof.
  induction keys as [| key rest IH]; intros s result s';
    cbn [Improved.click_first_button]; [discriminate |].
  intros Hrun. apply bind_inv_ok in Hrun as (clicked & s1 & Hturn & Hrun).
  assert (delay s1 = delay s) as Hdelay.
  { revert Hturn.
    match goal with |- ?m s = _ → _ => assert (preserves Improved.only_browses m) as Hm end.
    { pose proof only_browses_click_first_enabled. solve_only_browses. }
    intros Hturn. by destruct (Hm _ _ _ Hturn) as (_ & ? & _). }
  destruct clicked as [r |].
  - injection Hrun as <- <-.
    apply try_except_inv_ok in Hturn as [Hturn | (e & sx & _ & _ & Hh)]; [| discriminate].
    apply bind_inv_ok in Hturn as (elements & s0 & Hfind & Hturn).
    assert (s0 = s) as ->.
    { unfold read_driver in Hfind. by destruct (driver s); simplify_eq. }
    by apply click_first_enabled_clicked in Hturn.
  - apply IH in Hrun. by rewrite Hdelay in Hrun.
Qed.

(** X24. [find_and_click_submit_button] only browses and raises
    nothing but an interrupt.  It answers [True] only right after one
    click that went well, on an element that was displayed and enabled,
    and the sleep that follows it; without a browser it answers
    [False]. *)
Theorem find_and_click_submit_button_clicks (s : Scraper W) :
  let run := Improved.find_and_click_submit_button s in
  Improved.only_browses s run.2 ∧
  match run.1 with
  | Ok true => ∃ w2, driver run.2 = Some w2 ∧ Improved.clicked_usable (delay s) w2
  | Ok false => True
  | Raise e => e = KeyboardInterrupt
  end ∧
  (driver s = None →
   run = (Ok false, set_log (log s ++ [(ERROR, "WebDriver not initialized")]) s)).
Proof.
  cbv zeta. split; [| split].
  - destruct (Improved.find_and_click_submit_button s) as [o s'] eqn:Hrun.
    exact (only_browses_find_and_click_submit_button _ _ _ Hrun).
  - destruct (Improved.find_and_click_submit_button s) as [[[] | e] s'] eqn:Hrun;
      cbn [fst snd]; [| done |].
    + unfold Improved.find_and_click_submit_button in Hrun.
      apply try_except_inv_ok in Hrun as [Hrun | (e & sx & _ & _ & Hh)]; [| discriminate].
      unfold bind at 1, get_state in Hrun.
      destruct (driver s) as [w |] eqn:Hw; [| discriminate].
      apply bind_inv_ok in Hrun as ([] & s1 & Hlog & Hrun). injection Hlog as <-.
      unfold or_continue at 1 in Hrun.
      apply bind_inv_ok in Hrun as (r1 & s2 & Hfirst & Hrun).
      destruct r1 as [b |].
      { injection Hrun as -> <-. by apply click_first_button_clicked in Hfirst as [_ ?]. }
      assert (delay s2 = delay s) as Hdelay.
      { by destruct (only_browses_click_first_button _ _ _ _ _ _ _ _ Hfirst) as (_ & ? & _). }
      unfold or_continue at 1 in Hrun.
      apply bind_inv_ok in Hrun as (r2 & s3 & Hsecond & Hrun).
      destruct r2 as [b |]; [| discriminate].
      injection Hrun as -> <-. apply click_first_button_clicked in Hsecond as [_ ?].
      by rewrite <- Hdelay.
    + unfold Improved.find_and_click_submit_button, try_except in Hrun.
      match type of Hrun with context [match ?body s with _ => _ end] =>
        destruct (body s) as [[r | e0] s0] end; [discriminate |].
      destruct (is_Exception e0) eqn:He0; [discriminate |].
      injection Hrun as <- _. by destruct e0.
  - intros Hnone.
    unfold Improved.find_and_click_submit_button, try_except, bind at 1, get_state.
    by rewrite Hnone.
Qed.

(** Once both dates are filled, an input is read and left as it is. *)
Lemma fill_date_input_done start_date end_date element (s : Scraper W) o s' filled :
  Improved.fill_date_input start_date end_date element
    (s, Improved.mkDatesFilled true true) = (o, (s', filled)) →
  driver s' = driver s ∧ filled = Improved.mkDatesFilled true true.
Proof.
  unfold Improved.fill_date_input, try_except.
  unfold bind at 1, Improved.reading, in_object, read_driver.
  destruct (driver s) as [w |] eqn:Hw.
  2: { cbn. by intros [= <- <- <-]. }
  destruct (get_attribute element "placeholder" w) as [placeholder | e].
  2: { destruct (is_Exception e); cbn; by intros [= <- <- <-]. }
  unfold bind at 1. rewrite Hw.
  destruct (get_attribute element "name" w) as [name | e].
  2: { destruct (is_Exception e); cbn; by intros [= <- <- <-]. }
  unfold bind at 1. rewrite Hw.
  destruct (get_attribute element "id" w) as [id_attr | e].
  2: { destruct (is_Exception e); cbn; by intros [= <- <- <-]. }
  unfold bind at 1. cbn [logger modify]. unfold bind at 1, get_local.
  cbn [Improved.start_date_filled Improved.end_date_filled negb].
  rewrite !andb_false_r. cbn. by intros [= <- <- <-].
Qed.

Lemma fill_date_inputs_done start_date end_date selector (s : Scraper W) o s' filled :
  Improved.fill_date_inputs start_date end_date selector
    (s, Improved.mkDatesFilled true true) = (o, (s', filled)) →
  driver s' = driver s ∧ filled = Improved.mkDatesFilled true true.
Proof.
  unfold Improved.fill_date_inputs.
  assert (∀ elements (s0 : Scraper W) o0 s1 f1,
            for_each elements (Improved.fill_date_input start_date end_date)
              (s0, Improved.mkDatesFilled true true) = (o0, (s1, f1)) →
            driver s1 = driver s0 ∧ f1 = Improved.mkDatesFilled true true) as Hloop.
  { induction elements as [| element rest IH]; intros s0 o0 s1 f1; cbn [for_each].
    - by intros [= <- <- <-].
    - unfold bind at 1.
      destruct (Improved.fill_date_input _ _ _ _) as [[[] | e] [s2 f2]] eqn:Hone;
        apply fill_date_input_done in Hone as [Hd ->].
      + intros Hrest. apply IH in Hrest as [Hd' ->]. split; [congruence | done].
      + by intros [= <- <- <-]. }
  unfold try_except, bind at 1, Improved.reading, in_object, read_driver.
  destruct (driver s) as [w |] eqn:Hw.
  2: { cbn. by intros [= <- <- <-]. }
  destruct (find_elements CSS_SELECTOR selector w) as [elements | e].
  2: { destruct (is_Exception e); cbn; by intros [= <- <- <-]. }
  destruct (for_each elements _ _) as [[[] | e] [s2 f2]] eqn:Hall;
    apply Hloop in Hall as [Hd ->].
  - intros [= <- <- <-]. split; [congruence | done].
  - destruct (is_Exception e); cbn; intros [= <- <- <-]; cbn; (split; [congruence | done]).
Qed.

(** X25. [find_and_fill_date_inputs] types a start date and an end
    date once each: from the moment both are filled, whatever inputs
    the selectors still find are read and left as they are: the
    browser does not change.  The method only browses, raises nothing
    but an interrupt, and without a browser answers [False]. *)
Theorem find_and_fill_date_inputs_fills_once start_date end_date (s : Scraper W) :
  (∀ selectors,
     let rest :=
       for_each selectors (Improved.fill_date_inputs start_date end_date)
         (s, Improved.mkDatesFilled true true) in
     driver rest.2.1 = driver s ∧ rest.2.2 = Improved.mkDatesFilled true true) ∧
  let run := Improved.find_and_fill_date_inputs start_date end_date s in
  Improved.only_browses s run.2 ∧
  match run.1 with
  | Ok _ => True
  | Raise e => e = KeyboardInterrupt
  end ∧
  (driver s = None →
   run = (Ok false, set_log (log s ++ [(ERROR, "WebDriver not initialized")]) s)).
Proof.
  split.
  - intros selectors. cbv zeta. revert s.
    induction selectors as [| selector rest IH]; intros s; cbn [for_each]; [done |].
    unfold bind.
    destruct (Improved.fill_date_inputs _ _ _ _) as [[[] | e] [s2 f2]] eqn:Hone;
      apply fill_date_inputs_done in Hone as [Hd ->].
    + destruct (IH s2) as [Hd' Hf]. split; [congruence | done].
    + cbn. by split.
  - cbv zeta. split; [| split].
    + destruct (Improved.find_and_fill_date_inputs _ _ s) as [o s'] eqn:Hrun.
      exact (only_browses_find_and_fill_date_inputs _ _ _ _ _ Hrun).
    + destruct (Improved.find_and_fill_date_inputs _ _ s) as [[b | e] s'] eqn:Hrun; [done |].
      cbn [fst]. unfold Improved.find_and_fill_date_inputs, try_except in Hrun.
      match type of Hrun with context [match ?body s with _ => _ end] =>
        destruct (body s) as [[r | e0] s0] end; [discriminate |].
      destruct (is_Exception e0) eqn:He0; [discriminate |].
      injection Hrun as <- _. by destruct e0.
    + intros Hnone.
      unfold Improved.find_and_fill_date_inputs, try_except, bind at 1, get_state.
      by rewrite Hnone.
Qed.

End SearchForm2.

Section TestOfOneUrl.
Context `{!PyRuntime}.
#[local] Existing Instances same_world_refl same_world_trans
  same_counters_refl same_counters_trans.

(** X26. The test of one URL answers [True] only when, in this run,
    the session setup answered [True], the probe answered [True] for the
    URL in the state the setup left, and at the end the file named for
    the test record and the URL is in the directory with content, its
    path being logged; it changes no counter and raises nothing but an
    interrupt. *)
Theorem test_specific_pdf_succeeds_on_file pdf_url s :
  let run := Downloader.test_specific_pdf pdf_url s in
  let project_info : gmap string pyval :=
    {[ "id" := VStr "test"; "title" := VStr "Test PDF" ]} in
  match run.1 with
  | Ok true =>
      ∃ s1 reason s2 filename content,
        Downloader.setup_session
          (Downloader.set_log
             (Downloader.log s ++ [(INFO, "Testing Specific PDF Download")]) s)
          = (Ok true, s1) ∧
        Downloader.test_pdf_access pdf_url s1 = (Ok (true, reason), s2) ∧
        Downloader.pdf_filename pdf_url project_info = Ok filename ∧
        Downloader.files run.2 !! path_join (Downloader.pdf_dir s) filename = Some content ∧
        content ≠ EmptyString ∧
        (INFO, "PDF saved to: " +:+ path_join (Downloader.pdf_dir s) filename)
          ∈ Downloader.log run.2
  | Ok false => True
  | Raise e => e = KeyboardInterrupt
  end ∧
  Downloader.stats run.2 = Downloader.stats s.
Proof.
  cbv zeta.
  assert (preserves Downloader.same_counters (Downloader.test_specific_pdf pdf_url)) as Hm.
  { unfold Downloader.test_specific_pdf.
    pose proof (preserves_weaken _ _ same_world_counters _ same_world_setup_session).
    pose proof same_counters_download_pdf.
    preserves_with downloader_counters_leaf. }
  destruct (Downloader.test_specific_pdf pdf_url s) as [o s'] eqn:Hrun. cbn [fst snd].
  split.
  - destruct (Hm _ _ _ Hrun) as (Hdir & _ & _).
    destruct o as [[] | e]; [| done |].
    + unfold Downloader.test_specific_pdf in Hrun.
      apply try_except_inv_ok in Hrun as [Hrun | (e & sx & _ & _ & Hh)]; [| discriminate].
      apply bind_inv_ok in Hrun as ([] & s0 & Hlog & Hrun).
      injection Hlog as <-.
      apply bind_inv_ok in Hrun as (ready & s1 & Hsetup & Hrun).
      destruct ready; cbn [negb] in Hrun; [| discriminate].
      apply bind_inv_ok in Hrun as ([is_accessible reason] & s2 & Hprobe & Hrun).
      apply bind_inv_ok in Hrun as ([] & s3 & _ & Hrun).
      destruct is_accessible; [| discriminate].
      apply bind_inv_ok in Hrun as (pdf_path & s4 & Hdown & Hrun).
      destruct pdf_path as [path |]; [| discriminate].
      destruct (truthy (VStr path)); [| discriminate].
      injection Hrun as <-.
      apply download_pdf_success in Hdown as (filename & content & Hname & -> & Hfile & Hne).
      cbn [Downloader.pdf_dir Downloader.set_log] in Hdir. rewrite Hdir in *.
      exists s1, reason, s2, filename, content.
      split; [done |]. split; [done |]. split; [done |].
      split; [exact Hfile |]. split; [done |].
      cbn [Downloader.log Downloader.set_log]. set_solver.
    + unfold Downloader.test_specific_pdf, try_except in Hrun.
      match type of Hrun with context [match ?body s with _ => _ end] =>
        destruct (body s) as [[r | e0] s0] end; [discriminate |].
      destruct (is_Exception e0) eqn:He0; [discriminate |].
      injection Hrun as <- _. by destruct e0.
  - by destruct (Hm _ _ _ Hrun) as (_ & _ & ?).
Qed.

End TestOfOneUrl.

Section ScraperBatch.
Context {W E : Type} `{!Selenium W E} `{!ScraperDownloads.Scripting W} `{!PyRuntime}.

Hypothesis sleep_ends :
  ∀ ms (w : W) e w', sleep ms w = (Raise e, w') → is_Exception e = false.

Lemma catches_download_pdf_for_project project :
  catches_exceptions (ScraperDownloads.download_pdf_for_project (W:=W) project).
Proof.
  unfold ScraperDownloads.download_pdf_for_project.
  apply catches_try_except. intros e.
  apply catches_bind; [| intros _; apply catches_ret].
  by intros [s web] ? ?.
Qed.

(** One turn of the loop counts the record once. *)
Lemma process_project_counted i project
    (x : (Scraper W * ScraperDownloads.Web) * ScraperDownloads.DownloadStats)
    project' x' n :
  ScraperDownloads.process_project i project x = (Ok project', x') →
  ScraperDownloads.counted x.2 n →
  ScraperDownloads.counted x'.2 (S n) ∧
  ScraperDownloads.total x'.2 = ScraperDownloads.total x.2.
Proof.
  destruct x as [[s web] stats]. destruct x' as [[s' web'] stats'].
  unfold ScraperDownloads.process_project, ScraperDownloads.counted.
  intros Hrun [Hsum Hfiles]. cbn [snd] in *.
  apply bind_inv_ok in Hrun as ([[] p1] & x1 & Hlocal & Hret).
  injection Hret as <- ->.
  unfold with_local, try_except in Hlocal.
  revert Hlocal.
  unfold bind at 1.
  match goal with |- context [(if (i mod 10 =? 0)%nat then ?a else ?b) ?st] =>
    assert (∃ l, (if (i mod 10 =? 0)%nat then a else b) st
                 = (Ok tt, (((set_log l s, web), stats), project))) as [l ->]
  end.
  { destruct (i mod 10 =? 0)%nat; cbn.
    - by eexists.
    - exists (log s). by rewrite set_log_same. }
  destruct (negb (truthy (dict_get project "document_url" VNone))).
  { cbn. intros [= <- <- <- <-]. cbn. split; [split; [lia | done] | done]. }
  unfold bind at 1. cbn [in_object].
  destruct (ScraperDownloads.download_pdf_for_project project (set_log l s, web))
    as [[pdf_path | e] [s1 web1]] eqn:Hdown.
  2: { apply catches_download_pdf_for_project in Hdown. rewrite Hdown. discriminate. }
  assert (∀ e s2, time_sleep 500 s1 = (Raise e, s2) → is_Exception e = false) as Hsleep.
  { intros e s2. unfold time_sleep.
    destruct (driver s1) as [w |]; [| discriminate].
    destruct (sleep 500 w) as [[[] | e'] w'] eqn:Hs; intros [= <- <-].
    by eapply sleep_ends. }
  unfold bind at 1.
  destruct pdf_path as [path |]; [destruct (truthy (VStr path)) |];
    cbn [in_object modify_local bind];
    (destruct (time_sleep 500 s1) as [[[] | e] s2] eqn:Hs;
      [| rewrite (Hsleep _ _ eq_refl); discriminate ]);
    intros [= <- <- <- <-]; cbn; rewrite ?length_app; cbn; (split; [split; lia | done]).
Qed.

Lemma process_projects_counted projects : ∀ i
    (x : (Scraper W * ScraperDownloads.Web) * ScraperDownloads.DownloadStats)
    projects' x' n,
  ScraperDownloads.process_projects i projects x = (Ok projects', x') →
  ScraperDownloads.counted x.2 n →
  ScraperDownloads.counted x'.2 (n + length projects) ∧
  ScraperDownloads.total x'.2 = ScraperDownloads.total x.2 ∧
  length projects' = length projects.
Proof.
  induction projects as [| project rest IH]; intros i x projects' x' n Hrun Hcounted;
    cbn [ScraperDownloads.process_projects] in Hrun.
  - injection Hrun as <- <-. rewrite Nat.add_0_r. split; [done | by split].
  - apply bind_inv_ok in Hrun as (p' & x1 & Hone & Hrun).
    apply bind_inv_ok in Hrun as (rest' & x2 & Hrest & Hrun).
    injection Hrun as <- <-.
    destruct (process_project_counted _ _ _ _ _ _ Hone Hcounted) as [Hc1 Ht1].
    destruct (IH _ _ _ _ _ Hrest Hc1) as (Hc2 & Ht2 & Hlen).
    cbn [length]. replace (n + S (length rest))%nat with (S n + length rest)%nat by lia.
    split; [done |]. split; [congruence | by rewrite Hlen].
Qed.

(** X27. The batch download of the scraper counts every record once.
    In a browser whose [sleep] raises no [Exception]: when downloads are
    enabled and the batch completes, [total] is the number of records,
    [downloaded], [failed] and [skipped] add up to it, there is one entry
    of [downloaded_files] for every download, and as many records come
    back as went in.  When downloads are disabled, nothing is requested
    or written, the records are as they were and every counter but
    [total] is 0. *)
Theorem scraper_batch_counters_add_up projects (s : Scraper W) web result projects' x' :
  ScraperDownloads.download_pdfs_for_projects projects (s, web)
    = (Ok (result, projects'), x') →
  ScraperDownloads.total result = Z.of_nat (length projects) ∧
  length projects' = length projects ∧
  if download_pdfs s then
    ScraperDownloads.downloaded result + ScraperDownloads.failed result +
      ScraperDownloads.skipped result = ScraperDownloads.total result ∧
    Z.of_nat (length (ScraperDownloads.downloaded_files result)) =
      ScraperDownloads.downloaded result
  else
    ScraperDownloads.downloaded result = 0 ∧
    ScraperDownloads.failed result = 0 ∧
    ScraperDownloads.skipped result = 0 ∧
    projects' = projects ∧
    x' = (set_log (log s ++ [(INFO, "PDF download is disabled")]) s, web).
Proof.
  unfold ScraperDownloads.download_pdfs_for_projects.
  unfold bind at 1, get_state.
  destruct (download_pdfs s); cbn [negb].
  2: { intros [= <- <- <-]. by repeat split. }
  intros Hrun.
  apply bind_inv_ok in Hrun as ([] & x1 & _ & Hrun).
  apply bind_inv_ok in Hrun as ([ps stats] & x2 & Hlocal & Hrun).
  apply bind_inv_ok in Hrun as ([] & x3 & _ & Hrun).
  injection Hrun as <- <- <-.
  unfold with_local in Hlocal.
  destruct (ScraperDownloads.process_projects 1 projects _) as [[r | e] [x4 stats4]] eqn:Hloop;
    [| discriminate].
  injection Hlocal as <- <- <-.
  apply (process_projects_counted _ _ _ _ _ 0%nat) in Hloop as ([Hsum Hfiles] & Htotal & Hlen);
    [| by split].
  cbn [snd] in *. rewrite Htotal. cbn. split; [done |]. split; [done |].
  split; [lia | done].
Qed.

End ScraperBatch.

Section DialogLinks.
Context {W E : Type} `{!Selenium W E} `{!PyRuntime}.

(** X28. The dialog resolver never fails on a browser error: it answers
    a list of links in which no link is repeated, raises nothing but an
    interrupt, and changes nothing of the scraper but the browser and
    the log. *)
Theorem find_pdf_links_in_dialog_distinct_links (dialog : E) (s : Scraper W) :
  let run := Improved.find_pdf_links_in_dialog dialog s in
  match run.1 with
  | Ok links => NoDup links
  | Raise e => e = KeyboardInterrupt
  end ∧
  Improved.only_browses s run.2.
Proof.
  cbv zeta.
  destruct (Improved.find_pdf_links_in_dialog dialog s) as [o s'] eqn:Hrun. cbn [fst snd].
  split; [| by apply (only_browses_find_pdf_links_in_dialog dialog s o s')].
  destruct o as [links | e].
  - by apply (find_pdf_links_in_dialog_no_duplicates dialog s links s').
  - unfold Improved.find_pdf_links_in_dialog in Hrun.
    unfold bind at 1, with_local, try_except at 1 in Hrun.
    match type of Hrun with context [match ?body ?x with _ => _ end] =>
      destruct (body x) as [[r | e0] [s0 l0]] end; [discriminate |].
    destruct (is_Exception e0) eqn:He0; [discriminate |].
    injection Hrun as <- _. by destruct e0.
Qed.

End DialogLinks.

Section ScraperFiles.
Context {W E : Type} `{!Selenium W E} `{!ScraperDownloads.Scripting W} `{!PyRuntime}.

#[local] Instance keeps_files_refl : Reflexive (ScraperDownloads.keeps_files (W:=W)).
Proof. by intros x path. Qed.

#[local] Instance keeps_files_trans : Transitive (ScraperDownloads.keeps_files (W:=W)).
Proof. intros x y z Hxy Hyz path Hx. by apply Hyz, Hxy. Qed.

#[local] Instance keeps_files_local_refl {L} :
  Reflexive (ScraperDownloads.keeps_files_local (W:=W) (L:=L)).
Proof. by intros x path. Qed.

#[local] Instance keeps_files_local_trans {L} :
  Transitive (ScraperDownloads.keeps_files_local (W:=W) (L:=L)).
Proof. intros x y z Hxy Hyz path Hx. by apply Hyz, Hxy. Qed.

Lemma keeps_files_in_object {A} (m : M (Scraper W) A) :
  preserves (ScraperDownloads.keeps_files (W:=W)) (in_object m).
Proof.
  intros [s web] o [s' web']. unfold in_object.
  destruct (m s) as [o1 s1]. intros [= <- <- <-] path Hp. exact Hp.
Qed.

Lemma keeps_files_requests_get url :
  preserves (ScraperDownloads.keeps_files (W:=W)) (ScraperDownloads.requests_get url).
Proof. intros [s web] o [s' web']. intros [= <- <- <-] path Hp. exact Hp. Qed.

Lemma keeps_files_raise_for_status response :
  preserves (ScraperDownloads.keeps_files (W:=W)) (ScraperDownloads.raise_for_status response).
Proof.
  unfold ScraperDownloads.raise_for_status.
  destruct (_ && _); [apply preserves_raise | apply preserves_ret]; typeclasses eauto.
Qed.

Lemma keeps_files_open_wb filepath :
  preserves (ScraperDownloads.keeps_files (W:=W)) (ScraperDownloads.open_wb filepath).
Proof.
  intros [s web] o [s' web']. intros [= <- <- <-] path. cbn.
  rewrite lookup_insert_is_Some. destruct (decide (filepath = path)); auto.
Qed.

Lemma keeps_files_write filepath data :
  preserves (ScraperDownloads.keeps_files (W:=W)) (ScraperDownloads.write filepath data).
Proof.
  intros [s web] o [s' web']. intros [= <- <- <-] path. cbn.
  rewrite lookup_insert_is_Some. destruct (decide (filepath = path)); auto.
Qed.

Lemma preserves_for_each {St A} (R : St → St → Prop) `{!Reflexive R} `{!Transitive R}
    (l : list A) (body : A → M St unit) :
  (∀ a, preserves R (body a)) → preserves R (for_each l body).
Proof.
  intros Hbody. induction l as [| a rest IH]; cbn [for_each].
  - by apply preserves_ret.
  - apply preserves_bind; [done | apply Hbody | by intros _].
Qed.

(** Closes the leaves of a [keeps_files] goal. *)
Ltac keeps_files_leaf :=
  idtac;
  lazymatch goal with
  | |- preserves ScraperDownloads.keeps_files (in_object _) => apply keeps_files_in_object
  | |- preserves ScraperDownloads.keeps_files (ScraperDownloads.requests_get _) =>
      apply keeps_files_requests_get
  | |- preserves ScraperDownloads.keeps_files (ScraperDownloads.raise_for_status _) =>
      apply keeps_files_raise_for_status
  | |- preserves ScraperDownloads.keeps_files (ScraperDownloads.open_wb _) =>
      apply keeps_files_open_wb
  | |- preserves ScraperDownloads.keeps_files (ScraperDownloads.write _ _) =>
      apply keeps_files_write
  | |- preserves _ (for_each _ _) =>
      apply preserves_for_each; [try typeclasses eauto .. | intros ?]
  | |- preserves _ (if ?b then _ else _) => destruct b
  | |- _ => solve [trivial]
  end.

Ltac solve_keeps_files := preserves_with keeps_files_leaf.

Lemma keeps_files_save_response filepath response :
  preserves (ScraperDownloads.keeps_files (W:=W))
    (ScraperDownloads.save_response filepath response).
Proof. unfold ScraperDownloads.save_response. solve_keeps_files. Qed.

Lemma keeps_files_save_script_content url filepath :
  preserves (ScraperDownloads.keeps_files (W:=W))
    (ScraperDownloads.save_script_content url filepath).
Proof. unfold ScraperDownloads.save_script_content. solve_keeps_files. Qed.

Lemma preserves_try_except_request {St A} (R : St → St → Prop) `{!Reflexive R}
    `{!Transitive R} (body : M St A) h :
  preserves R body → (∀ e, preserves R (h e)) →
  preserves R (ScraperDownloads.try_except_request body h).
Proof.
  intros Hb Hh s o s'. unfold ScraperDownloads.try_except_request.
  destruct (body s) as [[a | e] s1] eqn:Hbs.
  - intros [= <- <-]. exact (Hb _ _ _ Hbs).
  - destruct (is_RequestException e).
    + intros Hhe. transitivity s1; [exact (Hb _ _ _ Hbs) | exact (Hh _ _ _ _ Hhe)].
    + intros [= <- <-]. exact (Hb _ _ _ Hbs).
Qed.

Lemma keeps_files_local_in_object {L A} (m : M (Scraper W * ScraperDownloads.Web) A) :
  preserves (ScraperDownloads.keeps_files (W:=W)) m →
  preserves (ScraperDownloads.keeps_files_local (W:=W) (L:=L)) (in_object m).
Proof.
  intros Hm [x l] o [x' l']. unfold in_object.
  destruct (m x) as [o1 x1] eqn:Hrun. intros [= <- <- <-].
  exact (Hm _ _ _ Hrun).
Qed.

Lemma keeps_files_local_modify_local {L} (f : L → L) :
  preserves (ScraperDownloads.keeps_files_local (W:=W) (L:=L)) (modify_local f).
Proof. intros [x l] o [x' l'] [= <- <- <-] path Hp. exact Hp. Qed.

Lemma keeps_files_local_get_local {L} :
  preserves (ScraperDownloads.keeps_files_local (W:=W) (L:=L)) get_local.
Proof. intros [x l] o [x' l'] [= <- <- <-] path Hp. exact Hp. Qed.

Lemma keeps_files_with_local {L A} (init : L)
    (m : M ((Scraper W * ScraperDownloads.Web) * L) A) :
  preserves (ScraperDownloads.keeps_files_local (W:=W) (L:=L)) m →
  preserves (ScraperDownloads.keeps_files (W:=W)) (with_local init m).
Proof.
  intros Hm x o x'. unfold with_local.
  destruct (m (x, init)) as [o1 [x1 l1]] eqn:Hrun. intros [= <- <-].
  exact (Hm _ _ _ Hrun).
Qed.

(** Closes the leaves of a [keeps_files_local] goal. *)
Ltac keeps_files_local_leaf :=
  idtac;
  lazymatch goal with
  | |- preserves ScraperDownloads.keeps_files_local (in_object _) =>
      apply keeps_files_local_in_object
  | |- preserves ScraperDownloads.keeps_files_local (modify_local _) =>
      apply keeps_files_local_modify_local
  | |- preserves ScraperDownloads.keeps_files_local get_local =>
      apply keeps_files_local_get_local
  | |- preserves ScraperDownloads.keeps_files (with_local _ _) =>
      apply keeps_files_with_local
  | |- preserves _ (ScraperDownloads.try_except_request _ _) =>
      apply preserves_try_except_request; [try typeclasses eauto .. | | intros ?]
  | |- _ => keeps_files_leaf
  end.

Ltac solve_keeps_files_local := preserves_with keeps_files_local_leaf.

Lemma keeps_files_try_download_links filepath links :
  preserves (ScraperDownloads.keeps_files_local (W:=W))
    (ScraperDownloads.try_download_links filepath links).
Proof.
  pose proof keeps_files_save_response.
  induction links as [| link rest IH]; cbn [ScraperDownloads.try_download_links];
    solve_keeps_files_local.
Qed.

Lemma keeps_files_download_pdf_with_selenium url filepath :
  preserves (ScraperDownloads.keeps_files (W:=W))
    (ScraperDownloads.download_pdf_with_selenium url filepath).
Proof.
  unfold ScraperDownloads.download_pdf_with_selenium.
  pose proof keeps_files_save_script_content. pose proof keeps_files_try_download_links.
  solve_keeps_files_local.
Qed.

Lemma keeps_files_get_document document_url :
  preserves (ScraperDownloads.keeps_files (W:=W)) (ScraperDownloads.get_document document_url).
Proof. unfold ScraperDownloads.get_document. solve_keeps_files_local. Qed.

Lemma keeps_files_download_pdf_for_project project :
  preserves (ScraperDownloads.keeps_files (W:=W))
    (ScraperDownloads.download_pdf_for_project project).
Proof.
  unfold ScraperDownloads.download_pdf_for_project.
  pose proof keeps_files_save_response. pose proof keeps_files_get_document.
  pose proof keeps_files_download_pdf_with_selenium.
  solve_keeps_files_local.
Qed.

Lemma open_wb_creates filepath (x : Scraper W * ScraperDownloads.Web) o x' :
  ScraperDownloads.open_wb filepath x = (o, x') →
  is_Some (ScraperDownloads.files x'.2 !! filepath).
Proof.
  destruct x as [s web]. intros [= <- <-]. cbn.
  rewrite lookup_insert_is_Some. by left.
Qed.

Lemma save_response_creates filepath response (x : Scraper W * ScraperDownloads.Web) x' :
  ScraperDownloads.save_response filepath response x = (Ok tt, x') →
  is_Some (ScraperDownloads.files x'.2 !! filepath).
Proof.
  unfold ScraperDownloads.save_response. intros Hrun.
  apply bind_inv_ok in Hrun as ([] & x1 & Hopen & Hrun).
  apply open_wb_creates in Hopen.
  match type of Hrun with ?m x1 = _ =>
    assert (preserves (ScraperDownloads.keeps_files (W:=W)) m) as Hkeep
      by solve_keeps_files
  end.
  by apply (Hkeep _ _ _ Hrun).
Qed.

Lemma save_script_content_creates url filepath (x : Scraper W * ScraperDownloads.Web)
    path x' :
  ScraperDownloads.save_script_content url filepath x = (Ok (Some path), x') →
  path = filepath ∧ is_Some (ScraperDownloads.files x'.2 !! path).
Proof.
  unfold ScraperDownloads.save_script_content. intros Hrun.
  apply try_except_inv_ok in Hrun as [Hrun | (e & sx & _ & _ & Hh)].
  2: { apply bind_inv_ok in Hh as ([] & ? & _ & Hh). discriminate. }
  apply bind_inv_ok in Hrun as (pdf_content & x1 & _ & Hrun).
  destruct (truthy pdf_content); [| discriminate].
  destruct pdf_content as [| z | text | l]; try discriminate.
  destruct (startswith "%PDF" text); [| discriminate].
  apply bind_inv_ok in Hrun as ([] & x2 & Hopen & Hrun).
  apply open_wb_creates in Hopen.
  apply bind_inv_ok in Hrun as ([] & x3 & Hwrite & Hrun).
  apply bind_inv_ok in Hrun as ([] & x4 & Hlog & Hrun).
  injection Hrun as <- <-. split; [done |].
  assert (ScraperDownloads.keeps_files x2 x3) as H23.
  { match type of Hwrite with ?m x2 = _ =>
      assert (preserves (ScraperDownloads.keeps_files (W:=W)) m) as Hkeep
        by solve_keeps_files
    end.
    exact (Hkeep _ _ _ Hwrite). }
  pose proof (keeps_files_in_object _ _ _ _ Hlog) as H34.
  by apply H34, H23.
Qed.

Lemma in_object_inv {St L A} (m : M St A) (x : St * L) o x' :
  in_object m x = (o, x') → m x.1 = (o, x'.1) ∧ x'.2 = x.2.
Proof.
  destruct x as [s l]. unfold in_object. cbn [fst snd].
  destruct (m s) as [o1 s1]. by intros [= <- <-].
Qed.

Lemma try_download_links_creates filepath links : ∀
    (x : (Scraper W * ScraperDownloads.Web) * bool) path x',
  ScraperDownloads.try_download_links filepath links x = (Ok (Some path), x') →
  path = filepath ∧ is_Some (ScraperDownloads.files x'.1.2 !! path).
Proof.
  induction links as [| link rest IH]; intros x path x' Hrun;
    cbn [ScraperDownloads.try_download_links] in Hrun; [discriminate |].
  apply bind_inv_ok in Hrun as (finished & x1 & Htry & Hrun).
  destruct finished as [p |]; [| by apply (IH x1)].
  injection Hrun as -> <-.
  apply try_except_inv_ok in Htry as [Hbody | (e & sx & _ & _ & Hh)].
  2: { apply bind_inv_ok in Hh as ([] & ? & _ & Hh).
       - apply bind_inv_ok in Hh as ([] & ? & _ & Hh). discriminate.
       - discriminate. }
  apply bind_inv_ok in Hbody as (href & x2 & _ & Hbody).
  apply bind_inv_ok in Hbody as ([] & x3 & _ & Hbody).
  destruct (Improved.truthy_text href) as [address |]; [| discriminate].
  destruct (_ || _); [| discriminate].
  apply bind_inv_ok in Hbody as (response & x4 & _ & Hbody).
  apply bind_inv_ok in Hbody as ([] & x5 & _ & Hbody).
  apply bind_inv_ok in Hbody as ([] & x6 & Hsave & Hbody).
  apply bind_inv_ok in Hbody as ([] & x7 & Hlog & Hbody).
  injection Hbody as <- <-. split; [done |].
  apply in_object_inv in Hsave as [Hsave _]. apply save_response_creates in Hsave.
  apply in_object_inv in Hlog as [Hlog _].
  by apply (keeps_files_in_object _ _ _ _ Hlog).
Qed.

Lemma download_pdf_with_selenium_creates url filepath
    (x : Scraper W * ScraperDownloads.Web) path x' :
  ScraperDownloads.download_pdf_with_selenium url filepath x = (Ok (Some path), x') →
  path = filepath ∧ is_Some (ScraperDownloads.files x'.2 !! path).
Proof.
  unfold ScraperDownloads.download_pdf_with_selenium. intros Hrun.
  apply try_except_inv_ok in Hrun as [Hrun | (e & sx & _ & _ & Hh)].
  2: { apply bind_inv_ok in Hh as ([] & ? & _ & Hh). discriminate. }
  destruct x as [s web]. unfold bind at 1, get_state in Hrun.
  destruct (driver s) as [w |].
  2: { apply bind_inv_ok in Hrun as ([] & ? & _ & Hrun). discriminate. }
  apply bind_inv_ok in Hrun as ([] & x1 & _ & Hrun).
  apply bind_inv_ok in Hrun as ([] & x2 & _ & Hrun).
  apply bind_inv_ok in Hrun as ([] & x3 & _ & Hrun).
  apply bind_inv_ok in Hrun as (current & x4 & _ & Hrun).
  apply bind_inv_ok in Hrun as (on_pdf_page & x5 & _ & Hrun).
  apply bind_inv_ok in Hrun as (saved & x6 & Hsaved & Hrun).
  destruct saved as [p |].
  - injection Hrun as -> <-.
    destruct on_pdf_page; [| discriminate].
    by apply save_script_content_creates in Hsaved.
  - apply bind_inv_ok in Hrun as (download_links & x7 & _ & Hrun).
    apply bind_inv_ok in Hrun as ([finished href_assigned] & x8 & Hlinks & Hrun).
    destruct finished as [p |].
    2: { apply bind_inv_ok in Hrun as ([] & ? & _ & Hrun). discriminate. }
    injection Hrun as -> <-.
    unfold with_local in Hlinks.
    destruct (ScraperDownloads.try_download_links filepath download_links (x7, false))
      as [[r | e] [x9 l9]] eqn:Hloop; [| discriminate].
    injection Hlinks as -> <- <-.
    by apply try_download_links_creates in Hloop.
Qed.

(** X29. A path the scraper answers for a record names a file.  The
    download of one record raises nothing but an interrupt; when it
    answers a path, that is the file name of the record in the PDF
    directory and a file is there; and no file that was there before is
    removed. *)
Theorem scraper_download_answers_a_file project (s : Scraper W) web :
  let run := ScraperDownloads.download_pdf_for_project project (s, web) in
  match run.1 with
  | Ok (Some path) =>
      (∃ filename,
         ScraperDownloads.pdf_filename project = Ok filename ∧
         path = path_join (pdf_dir s) filename) ∧
      is_Some (ScraperDownloads.files run.2.2 !! path)
  | Ok None => True
  | Raise e => e = KeyboardInterrupt
  end ∧
  ∀ path, is_Some (ScraperDownloads.files web !! path) →
          is_Some (ScraperDownloads.files run.2.2 !! path).
Proof.
  cbv zeta.
  destruct (ScraperDownloads.download_pdf_for_project project (s, web)) as [o x'] eqn:Hrun.
  cbn [fst snd].
  split; [| exact (keeps_files_download_pdf_for_project _ _ _ _ Hrun)].
  destruct o as [[path |] | e]; [| done |].
  2: { unfold ScraperDownloads.download_pdf_for_project, try_except in Hrun.
       match type of Hrun with context [match ?body ?x with _ => _ end] =>
         destruct (body x) as [[r | e0] x0] end; [discriminate |].
       destruct (is_Exception e0) eqn:He0.
       - destruct x0 as [s0 web0]. discriminate.
       - injection Hrun as <- _. by destruct e0. }
  unfold ScraperDownloads.download_pdf_for_project in Hrun.
  apply try_except_inv_ok in Hrun as [Hrun | (e & sx & _ & _ & Hh)].
  2: { apply bind_inv_ok in Hh as ([] & ? & _ & Hh). discriminate. }
  unfold bind at 1, get_state in Hrun.
  destruct (download_pdfs s); cbn [negb] in Hrun; [| discriminate].
  destruct (truthy _); cbn [negb] in Hrun.
  2: { apply bind_inv_ok in Hrun as ([] & ? & _ & Hrun). discriminate. }
  apply bind_inv_ok in Hrun as (filename & x1 & Hname & Hrun).
  unfold lift_outcome in Hname. injection Hname as Hname <-.
  destruct (ScraperDownloads.files web !! path_join (pdf_dir s) filename) as [content |]
    eqn:Hfile.
  { apply bind_inv_ok in Hrun as ([] & x2 & Hlog & Hrun).
    injection Hrun as <- <-. split; [by exists filename |].
    apply (keeps_files_in_object _ _ _ _ Hlog). cbn. by rewrite Hfile. }
  apply bind_inv_ok in Hrun as ([] & x2 & _ & Hrun).
  unfold ScraperDownloads.try_except_request in Hrun.
  match type of Hrun with context [match ?body x2 with _ => _ end] =>
    destruct (body x2) as [[r | e0] x3] eqn:Hbody end.
  - injection Hrun as -> <-.
    apply bind_inv_ok in Hbody as (response & x4 & _ & Hbody).
    apply bind_inv_ok in Hbody as ([] & x5 & _ & Hbody).
    destruct (dict_get project "document_url" (VStr EmptyString)) as [| z | url | l];
      try discriminate.
    destruct (_ && _).
    { apply bind_inv_ok in Hbody as ([] & ? & _ & Hbody). discriminate. }
    apply bind_inv_ok in Hbody as ([] & x6 & Hsave & Hbody).
    apply bind_inv_ok in Hbody as ([] & x7 & Hlog & Hbody).
    injection Hbody as <- <-. split; [by exists filename |].
    apply save_response_creates in Hsave.
    by apply (keeps_files_in_object _ _ _ _ Hlog).
  - destruct (is_RequestException e0); [| discriminate].
    apply bind_inv_ok in Hrun as ([] & x4 & _ & Hrun).
    apply download_pdf_with_selenium_creates in Hrun as [-> Hthere].
    split; [by exists filename | done].
Qed.

End ScraperFiles.

Section ScraperLinks.
Context {W E : Type} `{!Selenium W E} `{!ScraperDownloads.Scripting W} `{!PyRuntime}.

(** X30. A first download link that cannot be read ends the loop over
    the download links.  When reading the [href] of the first link
    raises an [Exception], the handler of the loop formats a variable
    that was never assigned and raises in turn: the loop raises, no
    other link is tried, and nothing is requested, written or logged. *)
Theorem unread_first_link_ends_fallback filepath (link : E) rest (s : Scraper W) web w e :
  driver s = Some w →
  get_attribute link "href" w = Raise e →
  is_Exception e = true →
  with_local false (ScraperDownloads.try_download_links filepath (link :: rest)) (s, web)
    = (Raise OtherException, (s, web)).
Proof.
  intros Hdriver Hread Hexc.
  unfold with_local. cbn [ScraperDownloads.try_download_links].
  unfold bind at 1, try_except at 1, bind at 1, in_object at 1 2, read_driver.
  rewrite Hdriver, Hread, Hexc. reflexivity.
Qed.

End ScraperLinks.

(** ** The further properties of the downloader, in front of the document server *)

Section MoreOnTheDocumentServer.
#[local] Existing Instance Reference.runtime.

(** The probe of a document of the server. *)
Lemma test_pdf_access_confirms_pdf_witness :
  ∃ head_response get_response content,
    Toy.server [] (Downloader.Head Toy.ley_pdf 30) = Ok head_response ∧
    Downloader.status_code head_response = 200 ∧
    Downloader.looks_like_pdf
      (lower (default EmptyString (Downloader.content_type head_response))) Toy.ley_pdf = true ∧
    Toy.server ([] ++ [Downloader.Head Toy.ley_pdf 30]) (Downloader.Get Toy.ley_pdf 30 true)
      = Ok get_response ∧
    ((400 <=? Downloader.status_code get_response) &&
     (Downloader.status_code get_response <? 600))%bool = false ∧
    Downloader.raw_read get_response = Ok content ∧
    startswith "%PDF" content = true ∧
    "PDF content confirmed" = "PDF content confirmed".
Proof.
  apply (test_pdf_access_confirms_pdf Toy.ley_pdf (Toy.downloader ∅) "PDF content confirmed"
           (Downloader.test_pdf_access Toy.ley_pdf (Toy.downloader ∅)).2).
  vm_compute; reflexivity.
Defined.

(** The batch in front of a server out of reach: nothing is counted. *)
Lemma download_aborts_without_session_witness :
  (Downloader.download_pdfs_from_data Toy.batch Static.downloader_offline).1 =
    Ok (Downloader.mkStats 0 0 0 0, Toy.batch) ∧
  Downloader.requests
    (Downloader.download_pdfs_from_data Toy.batch Static.downloader_offline).2 =
    [Downloader.Get Downloader.base_url 30 false].
Proof.
  pose proof (download_aborts_without_session Toy.batch Static.downloader_offline
                (Downloader.setup_session
                   (Downloader.set_log
                      (Downloader.log Static.downloader_offline ++
                       [(INFO, "Starting improved PDF download")])
                      Static.downloader_offline)).2) as Habort.
  destruct Habort as (Hrun & _ & _).
  - vm_compute; reflexivity.
  - rewrite Hrun. split; vm_compute; reflexivity.
Defined.

(** A record whose title is a number. *)
Lemma download_pdf_title_not_text_witness :
  Downloader.download_pdf Toy.expired_view (<["title" := VInt 5]> Toy.ley_de_aguas)
    (Toy.downloader ∅) =
    (Ok None,
     Downloader.set_log [(ERROR, "Error downloading PDF: Exception")] (Toy.downloader ∅)).
Proof.
  apply (download_pdf_title_not_text Toy.expired_view (<["title" := VInt 5]> Toy.ley_de_aguas)
           (Toy.downloader ∅) (VInt 5)).
  - vm_compute; reflexivity.
  - discriminate.
Defined.

(** The download of a document of the server. *)
Lemma download_pdf_saves_body_witness :
  ∃ s',
    Downloader.download_pdf Toy.ley_pdf Toy.ley_de_aguas (Toy.downloader ∅) =
      (Ok (Some (path_join "data/improved_pdfs" "page_1_table_1_row_1_ley.pdf")), s') ∧
    Downloader.files s' !! path_join "data/improved_pdfs" "page_1_table_1_row_1_ley.pdf" =
      Some (concat_chunks ["%PDF-1.4 "; "abcd"]) ∧
    Downloader.requests s' =
      [Downloader.Head Toy.ley_pdf 30; Downloader.Get Toy.ley_pdf 30 true] ++
      [Downloader.Get Toy.ley_pdf 60 true] ∧
    last (Downloader.log s') =
      Some (INFO, "PDF downloaded successfully: " +:+ "page_1_table_1_row_1_ley.pdf").
Proof.
  apply (download_pdf_saves_body (Toy.downloader ∅) Toy.ley_pdf Toy.ley_de_aguas
           "page_1_table_1_row_1_ley.pdf" "PDF content confirmed"
           (Downloader.test_pdf_access Toy.ley_pdf
              (Downloader.announced "page_1_table_1_row_1_ley.pdf" Toy.ley_pdf
                 (Toy.downloader ∅))).2
           (Downloader.mkResponse 200 (Some "application/pdf") (Some "13")
              (Ok "%PDF-1.4 abcd") ["%PDF-1.4 "; "abcd"] None)).
  - vm_compute; reflexivity.
  - intros content Hfile. vm_compute in Hfile. discriminate.
  - vm_compute; reflexivity.
  - vm_compute; reflexivity.
  - reflexivity.
  - vm_compute; reflexivity.
  - intros text [= <-]. exists 13. vm_compute; reflexivity.
  - reflexivity.
  - vm_compute; reflexivity.
Defined.

End MoreOnTheDocumentServer.

Section MoreOnTheDocumentServer2.
#[local] Existing Instance Reference.runtime.

(** The first record of the batch is downloaded and marked. *)
Lemma process_project_marks_downloads_witness :
  (Downloader.downloaded
     (Downloader.stats (Downloader.process_project 1 Toy.ley_de_aguas (Toy.downloader ∅)).2) =
     Downloader.downloaded (Downloader.stats (Toy.downloader ∅)) + 1 ∧
   ∃ path content,
     match (Downloader.process_project 1 Toy.ley_de_aguas (Toy.downloader ∅)).1 with
     | Ok project' => project'
     | Raise _ => ∅
     end !! "pdf_file_path" = Some (VStr path) ∧
     Downloader.files (Downloader.process_project 1 Toy.ley_de_aguas (Toy.downloader ∅)).2
       !! path = Some content ∧
     content ≠ EmptyString) ∨
  (Downloader.downloaded
     (Downloader.stats (Downloader.process_project 1 Toy.ley_de_aguas (Toy.downloader ∅)).2) =
     Downloader.downloaded (Downloader.stats (Toy.downloader ∅)) ∧
   match (Downloader.process_project 1 Toy.ley_de_aguas (Toy.downloader ∅)).1 with
   | Ok project' => project'
   | Raise _ => ∅
   end !! "pdf_file_path" = Toy.ley_de_aguas !! "pdf_file_path").
Proof.
  apply (process_project_marks_downloads 1 Toy.ley_de_aguas (Toy.downloader ∅)).
  vm_compute; reflexivity.
Defined.

(** The first record of the batch: its document is the first of its
    links already, and is there twice after the loop. *)
Lemma process_project_prepends_document_url_witness :
  Toy.ley_de_aguas !! "pdf_links" = Some (VList [VStr Toy.ley_pdf]) ∧
  match (Downloader.process_project 1 Toy.ley_de_aguas (Toy.downloader ∅)).1 with
  | Ok project' => project'
  | Raise _ => ∅
  end !! "pdf_links" = Some (VList [VStr Toy.ley_pdf; VStr Toy.ley_pdf]).
Proof.
  split; [vm_compute; reflexivity |].
  apply (process_project_prepends_document_url 1 Toy.ley_de_aguas (Toy.downloader ∅) _
           (Downloader.process_project 1 Toy.ley_de_aguas (Toy.downloader ∅)).2
           Toy.ley_pdf [VStr Toy.ley_pdf]).
  - vm_compute; reflexivity.
  - discriminate.
  - vm_compute; reflexivity.
  - vm_compute; reflexivity.
Defined.


End MoreOnTheDocumentServer2.

(** ** The further properties of the scraper, on the small browsers *)

Section OnThePageOfOneBill.
#[local] Existing Instance Reference.runtime.
#[local] Instance page_of_one_bill : Selenium Toy.Browser Toy.Element :=
  Toy.selenium Toy.one_bill.

(** A new scraper on the page of one bill. *)
Lemma scrape_all_pages_keeps_records_distinct_witness :
  Improved.distinct_records (Toy.scraper (Some Toy.one_bill)) ∧
  Improved.distinct_records
    (Improved.scrape_all_pages (Some 1) (Toy.scraper (Some Toy.one_bill))).2 ∧
  length (all_projects
            (Improved.scrape_all_pages (Some 1) (Toy.scraper (Some Toy.one_bill))).2) = 1%nat.
Proof.
  assert (Improved.distinct_records (Toy.scraper (Some Toy.one_bill))) as Hnew.
  { split; [constructor |]. intros k Hk. by apply elem_of_nil in Hk. }
  split; [exact Hnew |].
  split; [| vm_compute; reflexivity].
  exact (scrape_all_pages_keeps_records_distinct (Some 1) (Toy.scraper (Some Toy.one_bill)) Hnew).
Defined.

(** The record of the bill is the first row of the first table of
    page 1. *)
Lemma extract_table_data_identity_witness :
  length (match (Improved.extract_table_data (Toy.scraper (Some Toy.one_bill))).1 with
          | Ok projects => projects
          | Raise _ => []
          end) = 1%nat ∧
  ∀ project,
    project ∈ match (Improved.extract_table_data (Toy.scraper (Some Toy.one_bill))).1 with
              | Ok projects => projects
              | Raise _ => []
              end →
    ∃ i j, (1 ≤ i)%nat ∧ (1 ≤ j)%nat ∧ Improved.found_at 1 i j project.
Proof.
  split; [vm_compute; reflexivity |].
  apply (extract_table_data_identity (Toy.scraper (Some Toy.one_bill)) _
           (Improved.extract_table_data (Toy.scraper (Some Toy.one_bill))).2).
  vm_compute; reflexivity.
Defined.

End OnThePageOfOneBill.

Section OnTheListing.
#[local] Existing Instance Reference.runtime.
#[local] Instance listing_browser : Selenium Toy.Browser Toy.Element :=
  Toy.selenium (Toy.listing true).

(** Page 1 of 5. *)
Lemma page_indicator_gives_pages_witness :
  ∃ info,
    Improved.get_total_records_and_pages (Toy.scraper (Some (Toy.listing true))) =
      (Ok info,
       set_log (log (Toy.scraper (Some (Toy.listing true))) ++ [(INFO, "Found page info")])
         (Toy.scraper (Some (Toy.listing true)))) ∧
    info !! "total_records" = Some (VInt (5 * 10)) ∧
    info !! "total_pages" = Some (VInt 5) ∧
    info !! "current_page" = Some (VInt 1) ∧
    Improved.get_current_page_number (Toy.scraper (Some (Toy.listing true))) =
      (Ok 1, Toy.scraper (Some (Toy.listing true))).
Proof.
  apply (page_indicator_gives_pages (Toy.scraper (Some (Toy.listing true))) (Toy.listing true)
           "<html><body><table></table><span>1 of 5</span></body></html>" "1" "5" 1 5).
  - reflexivity.
  - vm_compute; reflexivity.
  - vm_compute; reflexivity.
  - vm_compute; reflexivity.
  - vm_compute; reflexivity.
Defined.

(** The next control of the listing. *)
Lemma find_pagination_controls_found_witness :
  Improved.next_button
    match (Improved.find_pagination_controls (Toy.scraper (Some (Toy.listing true)))).1 with
    | Ok controls => controls
    | Raise _ => Improved.mkControls None None None
    end = Some Toy.NextControl ∧
  ∃ w, driver (Toy.scraper (Some (Toy.listing true))) = Some w ∧
       displayed_and_enabled Toy.NextControl w = Ok true.
Proof.
  split; [vm_compute; reflexivity |].
  destruct (find_pagination_controls_found (Toy.scraper (Some (Toy.listing true)))
              match (Improved.find_pagination_controls
                       (Toy.scraper (Some (Toy.listing true)))).1 with
              | Ok controls => controls
              | Raise _ => Improved.mkControls None None None
              end
              (Improved.find_pagination_controls (Toy.scraper (Some (Toy.listing true)))).2)
    as (_ & Hnext & _).
  - vm_compute; reflexivity.
  - apply Hnext. vm_compute; reflexivity.
Defined.

End OnTheListing.

Section OnThePageOfTotals.
#[local] Existing Instance Reference.runtime.
#[local] Instance page_of_totals : Selenium unit unit :=
  Static.selenium "<html><body><p>Total de registros: 25</p></body></html>".
#[local] Existing Instance Static.scripting.

(** The page shows a total and no page indicator. *)
Lemma navigate_needs_page_indicator_witness :
  Improved.first_match Improved.page_patterns
    "<html><body><p>Total de registros: 25</p></body></html>" = None ∧
  (Improved.navigate_to_next_page Static.scraper).1 ≠ Ok true.
Proof.
  assert (Improved.first_match Improved.page_patterns
            "<html><body><p>Total de registros: 25</p></body></html>" = None) as Hnone
    by (vm_compute; reflexivity).
  split; [exact Hnone |].
  apply (navigate_needs_page_indicator (W:=unit) (E:=unit)).
  intros w page_content [= <-]. exact Hnone.
Defined.

(** 25 records are on 3 pages. *)
Lemma total_pages_round_up_witness :
  ∃ info total_pages,
    Improved.get_total_records_and_pages Static.scraper =
      (Ok info, set_log (log Static.scraper ++ [(INFO, "Found total records")]) Static.scraper) ∧
    info !! "total_records" = Some (VInt 25) ∧
    info !! "total_pages" = Some (VInt total_pages) ∧
    10 * (total_pages - 1) < 25 ≤ 10 * total_pages ∧
    info !! "current_page" = Some (VInt 1).
Proof.
  apply (total_pages_round_up Static.scraper tt
           "<html><body><p>Total de registros: 25</p></body></html>" "25" 25).
  - reflexivity.
  - reflexivity.
  - vm_compute; reflexivity.
  - vm_compute; reflexivity.
  - vm_compute; reflexivity.
Defined.

(** A scraper whose browser was never started. *)
Lemma scrape_all_pages_without_driver_witness :
  Improved.scrape_all_pages None Static.new_scraper =
    (Ok [],
     set_log [ (INFO, "Starting to scrape all pages...");
               (ERROR, "Error during pagination scraping") ]
       (set_total_records 0 Static.new_scraper)).
Proof.
  apply (scrape_all_pages_without_driver None Static.new_scraper). reflexivity.
Defined.

(** A run on the page of totals, with the search form of the scraper,
    no downloads and the records exported as they are. *)
Lemma start_scraping_releases_driver_witness :
  match (Improved.start_scraping Improved.find_and_fill_date_inputs
           Improved.find_and_click_submit_button (λ _, ret tt) (λ projects _, ret projects)
           "2024-01-01" "2024-12-31" (Some 1) ["json"] Static.new_scraper).1 with
  | Ok results =>
      driver (Improved.start_scraping Improved.find_and_fill_date_inputs
                Improved.find_and_click_submit_button (λ _, ret tt) (λ projects _, ret projects)
                "2024-01-01" "2024-12-31" (Some 1) ["json"] Static.new_scraper).2 = None ∨
      (results = None ∧
       ∃ s0, Improved.setup_driver s0 =
               (Ok false,
                (Improved.start_scraping Improved.find_and_fill_date_inputs
                   Improved.find_and_click_submit_button (λ _, ret tt)
                   (λ projects _, ret projects)
                   "2024-01-01" "2024-12-31" (Some 1) ["json"] Static.new_scraper).2))
  | Raise e => e = KeyboardInterrupt
  end.
Proof.
  apply (start_scraping_releases_driver Improved.find_and_fill_date_inputs
           Improved.find_and_click_submit_button (λ _, ret tt) (λ projects _, ret projects)
           "2024-01-01" "2024-12-31" (Some 1) ["json"] Static.new_scraper).
  intros w e w'. discriminate.
Defined.

(** A batch of the scraper in front of the document server: the first
    and the fourth record are downloaded, the second has no document and
    the document of the third is served as well. *)
Lemma scraper_batch_counters_add_up_witness :
  ScraperDownloads.total
    match (ScraperDownloads.download_pdfs_for_projects Toy.batch
             (Static.scraper, Static.web ∅)).1 with
    | Ok (result, _) => result
    | Raise _ => ScraperDownloads.mkDownloadStats 0 0 0 0 []
    end = Z.of_nat (length Toy.batch) ∧
  ScraperDownloads.downloaded
    match (ScraperDownloads.download_pdfs_for_projects Toy.batch
             (Static.scraper, Static.web ∅)).1 with
    | Ok (result, _) => result
    | Raise _ => ScraperDownloads.mkDownloadStats 0 0 0 0 []
    end = 3 ∧
  ScraperDownloads.skipped
    match (ScraperDownloads.download_pdfs_for_projects Toy.batch
             (Static.scraper, Static.web ∅)).1 with
    | Ok (result, _) => result
    | Raise _ => ScraperDownloads.mkDownloadStats 0 0 0 0 []
    end = 1.
Proof.
  assert (∀ ms (w : unit) e w', sleep ms w = (Raise e, w') → is_Exception e = false)
    as Hsleep by (intros ms w e w'; discriminate).
  destruct (scraper_batch_counters_add_up Hsleep Toy.batch Static.scraper (Static.web ∅)
              match (ScraperDownloads.download_pdfs_for_projects Toy.batch
                       (Static.scraper, Static.web ∅)).1 with
              | Ok (result, _) => result
              | Raise _ => ScraperDownloads.mkDownloadStats 0 0 0 0 []
              end
              match (ScraperDownloads.download_pdfs_for_projects Toy.batch
                       (Static.scraper, Static.web ∅)).1 with
              | Ok (_, projects) => projects
              | Raise _ => []
              end
              (ScraperDownloads.download_pdfs_for_projects Toy.batch
                 (Static.scraper, Static.web ∅)).2) as (Htotal & _ & _).
  - vm_compute; reflexivity.
  - split; [exact Htotal |]. split; vm_compute; reflexivity.
Defined.

End OnThePageOfTotals.

Section OnTheFixedWindow.
#[local] Existing Instance Reference.runtime.
#[local] Instance fixed_window_browser : Selenium unit unit :=
  Static.fixed_window "<html><body></body></html>".

(** A browser whose window cannot be resized. *)
Lemma setup_failure_keeps_browser_witness :
  (Improved.start_scraping Improved.find_and_fill_date_inputs
     Improved.find_and_click_submit_button (λ _, ret tt) (λ projects _, ret projects)
     "2024-01-01" "2024-12-31" None ["json"] Static.new_scraper).1 = Ok None ∧
  driver
    (Improved.start_scraping Improved.find_and_fill_date_inputs
       Improved.find_and_click_submit_button (λ _, ret tt) (λ projects _, ret projects)
       "2024-01-01" "2024-12-31" None ["json"] Static.new_scraper).2 = Some tt ∧
  last (log
          (Improved.start_scraping Improved.find_and_fill_date_inputs
             Improved.find_and_click_submit_button (λ _, ret tt) (λ projects _, ret projects)
             "2024-01-01" "2024-12-31" None ["json"] Static.new_scraper).2) =
    Some (ERROR, "WebDriver setup failed").
Proof.
  apply (setup_failure_keeps_browser Improved.find_and_fill_date_inputs
           Improved.find_and_click_submit_button (λ _, ret tt) (λ projects _, ret projects)
           "2024-01-01" "2024-12-31" None ["json"] Static.new_scraper tt OtherException tt);
    reflexivity.
Defined.

End OnTheFixedWindow.

Section OnTheStaleLinks.
#[local] Existing Instance Reference.runtime.
#[local] Instance stale_links_browser : Selenium unit unit :=
  Static.stale_links "<html><body></body></html>".
#[local] Existing Instance Static.scripting.

(** Two download links whose [href] cannot be read: the second is not
    looked at. *)
Lemma unread_first_link_ends_fallback_witness :
  with_local false (ScraperDownloads.try_download_links "data/pdfs/ley.pdf" [tt; tt])
    (Static.scraper, Static.web ∅)
    = (Raise OtherException, (Static.scraper, Static.web ∅)).
Proof.
  apply (unread_first_link_ends_fallback "data/pdfs/ley.pdf" tt [tt] Static.scraper
           (Static.web ∅) tt OtherException); reflexivity.
Defined.

End OnTheStaleLinks.

Section OnTheSearchForm.
#[local] Existing Instance Reference.runtime.
#[local] Existing Instance Form.selenium.

(** The form of three date inputs: the first gets the start date, the
    second the end date, and the third is found and left empty. *)
Example search_form_is_filled :
  (Improved.find_and_fill_date_inputs "2024-01-01" "2024-12-31" Form.scraper).1 = Ok true ∧
  Form.typed <$>
    driver (Improved.find_and_fill_date_inputs "2024-01-01" "2024-12-31" Form.scraper).2 =
    Some [(Form.DateFrom, "2024-01-01"); (Form.DateTo, "2024-12-31")] ∧
  log (Improved.find_and_fill_date_inputs "2024-01-01" "2024-12-31" Form.scraper).2 =
    [ (INFO, "Looking for date input fields...");
      (INFO, "Found date input"); (INFO, "Filled start date");
      (INFO, "Found date input"); (INFO, "Filled end date");
      (INFO, "Found date input") ].
Proof. split; [| split]; vm_compute; reflexivity. Qed.

(** The search button is clicked once. *)
Example search_button_is_clicked :
  (Improved.find_and_click_submit_button Form.scraper).1 = Ok true ∧
  Form.clicks <$> driver (Improved.find_and_click_submit_button Form.scraper).2 = Some 1%nat.
Proof. split; vm_compute; reflexivity. Qed.

End OnTheSearchForm.

Section OfflineOnTheStaleLinks.
#[local] Existing Instance Reference.runtime.
#[local] Instance offline_stale_links : Selenium unit unit :=
  Static.stale_links "<html><body></body></html>".
#[local] Existing Instance Static.scripting.

(** The server is out of reach and the links of the page cannot be
    read: the request fails, the fallback starts and ends in its own
    handler, and the record has no file. *)
Example offline_download_ends_in_fallback :
  (ScraperDownloads.download_pdf_for_project Toy.ley_de_aguas
     (Static.scraper, Static.web_offline)).1 = Ok None ∧
  log (ScraperDownloads.download_pdf_for_project Toy.ley_de_aguas
         (Static.scraper, Static.web_offline)).2.1 =
    [ (INFO, "Downloading PDF for project");
      (WARNING, "Failed to download PDF with requests");
      (INFO, "Attempting to download PDF with Selenium");
      (ERROR, "Error downloading PDF with Selenium") ] ∧
  ScraperDownloads.files
    (ScraperDownloads.download_pdf_for_project Toy.ley_de_aguas
       (Static.scraper, Static.web_offline)).2.2 = ∅.
Proof. split; [| split]; vm_compute; reflexivity. Qed.

End OfflineOnTheStaleLinks.

